(** * EEVEE light cache: a shallow embedding of [eevee_lightcache.c]

    The development follows the C file top to bottom: the irradiance pool
    sizing, the cache shape validation, the probe counting and gathering
    passes, the hierarchical cell visiting order of a grid probe, the three
    sample callbacks, the sample scheduler and the quick world update.

    Conventions.
    - A C [int] is a [Z]; [/] and [%] are the truncating [Z.quot] and
      [Z.rem]; an integer division whose divisor is zero has no value and is
      modelled by [None].
    - A C [float] that is only carried around (positions, clip distances,
      intensities) is a rational [Q].
    - Calls into the draw manager and the GPU module are recorded, in program
      order, in a list of [call]s. *)

From Stdlib Require Import ZArith QArith Bool List Lia Permutation RelationClasses.
From stdpp Require Import base list.
Import ListNotations.

Local Open Scope Z_scope.

(* ------------------------------------------------------------------ *)
(** ** C integer helpers *)

(** [a / b] on [int]: undefined for [b = 0], truncating otherwise. *)
Definition int_div (a b : Z) : option Z :=
  if b =? 0 then None else Some (a ÷ b).

(** [a % b] on [int]. *)
Definition int_mod (a b : Z) : option Z :=
  if b =? 0 then None else Some (Z.rem a b).

(** The least integer [c] with [a <= c * b], for [0 < b]. *)
Definition ceil_div (a b : Z) : Z := - ((- a) / b).

(** [(int)ceilf((float)a / (float)b)].  The quotient is taken exactly; a zero
    divisor makes the float quotient infinite (or NaN) and its conversion to
    [int] has no value. *)
Definition ceilf_div (a b : Z) : option Z :=
  if b =? 0 then None else Some (ceil_div a b).

Definition max_ii (a b : Z) : Z := if b <? a then a else b.
Definition min_ii (a b : Z) : Z := if a <? b then a else b.
Definition MIN2 (a b : Z) : Z := if a <? b then a else b.
Definition MAX2 (a b : Z) : Z := if b <? a then a else b.
Definition MAX3 (a b c : Z) : Z := MAX2 (MAX2 a b) c.

(* ------------------------------------------------------------------ *)
(** ** Irradiance pool constants *)

(** The irradiance encoding is chosen at compile time by one of three
    preprocessor symbols; each fixes the texel footprint of one sample. *)
Inductive irradiance_encoding : Set :=
| IRRADIANCE_SH_L2
| IRRADIANCE_CUBEMAP
| IRRADIANCE_HL2.

Definition IRRADIANCE_SAMPLE_SIZE_X (e : irradiance_encoding) : Z :=
  match e with
  | IRRADIANCE_SH_L2 => 4
  | IRRADIANCE_CUBEMAP => 8
  | IRRADIANCE_HL2 => 4
  end.

Definition IRRADIANCE_SAMPLE_SIZE_Y (e : irradiance_encoding) : Z :=
  match e with
  | IRRADIANCE_SH_L2 => 4
  | IRRADIANCE_CUBEMAP => 8
  | IRRADIANCE_HL2 => 2
  end.

Definition IRRADIANCE_MAX_POOL_LAYER : Z := 256.
Definition IRRADIANCE_MAX_POOL_SIZE : Z := 1024.

(* ------------------------------------------------------------------ *)
(** ** Light cache: pool size *)

(** How many irradiance samples fit in one visibility sample. *)
Definition irr_per_vis (e : irradiance_encoding) (visibility_size : Z) : Z :=
  (visibility_size ÷ IRRADIANCE_SAMPLE_SIZE_X e) *
  (visibility_size ÷ IRRADIANCE_SAMPLE_SIZE_Y e).

(** The irradiance itself takes one layer, hence the +1. *)
Definition layer_ct (e : irradiance_encoding) (visibility_size : Z) : Z :=
  MIN2 (irr_per_vis e visibility_size + 1) IRRADIANCE_MAX_POOL_LAYER.

(** [irradiance_pool_size_get]: the three components of [r_size], or [None]
    when one of the divisions has a zero divisor. *)
Definition irradiance_pool_size_get
    (e : irradiance_encoding) (visibility_size total_samples : Z)
  : option (Z * Z * Z) :=
  match ceilf_div total_samples (layer_ct e visibility_size - 1) with
  | None => None
  | Some texel_ct =>
    match int_div IRRADIANCE_MAX_POOL_SIZE visibility_size with
    | None => None
    | Some per_row =>
      let r_size0 := visibility_size * max_ii 1 (min_ii texel_ct per_row) in
      match int_div texel_ct per_row with
      | None => None
      | Some rows =>
        let r_size1 := visibility_size * max_ii 1 rows in
        Some (r_size0, r_size1, layer_ct e visibility_size)
      end
    end
  end.

(* ------------------------------------------------------------------ *)
(** ** Light cache: textures and shape validation *)

(** A texture array as the GPU module reports it: an identity and the three
    extents read by [GPU_texture_width], [GPU_texture_height] and
    [GPU_texture_layers]. *)
Record GPUTexture : Set := mkTexture {
  tex_id : nat;
  GPU_texture_width : Z;
  GPU_texture_height : Z;
  GPU_texture_layers : Z
}.

(** Bits of [EEVEE_LightCache.flag].
    Modelled from the spec: the header that declares the [LIGHTCACHE_*]
    enumerators is not part of the sources at hand; the spec lists seven
    independent status flags (Baked, Baking, CubeReady, GridReady,
    NeedsCubeUpdate, NeedsGridUpdate, NeedsWorldUpdate), taken here as seven
    distinct single bits. *)
Definition LIGHTCACHE_BAKED : Z := Z.shiftl 1 0.
Definition LIGHTCACHE_BAKING : Z := Z.shiftl 1 1.
Definition LIGHTCACHE_CUBE_READY : Z := Z.shiftl 1 2.
Definition LIGHTCACHE_GRID_READY : Z := Z.shiftl 1 3.
Definition LIGHTCACHE_UPDATE_CUBE : Z := Z.shiftl 1 4.
Definition LIGHTCACHE_UPDATE_GRID : Z := Z.shiftl 1 5.
Definition LIGHTCACHE_UPDATE_WORLD : Z := Z.shiftl 1 6.

(** Truth value of the C expression [flag & mask]. *)
Definition flag_test (flag mask : Z) : bool := negb (Z.land flag mask =? 0).

Definition float3 : Type := Q * Q * Q.

(** [EEVEE_LightProbe]: UBO record of a reflection cube. *)
Record EEVEE_LightProbe : Type := mkEProbe {
  position : float3
}.

(** [EEVEE_LightGrid]: UBO record of an irradiance grid. *)
Record EEVEE_LightGrid : Type := mkEGrid {
  resolution : Z * Z * Z;
  offset : Z;
  corner : float3;
  increment_x : float3;
  increment_y : float3;
  increment_z : float3;
  visibility_range : Q;
  level_bias : Q
}.

Definition set_level_bias (v : Q) (g : EEVEE_LightGrid) : EEVEE_LightGrid :=
  mkEGrid (resolution g) (offset g) (corner g) (increment_x g) (increment_y g)
          (increment_z g) (visibility_range g) v.

Record EEVEE_LightCache : Type := mkCache {
  lc_flag : Z;
  lc_cube_count : Z;
  lc_grid_count : Z;
  lc_vis_res : Z;
  lc_grid_tx : GPUTexture;
  lc_cube_tx : GPUTexture;
  lc_cube_data : list EEVEE_LightProbe;
  lc_grid_data : list EEVEE_LightGrid
}.

Definition set_lc_flag (v : Z) (c : EEVEE_LightCache) : EEVEE_LightCache :=
  mkCache v (lc_cube_count c) (lc_grid_count c) (lc_vis_res c) (lc_grid_tx c)
          (lc_cube_tx c) (lc_cube_data c) (lc_grid_data c).
Definition set_lc_cube_count (v : Z) (c : EEVEE_LightCache) : EEVEE_LightCache :=
  mkCache (lc_flag c) v (lc_grid_count c) (lc_vis_res c) (lc_grid_tx c)
          (lc_cube_tx c) (lc_cube_data c) (lc_grid_data c).
Definition set_lc_grid_count (v : Z) (c : EEVEE_LightCache) : EEVEE_LightCache :=
  mkCache (lc_flag c) (lc_cube_count c) v (lc_vis_res c) (lc_grid_tx c)
          (lc_cube_tx c) (lc_cube_data c) (lc_grid_data c).
Definition set_lc_vis_res (v : Z) (c : EEVEE_LightCache) : EEVEE_LightCache :=
  mkCache (lc_flag c) (lc_cube_count c) (lc_grid_count c) v (lc_grid_tx c)
          (lc_cube_tx c) (lc_cube_data c) (lc_grid_data c).
Definition set_lc_grid_tx (v : GPUTexture) (c : EEVEE_LightCache) : EEVEE_LightCache :=
  mkCache (lc_flag c) (lc_cube_count c) (lc_grid_count c) (lc_vis_res c) v
          (lc_cube_tx c) (lc_cube_data c) (lc_grid_data c).
Definition set_lc_cube_data (v : list EEVEE_LightProbe) (c : EEVEE_LightCache)
  : EEVEE_LightCache :=
  mkCache (lc_flag c) (lc_cube_count c) (lc_grid_count c) (lc_vis_res c)
          (lc_grid_tx c) (lc_cube_tx c) v (lc_grid_data c).
Definition set_lc_grid_data (v : list EEVEE_LightGrid) (c : EEVEE_LightCache)
  : EEVEE_LightCache :=
  mkCache (lc_flag c) (lc_cube_count c) (lc_grid_count c) (lc_vis_res c)
          (lc_grid_tx c) (lc_cube_tx c) (lc_cube_data c) v.

(** [EEVEE_lightcache_validate]; a null [light_cache] is [None]. *)
Definition EEVEE_lightcache_validate
    (light_cache : option EEVEE_LightCache)
    (cube_count cube_res : Z) (irr_size : Z * Z * Z) : bool :=
  let '(irr_size0, irr_size1, irr_size2) := irr_size in
  match light_cache with
  | Some light_cache =>
    (* See if we need the same amount of texture space. *)
    if (irr_size0 =? GPU_texture_width (lc_grid_tx light_cache)) &&
       (irr_size1 =? GPU_texture_height (lc_grid_tx light_cache)) &&
       (irr_size2 =? GPU_texture_layers (lc_grid_tx light_cache))
    then
      if (cube_res =? GPU_texture_width (lc_cube_tx light_cache)) &&
         (cube_count =? GPU_texture_layers (lc_cube_tx light_cache))
      then true
      else false
    else false
  | None => false
  end.

(* ------------------------------------------------------------------ *)
(** ** Scene side: probes and objects *)

Inductive lightprobe_type : Set :=
| LIGHTPROBE_TYPE_CUBE
| LIGHTPROBE_TYPE_PLANAR
| LIGHTPROBE_TYPE_GRID.

(** [LightProbe] (DNA), restricted to the members this file reads. *)
Record LightProbe : Type := mkProbe {
  prb_type : lightprobe_type;
  grid_resolution_x : Z;
  grid_resolution_y : Z;
  grid_resolution_z : Z;
  clipsta : Q;
  clipend : Q;
  intensity : Q;
  vis_blur : Q;
  visibility_grp : nat;
  prb_invert_group : bool
}.

(** An object of the evaluated scene: [ob->type == OB_LIGHTPROBE] together
    with its [ob->data], or anything else. *)
Inductive Object : Type :=
| OB_LIGHTPROBE (ob_id : nat) (data : LightProbe)
| OB_OTHER (ob_id : nat).

(** The objects of a depsgraph in the order in which
    [DEG_OBJECT_ITER_FOR_RENDER_ENGINE] yields them. *)
Definition Depsgraph : Type := list Object.

(* ------------------------------------------------------------------ *)
(** ** Cell indexing of a grid probe *)

(** [(int)floorf(log2f((float)m))]; no value for [m <= 0], where [log2f]
    is infinite or NaN. *)
Definition floor_log2f (m : Z) : option Z :=
  if 0 <? m then Some (Z.log2 m) else None.

(** Keep in sync with lightprobe_grid_display_vert. *)
Definition cell_id_to_grid_loc (egrid : EEVEE_LightGrid) (cell_idx : Z)
  : option (Z * Z * Z) :=
  let '(res0, res1, res2) := resolution egrid in
  match int_mod cell_idx res2 with
  | None => None
  | Some c2 =>
    match int_div cell_idx res2 with
    | None => None
    | Some q =>
      match int_mod q res1 with
      | None => None
      | Some c1 =>
        match int_div cell_idx (res2 * res1) with
        | None => None
        | Some c0 => Some (c0, c1, c2)
        end
      end
    end
  end.

(** All three coordinates are multiples of [stride]. *)
Definition on_lattice (local_cell : Z * Z * Z) (stride : Z) : bool :=
  let '(c0, c1, c2) := local_cell in
  (Z.rem c0 stride =? 0) && (Z.rem c1 stride =? 0) && (Z.rem c2 stride =? 0).

(** What [compute_cell_id] hands back through its three out-parameters. *)
Record cell_id : Type := mkCellId {
  r_final_idx : Z;
  r_local_cell : Z * Z * Z;
  r_stride : Z
}.

(** Outcome of one pass of the inner [for (i ...)] loop. *)
Inductive cell_scan : Type :=
| CellFound (c : cell_id)          (* the [return] was taken *)
| CellNext (visited_cells : Z)     (* loop ran to [cell_count] *)
| CellUndefined.                   (* a division by zero on the way *)

(** The inner loop of [compute_cell_id] from index [i] on, [n] iterations
    left. *)
Fixpoint scan_cells (egrid : EEVEE_LightGrid) (cell_idx max_lvl lvl : Z)
    (n : nat) (i visited_cells : Z) : cell_scan :=
  match n with
  | O => CellNext visited_cells
  | S n' =>
    let stride := Z.shiftl 1 lvl in
    let prev_stride := Z.shiftl stride 1 in
    match cell_id_to_grid_loc egrid i with
    | None => CellUndefined
    | Some local_cell =>
      if on_lattice local_cell stride then
        if negb (on_lattice local_cell prev_stride) ||
           ((i =? 0) && (lvl =? max_lvl))
        then
          if visited_cells =? cell_idx
          then CellFound (mkCellId i local_cell stride)
          else scan_cells egrid cell_idx max_lvl lvl n' (i + 1) (visited_cells + 1)
        else scan_cells egrid cell_idx max_lvl lvl n' (i + 1) visited_cells
      else scan_cells egrid cell_idx max_lvl lvl n' (i + 1) visited_cells
    end
  end.

(** The outer [for (lvl = max_lvl; lvl >= 0; --lvl)] loop, [n] levels left.
    Running out of levels is the [BLI_assert(0)] at the end of the
    function. *)
Fixpoint scan_levels (egrid : EEVEE_LightGrid) (cell_count cell_idx max_lvl : Z)
    (n : nat) (lvl visited_cells : Z) : option cell_id :=
  match n with
  | O => None
  | S n' =>
    match scan_cells egrid cell_idx max_lvl lvl (Z.to_nat cell_count) 0
                     visited_cells with
    | CellFound c => Some c
    | CellNext visited_cells' =>
      scan_levels egrid cell_count cell_idx max_lvl n' (lvl - 1) visited_cells'
    | CellUndefined => None
    end
  end.

(** [compute_cell_id]: [None] when the search is exhausted (the assertion)
    or when the arithmetic has no value. *)
Definition compute_cell_id (egrid : EEVEE_LightGrid) (probe : LightProbe)
    (cell_idx : Z) : option cell_id :=
  let cell_count :=
    grid_resolution_x probe * grid_resolution_y probe * grid_resolution_z probe in
  match floor_log2f (MAX3 (grid_resolution_x probe) (grid_resolution_y probe)
                          (grid_resolution_z probe)) with
  | None => None
  | Some max_lvl =>
    scan_levels egrid cell_count cell_idx max_lvl (Z.to_nat (max_lvl + 1))
                max_lvl 0
  end.

Definition madd_v3_v3fl (r a : float3) (f : Q) : float3 :=
  let '(r0, r1, r2) := r in
  let '(a0, a1, a2) := a in
  (r0 + a0 * f, r1 + a1 * f, r2 + a2 * f)%Q.

Definition grid_loc_to_world_loc (egrid : EEVEE_LightGrid)
    (local_cell : Z * Z * Z) : float3 :=
  let '(c0, c1, c2) := local_cell in
  let r_pos := corner egrid in
  let r_pos := madd_v3_v3fl r_pos (increment_x egrid) (inject_Z c0) in
  let r_pos := madd_v3_v3fl r_pos (increment_y egrid) (inject_Z c1) in
  madd_v3_v3fl r_pos (increment_z egrid) (inject_Z c2).


Definition probe_of_resolution (rx ry rz : Z) : LightProbe :=
  mkProbe LIGHTPROBE_TYPE_GRID rx ry rz 0%Q 0%Q 1%Q 0%Q 0%nat false.

(* ------------------------------------------------------------------ *)
(** ** The bake job *)

(** Where [lbake->probe] points: nowhere, or at an entry of [grid_prb] or
    of [cube_prb]. *)
Inductive probe_ptr : Set :=
| PROBE_NULL
| GRID_PRB (i : nat)
| CUBE_PRB (i : nat).

(** [EEVEE_LightBake].  Arrays are lists; an array of probe pointers holds
    [None] where the pointer is null. *)
Record EEVEE_LightBake : Type := mkBake {
  lb_depsgraph : Depsgraph;
  lb_probe : probe_ptr;
  lb_rt_res : Z;
  lb_cube_count : Z;
  lb_grid_count : Z;
  lb_grid : option nat;
  lb_irr_size : Z * Z * Z;
  lb_total_irr_samples : Z;
  lb_grid_sample : Z;
  lb_bounce_curr : Z;
  lb_bounce_count : Z;
  lb_vis_res : Z;
  lb_grid_prev : option GPUTexture;
  lb_grid_prb : list (option LightProbe);
  lb_cube : option nat;
  lb_ref_cube_res : Z;
  lb_cube_offset : Z;
  lb_cube_prb : list (option LightProbe);
  lb_total : Z;
  lb_done : Z;
  lb_resource_only : bool;
  lb_gl_context : bool;
  lb_gwn_context : bool
}.

Definition set_lb_probe (v : probe_ptr) (b : EEVEE_LightBake) : EEVEE_LightBake :=
  mkBake (lb_depsgraph b) v (lb_rt_res b) (lb_cube_count b)
    (lb_grid_count b) (lb_grid b) (lb_irr_size b) (lb_total_irr_samples b)
    (lb_grid_sample b) (lb_bounce_curr b) (lb_bounce_count b) (lb_vis_res b)
    (lb_grid_prev b) (lb_grid_prb b) (lb_cube b) (lb_ref_cube_res b)
    (lb_cube_offset b) (lb_cube_prb b) (lb_total b) (lb_done b)
    (lb_resource_only b) (lb_gl_context b) (lb_gwn_context b).
Definition set_lb_rt_res (v : Z) (b : EEVEE_LightBake) : EEVEE_LightBake :=
  mkBake (lb_depsgraph b) (lb_probe b) v (lb_cube_count b) (lb_grid_count b)
    (lb_grid b) (lb_irr_size b) (lb_total_irr_samples b) (lb_grid_sample b)
    (lb_bounce_curr b) (lb_bounce_count b) (lb_vis_res b) (lb_grid_prev b)
    (lb_grid_prb b) (lb_cube b) (lb_ref_cube_res b) (lb_cube_offset b)
    (lb_cube_prb b) (lb_total b) (lb_done b) (lb_resource_only b)
    (lb_gl_context b) (lb_gwn_context b).
Definition set_lb_cube_count (v : Z) (b : EEVEE_LightBake) : EEVEE_LightBake :=
  mkBake (lb_depsgraph b) (lb_probe b) (lb_rt_res b) v (lb_grid_count b)
    (lb_grid b) (lb_irr_size b) (lb_total_irr_samples b) (lb_grid_sample b)
    (lb_bounce_curr b) (lb_bounce_count b) (lb_vis_res b) (lb_grid_prev b)
    (lb_grid_prb b) (lb_cube b) (lb_ref_cube_res b) (lb_cube_offset b)
    (lb_cube_prb b) (lb_total b) (lb_done b) (lb_resource_only b)
    (lb_gl_context b) (lb_gwn_context b).
Definition set_lb_grid_count (v : Z) (b : EEVEE_LightBake) : EEVEE_LightBake :=
  mkBake (lb_depsgraph b) (lb_probe b) (lb_rt_res b) (lb_cube_count b) v
    (lb_grid b) (lb_irr_size b) (lb_total_irr_samples b) (lb_grid_sample b)
    (lb_bounce_curr b) (lb_bounce_count b) (lb_vis_res b) (lb_grid_prev b)
    (lb_grid_prb b) (lb_cube b) (lb_ref_cube_res b) (lb_cube_offset b)
    (lb_cube_prb b) (lb_total b) (lb_done b) (lb_resource_only b)
    (lb_gl_context b) (lb_gwn_context b).
Definition set_lb_grid (v : option nat) (b : EEVEE_LightBake) : EEVEE_LightBake :=
  mkBake (lb_depsgraph b) (lb_probe b) (lb_rt_res b) (lb_cube_count b)
    (lb_grid_count b) v (lb_irr_size b) (lb_total_irr_samples b)
    (lb_grid_sample b) (lb_bounce_curr b) (lb_bounce_count b) (lb_vis_res b)
    (lb_grid_prev b) (lb_grid_prb b) (lb_cube b) (lb_ref_cube_res b)
    (lb_cube_offset b) (lb_cube_prb b) (lb_total b) (lb_done b)
    (lb_resource_only b) (lb_gl_context b) (lb_gwn_context b).
Definition set_lb_irr_size (v : Z * Z * Z) (b : EEVEE_LightBake) : EEVEE_LightBake :=
  mkBake (lb_depsgraph b) (lb_probe b) (lb_rt_res b) (lb_cube_count b)
    (lb_grid_count b) (lb_grid b) v (lb_total_irr_samples b)
    (lb_grid_sample b) (lb_bounce_curr b) (lb_bounce_count b) (lb_vis_res b)
    (lb_grid_prev b) (lb_grid_prb b) (lb_cube b) (lb_ref_cube_res b)
    (lb_cube_offset b) (lb_cube_prb b) (lb_total b) (lb_done b)
    (lb_resource_only b) (lb_gl_context b) (lb_gwn_context b).
Definition set_lb_total_irr_samples (v : Z) (b : EEVEE_LightBake) : EEVEE_LightBake :=
  mkBake (lb_depsgraph b) (lb_probe b) (lb_rt_res b) (lb_cube_count b)
    (lb_grid_count b) (lb_grid b) (lb_irr_size b) v (lb_grid_sample b)
    (lb_bounce_curr b) (lb_bounce_count b) (lb_vis_res b) (lb_grid_prev b)
    (lb_grid_prb b) (lb_cube b) (lb_ref_cube_res b) (lb_cube_offset b)
    (lb_cube_prb b) (lb_total b) (lb_done b) (lb_resource_only b)
    (lb_gl_context b) (lb_gwn_context b).
Definition set_lb_grid_sample (v : Z) (b : EEVEE_LightBake) : EEVEE_LightBake :=
  mkBake (lb_depsgraph b) (lb_probe b) (lb_rt_res b) (lb_cube_count b)
    (lb_grid_count b) (lb_grid b) (lb_irr_size b) (lb_total_irr_samples b) v
    (lb_bounce_curr b) (lb_bounce_count b) (lb_vis_res b) (lb_grid_prev b)
    (lb_grid_prb b) (lb_cube b) (lb_ref_cube_res b) (lb_cube_offset b)
    (lb_cube_prb b) (lb_total b) (lb_done b) (lb_resource_only b)
    (lb_gl_context b) (lb_gwn_context b).
Definition set_lb_bounce_curr (v : Z) (b : EEVEE_LightBake) : EEVEE_LightBake :=
  mkBake (lb_depsgraph b) (lb_probe b) (lb_rt_res b) (lb_cube_count b)
    (lb_grid_count b) (lb_grid b) (lb_irr_size b) (lb_total_irr_samples b)
    (lb_grid_sample b) v (lb_bounce_count b) (lb_vis_res b) (lb_grid_prev b)
    (lb_grid_prb b) (lb_cube b) (lb_ref_cube_res b) (lb_cube_offset b)
    (lb_cube_prb b) (lb_total b) (lb_done b) (lb_resource_only b)
    (lb_gl_context b) (lb_gwn_context b).
Definition set_lb_bounce_count (v : Z) (b : EEVEE_LightBake) : EEVEE_LightBake :=
  mkBake (lb_depsgraph b) (lb_probe b) (lb_rt_res b) (lb_cube_count b)
    (lb_grid_count b) (lb_grid b) (lb_irr_size b) (lb_total_irr_samples b)
    (lb_grid_sample b) (lb_bounce_curr b) v (lb_vis_res b) (lb_grid_prev b)
    (lb_grid_prb b) (lb_cube b) (lb_ref_cube_res b) (lb_cube_offset b)
    (lb_cube_prb b) (lb_total b) (lb_done b) (lb_resource_only b)
    (lb_gl_context b) (lb_gwn_context b).
Definition set_lb_vis_res (v : Z) (b : EEVEE_LightBake) : EEVEE_LightBake :=
  mkBake (lb_depsgraph b) (lb_probe b) (lb_rt_res b) (lb_cube_count b)
    (lb_grid_count b) (lb_grid b) (lb_irr_size b) (lb_total_irr_samples b)
    (lb_grid_sample b) (lb_bounce_curr b) (lb_bounce_count b) v
    (lb_grid_prev b) (lb_grid_prb b) (lb_cube b) (lb_ref_cube_res b)
    (lb_cube_offset b) (lb_cube_prb b) (lb_total b) (lb_done b)
    (lb_resource_only b) (lb_gl_context b) (lb_gwn_context b).
Definition set_lb_grid_prev (v : option GPUTexture) (b : EEVEE_LightBake) : EEVEE_LightBake :=
  mkBake (lb_depsgraph b) (lb_probe b) (lb_rt_res b) (lb_cube_count b)
    (lb_grid_count b) (lb_grid b) (lb_irr_size b) (lb_total_irr_samples b)
    (lb_grid_sample b) (lb_bounce_curr b) (lb_bounce_count b) (lb_vis_res b)
    v (lb_grid_prb b) (lb_cube b) (lb_ref_cube_res b) (lb_cube_offset b)
    (lb_cube_prb b) (lb_total b) (lb_done b) (lb_resource_only b)
    (lb_gl_context b) (lb_gwn_context b).
Definition set_lb_grid_prb (v : list (option LightProbe)) (b : EEVEE_LightBake) : EEVEE_LightBake :=
  mkBake (lb_depsgraph b) (lb_probe b) (lb_rt_res b) (lb_cube_count b)
    (lb_grid_count b) (lb_grid b) (lb_irr_size b) (lb_total_irr_samples b)
    (lb_grid_sample b) (lb_bounce_curr b) (lb_bounce_count b) (lb_vis_res b)
    (lb_grid_prev b) v (lb_cube b) (lb_ref_cube_res b) (lb_cube_offset b)
    (lb_cube_prb b) (lb_total b) (lb_done b) (lb_resource_only b)
    (lb_gl_context b) (lb_gwn_context b).
Definition set_lb_cube (v : option nat) (b : EEVEE_LightBake) : EEVEE_LightBake :=
  mkBake (lb_depsgraph b) (lb_probe b) (lb_rt_res b) (lb_cube_count b)
    (lb_grid_count b) (lb_grid b) (lb_irr_size b) (lb_total_irr_samples b)
    (lb_grid_sample b) (lb_bounce_curr b) (lb_bounce_count b) (lb_vis_res b)
    (lb_grid_prev b) (lb_grid_prb b) v (lb_ref_cube_res b)
    (lb_cube_offset b) (lb_cube_prb b) (lb_total b) (lb_done b)
    (lb_resource_only b) (lb_gl_context b) (lb_gwn_context b).
Definition set_lb_ref_cube_res (v : Z) (b : EEVEE_LightBake) : EEVEE_LightBake :=
  mkBake (lb_depsgraph b) (lb_probe b) (lb_rt_res b) (lb_cube_count b)
    (lb_grid_count b) (lb_grid b) (lb_irr_size b) (lb_total_irr_samples b)
    (lb_grid_sample b) (lb_bounce_curr b) (lb_bounce_count b) (lb_vis_res b)
    (lb_grid_prev b) (lb_grid_prb b) (lb_cube b) v (lb_cube_offset b)
    (lb_cube_prb b) (lb_total b) (lb_done b) (lb_resource_only b)
    (lb_gl_context b) (lb_gwn_context b).
Definition set_lb_cube_offset (v : Z) (b : EEVEE_LightBake) : EEVEE_LightBake :=
  mkBake (lb_depsgraph b) (lb_probe b) (lb_rt_res b) (lb_cube_count b)
    (lb_grid_count b) (lb_grid b) (lb_irr_size b) (lb_total_irr_samples b)
    (lb_grid_sample b) (lb_bounce_curr b) (lb_bounce_count b) (lb_vis_res b)
    (lb_grid_prev b) (lb_grid_prb b) (lb_cube b) (lb_ref_cube_res b) v
    (lb_cube_prb b) (lb_total b) (lb_done b) (lb_resource_only b)
    (lb_gl_context b) (lb_gwn_context b).
Definition set_lb_cube_prb (v : list (option LightProbe)) (b : EEVEE_LightBake) : EEVEE_LightBake :=
  mkBake (lb_depsgraph b) (lb_probe b) (lb_rt_res b) (lb_cube_count b)
    (lb_grid_count b) (lb_grid b) (lb_irr_size b) (lb_total_irr_samples b)
    (lb_grid_sample b) (lb_bounce_curr b) (lb_bounce_count b) (lb_vis_res b)
    (lb_grid_prev b) (lb_grid_prb b) (lb_cube b) (lb_ref_cube_res b)
    (lb_cube_offset b) v (lb_total b) (lb_done b) (lb_resource_only b)
    (lb_gl_context b) (lb_gwn_context b).
Definition set_lb_total (v : Z) (b : EEVEE_LightBake) : EEVEE_LightBake :=
  mkBake (lb_depsgraph b) (lb_probe b) (lb_rt_res b) (lb_cube_count b)
    (lb_grid_count b) (lb_grid b) (lb_irr_size b) (lb_total_irr_samples b)
    (lb_grid_sample b) (lb_bounce_curr b) (lb_bounce_count b) (lb_vis_res b)
    (lb_grid_prev b) (lb_grid_prb b) (lb_cube b) (lb_ref_cube_res b)
    (lb_cube_offset b) (lb_cube_prb b) v (lb_done b) (lb_resource_only b)
    (lb_gl_context b) (lb_gwn_context b).
Definition set_lb_done (v : Z) (b : EEVEE_LightBake) : EEVEE_LightBake :=
  mkBake (lb_depsgraph b) (lb_probe b) (lb_rt_res b) (lb_cube_count b)
    (lb_grid_count b) (lb_grid b) (lb_irr_size b) (lb_total_irr_samples b)
    (lb_grid_sample b) (lb_bounce_curr b) (lb_bounce_count b) (lb_vis_res b)
    (lb_grid_prev b) (lb_grid_prb b) (lb_cube b) (lb_ref_cube_res b)
    (lb_cube_offset b) (lb_cube_prb b) (lb_total b) v (lb_resource_only b)
    (lb_gl_context b) (lb_gwn_context b).
Definition set_lb_gl_context (v : bool) (b : EEVEE_LightBake) : EEVEE_LightBake :=
  mkBake (lb_depsgraph b) (lb_probe b) (lb_rt_res b) (lb_cube_count b)
    (lb_grid_count b) (lb_grid b) (lb_irr_size b) (lb_total_irr_samples b)
    (lb_grid_sample b) (lb_bounce_curr b) (lb_bounce_count b) (lb_vis_res b)
    (lb_grid_prev b) (lb_grid_prb b) (lb_cube b) (lb_ref_cube_res b)
    (lb_cube_offset b) (lb_cube_prb b) (lb_total b) (lb_done b)
    (lb_resource_only b) v (lb_gwn_context b).
Definition set_lb_gwn_context (v : bool) (b : EEVEE_LightBake) : EEVEE_LightBake :=
  mkBake (lb_depsgraph b) (lb_probe b) (lb_rt_res b) (lb_cube_count b)
    (lb_grid_count b) (lb_grid b) (lb_irr_size b) (lb_total_irr_samples b)
    (lb_grid_sample b) (lb_bounce_curr b) (lb_bounce_count b) (lb_vis_res b)
    (lb_grid_prev b) (lb_grid_prb b) (lb_cube b) (lb_ref_cube_res b)
    (lb_cube_offset b) (lb_cube_prb b) (lb_total b) (lb_done b)
    (lb_resource_only b) (lb_gl_context b) v.

(** [EEVEE_CommonUniformBuffer], restricted to what the callbacks write. *)
Record EEVEE_CommonUniformBuffer : Set := mkCommon {
  spec_toggle : bool;
  prb_num_planar : Z;
  prb_num_render_cube : Z;
  prb_num_render_grid : Z
}.

(** [SceneEEVEE]: the bake settings and the cache pointer.  The original and
    the evaluated scene carry the same settings and, from
    [eevee_lightbake_create_resources] on, the same cache, so one record
    stands for both. *)
Record SceneEEVEE : Type := mkScene {
  gi_diffuse_bounces : Z;
  gi_visibility_resolution : Z;
  gi_cubemap_resolution : Z;
  light_cache : option EEVEE_LightCache
}.

Definition set_light_cache (v : option EEVEE_LightCache) (s : SceneEEVEE)
  : SceneEEVEE :=
  mkScene (gi_diffuse_bounces s) (gi_visibility_resolution s)
          (gi_cubemap_resolution s) v.

(** What the job does to the world outside this file, in program order:
    calls into the draw manager, the GPU module and the window manager, and
    the stores through the [progress] and [do_update] pointers. *)
Inductive event : Type :=
| DRW_opengl_context_enable
| DRW_opengl_context_disable
| DRW_opengl_render_context_enable
| DRW_opengl_render_context_disable
| DRW_gawain_render_context_enable
| DRW_gawain_render_context_disable
| GWN_context_create
| GWN_context_discard
| WM_opengl_context_dispose
| DRW_texture_create_cube (res : Z)
| DRW_texture_create_2D_array (tex : GPUTexture)
| DRW_texture_free (tex : GPUTexture)
| GPU_texture_read (tex : GPUTexture)
| GPU_framebuffer_free
| DRW_custom_pipeline
| lightbake_cache_create (vis_probe : option LightProbe)
| EEVEE_lightbake_cache_init
| EEVEE_lightbake_render_world
| EEVEE_lightbake_render_scene (pos : float3) (clipsta clipend : Q)
| EEVEE_lightbake_filter_glossy (probe_idx : Z) (intensity : Q)
| EEVEE_lightbake_filter_diffuse (grid_offset : Z) (intensity : Q)
| EEVEE_lightbake_filter_visibility
    (grid_offset : Z) (clipsta clipend vis_range vis_blur : Q) (vis_size : Z)
| probe_grid_fill (target : GPUTexture)
| DRW_uniformbuffer_update (c : EEVEE_CommonUniformBuffer)
| DEG_id_tag_update
| store_progress (p : option Q)
| store_do_update.

(** [a / (float)b] as stored in [*progress]: the exact quotient, [None]
    when the divisor is zero and the float is not finite. *)
Definition float_div (a b : Z) : option Q :=
  if b =? 0 then None else Some (inject_Z a / inject_Z b)%Q.

(** The memory the job works on. *)
Record bake_state : Type := mkState {
  lbake : EEVEE_LightBake;
  scene : SceneEEVEE;
  common_data : EEVEE_CommonUniformBuffer;
  polls : nat;            (* reads of [G.is_break] so far *)
  next_tex : nat;         (* textures created so far *)
  events : list event
}.

Definition set_lbake (v : EEVEE_LightBake) (s : bake_state) : bake_state :=
  mkState v (scene s) (common_data s) (polls s) (next_tex s) (events s).
Definition set_scene (v : SceneEEVEE) (s : bake_state) : bake_state :=
  mkState (lbake s) v (common_data s) (polls s) (next_tex s) (events s).
Definition set_common_data (v : EEVEE_CommonUniformBuffer) (s : bake_state)
  : bake_state :=
  mkState (lbake s) (scene s) v (polls s) (next_tex s) (events s).
Definition set_polls (v : nat) (s : bake_state) : bake_state :=
  mkState (lbake s) (scene s) (common_data s) v (next_tex s) (events s).
Definition set_next_tex (v : nat) (s : bake_state) : bake_state :=
  mkState (lbake s) (scene s) (common_data s) (polls s) v (events s).
Definition set_events (v : list event) (s : bake_state) : bake_state :=
  mkState (lbake s) (scene s) (common_data s) (polls s) (next_tex s) v.

(** A step either completes with a value or is fatal: a null or
    out-of-bounds access, an arithmetic operation without value, or the
    assertion of [compute_cell_id].  The state is the one reached. *)
Inductive result (A : Type) : Type :=
| Ok (a : A)
| Fatal.
Arguments Ok {A} a.
Arguments Fatal {A}.

Definition bake (A : Type) : Type := bake_state -> result A * bake_state.

Definition ret {A : Type} (a : A) : bake A := fun s => (Ok a, s).

Definition bind {A B : Type} (c : bake A) (k : A -> bake B) : bake B :=
  fun s =>
    match c s with
    | (Ok a, s') => k a s'
    | (Fatal, s') => (Fatal, s')
    end.

Definition fatal {A : Type} : bake A := fun s => (Fatal, s).

Notation "'let*' x ':=' c 'in' k" := (bind c (fun x => k))
  (at level 10, x name, c at level 100, k at level 200).
Notation "c1 >> c2" := (bind c1 (fun _ => c2))
  (at level 100, c2 at level 200, right associativity).

Definition gets {A : Type} (f : bake_state -> A) : bake A :=
  fun s => (Ok (f s), s).
Definition modify (f : bake_state -> bake_state) : bake unit :=
  fun s => (Ok tt, f s).
Definition of_option {A : Type} (o : option A) : bake A :=
  match o with
  | Some a => ret a
  | None => fatal
  end.

Definition emit (e : event) : bake unit :=
  modify (fun s => set_events (events s ++ [e]) s).
Definition modify_lbake (f : EEVEE_LightBake -> EEVEE_LightBake) : bake unit :=
  modify (fun s => set_lbake (f (lbake s)) s).

(** Dereference of [scene->eevee.light_cache]. *)
Definition get_lcache : bake EEVEE_LightCache :=
  let* sc := gets scene in of_option (light_cache sc).
Definition put_lcache (c : EEVEE_LightCache) : bake unit :=
  modify (fun s => set_scene (set_light_cache (Some c) (scene s)) s).
Definition modify_lcache (f : EEVEE_LightCache -> EEVEE_LightCache) : bake unit :=
  let* c := get_lcache in put_lcache (f c).

(** [a[i] = x] on an array of [length a] elements. *)
Definition array_store {A : Type} (a : list A) (i : Z) (x : A) : option (list A) :=
  if (0 <=? i) && (i <? Z.of_nat (length a))
  then Some (<[Z.to_nat i := x]> a)
  else None.

(** [a[i]]. *)
Definition array_load {A : Type} (a : list A) (i : Z) : option A :=
  if 0 <=? i then a !! Z.to_nat i else None.

(** [for (i = start; i < start + n; ++i) body(i)]. *)
Fixpoint for_range (n : nat) (i : Z) (body : Z -> bake unit) : bake unit :=
  match n with
  | O => ret tt
  | S n' => body i >> for_range n' (i + 1) body
  end.

(** A texture array of the given extents; the GPU module names it. *)
Definition texture_create_2D_array (w h d : Z) : bake GPUTexture :=
  let* id := gets next_tex in
  let tex := mkTexture id w h d in
  modify (set_next_tex (S id)) >>
  emit (DRW_texture_create_2D_array tex) >>
  ret tex.

(** What the file takes from its surroundings: the compile-time irradiance
    encoding, the octahedral size macro, the two UBO fillers of
    [eevee_lightprobes.c], and the value of [G.is_break] at the n-th time the
    scheduler reads it. *)
Record surroundings : Type := mkSurroundings {
  encoding : irradiance_encoding;
  OCTAHEDRAL_SIZE_FROM_CUBESIZE : Z -> Z;
  EEVEE_lightprobes_grid_data_from_object :
    Object -> EEVEE_LightGrid -> Z -> EEVEE_LightGrid * Z;
  EEVEE_lightprobes_cube_data_from_object :
    Object -> EEVEE_LightProbe -> EEVEE_LightProbe;
  G_is_break : nat -> bool
}.

Definition zero_v3 : float3 := (0, 0, 0)%Q.

(** Zero-filled records, as [MEM_callocN] hands them out. *)
Definition calloc_LightProbe : EEVEE_LightProbe := mkEProbe zero_v3.
Definition calloc_LightGrid : EEVEE_LightGrid :=
  mkEGrid (0, 0, 0) 0 zero_v3 zero_v3 zero_v3 zero_v3 0%Q 0%Q.
Definition calloc_LightBake (depsgraph : Depsgraph) : EEVEE_LightBake :=
  mkBake depsgraph PROBE_NULL 0 0 0 None (0, 0, 0) 0 0 0 0 0 None [] None 0 0 []
         0 0 false false false.

Section LightBake.

Variable env : surroundings.

(** *** Light cache creation and release *)

Definition EEVEE_lightcache_create (grid_count cube_count cube_size : Z)
    (irr_size : Z * Z * Z) : bake EEVEE_LightCache :=
  let '(irr_size0, irr_size1, irr_size2) := irr_size in
  let cube_data := replicate (Z.to_nat cube_count) calloc_LightProbe in
  let grid_data := replicate (Z.to_nat grid_count) calloc_LightGrid in
  let* grid_tx := texture_create_2D_array irr_size0 irr_size1 irr_size2 in
  let* cube_tx := texture_create_2D_array cube_size cube_size cube_count in
  let flag := Z.lor (Z.lor LIGHTCACHE_UPDATE_WORLD LIGHTCACHE_UPDATE_CUBE)
                    LIGHTCACHE_UPDATE_GRID in
  ret (mkCache flag 0 0 0 grid_tx cube_tx cube_data grid_data).

Definition EEVEE_lightcache_free (lcache : EEVEE_LightCache) : bake unit :=
  emit (DRW_texture_free (lc_cube_tx lcache)) >>
  emit (DRW_texture_free (lc_grid_tx lcache)).

(** *** Light bake context *)

Definition eevee_lightbake_context_enable : bake unit :=
  let* lb := gets lbake in
  if lb_gl_context lb then
    emit DRW_opengl_render_context_enable >>
    (if lb_gwn_context lb then ret tt
     else emit GWN_context_create >> modify_lbake (set_lb_gwn_context true)) >>
    emit DRW_gawain_render_context_enable
  else
    emit DRW_opengl_context_enable.

Definition eevee_lightbake_context_disable : bake unit :=
  let* lb := gets lbake in
  if lb_gl_context lb then
    emit DRW_gawain_render_context_disable >>
    emit DRW_opengl_render_context_disable
  else
    emit DRW_opengl_context_disable.

(** *** Light bake job: counting and resources *)

(** One iteration of the object loop of [eevee_lightbake_count_probes]. *)
Definition count_probes_step (lb : EEVEE_LightBake) (ob : Object)
  : EEVEE_LightBake :=
  match ob with
  | OB_LIGHTPROBE _ prb =>
    match prb_type prb with
    | LIGHTPROBE_TYPE_GRID =>
      let lb :=
        set_lb_total_irr_samples
          (lb_total_irr_samples lb +
           grid_resolution_x prb * grid_resolution_y prb * grid_resolution_z prb)
          lb in
      set_lb_grid_count (lb_grid_count lb + 1) lb
    | LIGHTPROBE_TYPE_CUBE => set_lb_cube_count (lb_cube_count lb + 1) lb
    | LIGHTPROBE_TYPE_PLANAR => lb
    end
  | OB_OTHER _ => lb
  end.

Definition eevee_lightbake_count_probes (lb : EEVEE_LightBake)
  : EEVEE_LightBake :=
  (* At least one of each for the world *)
  let lb := set_lb_total_irr_samples 1 lb in
  let lb := set_lb_cube_count 1 lb in
  let lb := set_lb_grid_count 1 lb in
  fold_left count_probes_step (lb_depsgraph lb) lb.

Definition eevee_lightbake_create_render_target (rt_res : Z) : bake unit :=
  emit (DRW_texture_create_cube rt_res) >>
  emit (DRW_texture_create_cube rt_res).

Definition eevee_lightbake_create_resources : bake unit :=
  let* eevee := gets scene in
  modify_lbake (set_lb_bounce_count (gi_diffuse_bounces eevee)) >>
  modify_lbake (set_lb_vis_res (gi_visibility_resolution eevee)) >>
  modify_lbake (set_lb_rt_res (gi_cubemap_resolution eevee)) >>
  let* lb := gets lbake in
  let* irr_size :=
    of_option (irradiance_pool_size_get (encoding env) (lb_vis_res lb)
                                        (lb_total_irr_samples lb)) in
  modify_lbake (set_lb_irr_size irr_size) >>
  modify_lbake (set_lb_ref_cube_res
                  (OCTAHEDRAL_SIZE_FROM_CUBESIZE env (lb_rt_res lb))) >>
  modify_lbake (set_lb_cube_prb (replicate (Z.to_nat (lb_cube_count lb)) None)) >>
  modify_lbake (set_lb_grid_prb (replicate (Z.to_nat (lb_grid_count lb)) None)) >>
  let '(irr_size0, irr_size1, irr_size2) := irr_size in
  let* grid_prev := texture_create_2D_array irr_size0 irr_size1 irr_size2 in
  modify_lbake (set_lb_grid_prev (Some grid_prev)) >>
  let* lb := gets lbake in
  (* Ensure Light Cache is ready to accept new data. If not recreate one. *)
  (match light_cache eevee with
   | Some lcache =>
     if negb (EEVEE_lightcache_validate (Some lcache) (lb_cube_count lb)
                (lb_ref_cube_res lb) (lb_irr_size lb))
     then EEVEE_lightcache_free lcache >>
          modify (fun s => set_scene (set_light_cache None (scene s)) s)
     else ret tt
   | None => ret tt
   end) >>
  let* eevee := gets scene in
  (match light_cache eevee with
   | None =>
     let* lcache := EEVEE_lightcache_create (lb_grid_count lb) (lb_cube_count lb)
                      (lb_ref_cube_res lb) (lb_irr_size lb) in
     put_lcache lcache >> emit DEG_id_tag_update
   | Some _ => ret tt
   end) >>
  modify_lcache (set_lc_vis_res (lb_vis_res lb)) >>
  modify_lcache
    (set_lc_flag (Z.lor (Z.lor (Z.lor LIGHTCACHE_UPDATE_WORLD LIGHTCACHE_UPDATE_CUBE)
                               LIGHTCACHE_UPDATE_GRID) LIGHTCACHE_BAKING)).

(** MUST run on the main thread.  The state it starts from holds the scene;
    the [EEVEE_LightBake] is allocated here. *)
Definition EEVEE_lightbake_job_data_alloc (depsgraph : Depsgraph)
    (run_as_job : bool) : bake unit :=
  modify (set_lbake (calloc_LightBake depsgraph)) >>
  (if run_as_job then modify_lbake (set_lb_gl_context true) else ret tt) >>
  (* Count lightprobes *)
  modify_lbake eevee_lightbake_count_probes >>
  emit DRW_opengl_context_enable >>
  eevee_lightbake_create_resources >>
  emit DRW_opengl_context_disable.

Definition eevee_lightbake_delete_resources : bake unit :=
  let* lb := gets lbake in
  (if lb_gl_context lb then
     emit DRW_opengl_render_context_enable >>
     emit DRW_gawain_render_context_enable
   else if negb (lb_resource_only lb) then emit DRW_opengl_context_enable
   else ret tt) >>
  (match lb_grid_prev lb with
   | Some tex => emit (DRW_texture_free tex) >>
                 modify_lbake (set_lb_grid_prev None)
   | None => ret tt
   end) >>
  emit GPU_framebuffer_free >>
  (if lb_gl_context lb then
     (* Delete the baking context. *)
     emit DRW_gawain_render_context_disable >>
     emit DRW_gawain_render_context_enable >>
     emit GWN_context_discard >>
     emit DRW_opengl_render_context_disable >>
     emit WM_opengl_context_dispose >>
     modify_lbake (set_lb_gwn_context false) >>
     modify_lbake (set_lb_gl_context false)
   else if negb (lb_resource_only lb) then emit DRW_opengl_context_disable
   else ret tt).

(** *** Light bake job: the sample callbacks *)

(** [*lbake->probe], followed by a member access: fatal when [lbake->probe]
    is null or outside its array, or when the entry is a null pointer. *)
Definition deref_probe : bake LightProbe :=
  let* lb := gets lbake in
  match lb_probe lb with
  | PROBE_NULL => fatal
  | GRID_PRB i => of_option (mjoin (lb_grid_prb lb !! i))
  | CUBE_PRB i => of_option (mjoin (lb_cube_prb lb !! i))
  end.

(** [lbake->probe++]. *)
Definition probe_ptr_next (p : probe_ptr) : probe_ptr :=
  match p with
  | PROBE_NULL => PROBE_NULL
  | GRID_PRB i => GRID_PRB (S i)
  | CUBE_PRB i => CUBE_PRB (S i)
  end.

(** Cache as in draw cache not light cache.  The engine initialisation
    calls are one event; it carries the probe whose visibility collection is
    installed, if any. *)
Definition eevee_lightbake_cache_create : bake unit :=
  let* lb := gets lbake in
  match lb_probe lb with
  | PROBE_NULL => emit (lightbake_cache_create None)
  | _ => let* prb := deref_probe in emit (lightbake_cache_create (Some prb))
  end.

(** [SWAP(GPUTexture *, lbake->grid_prev, lcache->grid_tx)].  The textures of
    a cache are never null; swapping a null [grid_prev] in is fatal. *)
Definition swap_grid_prev_grid_tx : bake unit :=
  let* lb := gets lbake in
  let* lcache := get_lcache in
  match lb_grid_prev lb with
  | None => fatal
  | Some prev =>
    modify_lbake (set_lb_grid_prev (Some (lc_grid_tx lcache))) >>
    modify_lcache (set_lc_grid_tx prev)
  end.

Definition eevee_lightbake_copy_irradiance : bake unit :=
  let* lb := gets lbake in
  (match lb_grid_prev lb with
   | Some tex => emit (DRW_texture_free tex) >>
                 modify_lbake (set_lb_grid_prev None)
   | None => ret tt
   end) >>
  (* Copy texture by reading back and reuploading it. *)
  let* lcache := get_lcache in
  emit (GPU_texture_read (lc_grid_tx lcache)) >>
  let '(irr_size0, irr_size1, irr_size2) := lb_irr_size lb in
  let* tex := texture_create_2D_array irr_size0 irr_size1 irr_size2 in
  modify_lbake (set_lb_grid_prev (Some tex)).

Definition eevee_lightbake_render_world_sample : bake unit :=
  eevee_lightbake_cache_create >>
  emit EEVEE_lightbake_render_world >>
  emit (EEVEE_lightbake_filter_glossy 0 1%Q) >>
  emit (EEVEE_lightbake_filter_diffuse 0 1%Q) >>
  (* Clear the cache to avoid white values in the grid. *)
  let* lb := gets lbake in
  let* grid_prev := of_option (lb_grid_prev lb) in
  emit (probe_grid_fill grid_prev) >>
  swap_grid_prev_grid_tx >>
  (* Make a copy for later. *)
  eevee_lightbake_copy_irradiance >>
  modify_lcache (set_lc_cube_count 1) >>
  modify_lcache (set_lc_grid_count (lb_grid_count lb)) >>
  modify_lcache (fun lcache =>
    set_lc_flag (Z.lor (lc_flag lcache)
                       (Z.lor LIGHTCACHE_CUBE_READY LIGHTCACHE_GRID_READY)) lcache) >>
  modify_lcache (fun lcache =>
    set_lc_flag (Z.land (lc_flag lcache) (Z.lnot LIGHTCACHE_UPDATE_WORLD)) lcache).

(** [egrid->level_bias = v] where [egrid] is [lcache->grid_data + i]. *)
Definition store_level_bias (i : nat) (v : Q) : bake unit :=
  let* lcache := get_lcache in
  let* egrid := of_option (lc_grid_data lcache !! i) in
  put_lcache (set_lc_grid_data (<[i := set_level_bias v egrid]> (lc_grid_data lcache))
                               lcache).

Definition eevee_lightbake_render_grid_sample : bake unit :=
  let* lb := gets lbake in
  let* egrid_idx := of_option (lb_grid lb) in
  let* prb := deref_probe in
  let* lcache := get_lcache in
  let* egrid := of_option (lc_grid_data lcache !! egrid_idx) in
  let is_last_bounce_sample :=
    offset egrid + lb_grid_sample lb =? lb_total_irr_samples lb - 1 in
  (* No bias for rendering the probe. *)
  store_level_bias egrid_idx 1%Q >>
  (* Use the previous bounce for rendering this bounce. *)
  swap_grid_prev_grid_tx >>
  eevee_lightbake_cache_create >>
  (* Compute sample position *)
  let* cell := of_option (compute_cell_id egrid prb (lb_grid_sample lb)) in
  let sample_offset := offset egrid + r_final_idx cell in
  let pos := grid_loc_to_world_loc egrid (r_local_cell cell) in
  (* Disable specular lighting when rendering probes to avoid feedback loops. *)
  modify (fun s =>
    let c := common_data s in
    set_common_data
      (mkCommon false 0 0
         (if lb_bounce_curr lb =? 0 then 0 else prb_num_render_grid c)) s) >>
  let* c := gets common_data in
  emit (DRW_uniformbuffer_update c) >>
  emit (EEVEE_lightbake_render_scene pos (clipsta prb) (clipend prb)) >>
  (* Restore before filtering. *)
  swap_grid_prev_grid_tx >>
  emit (EEVEE_lightbake_filter_diffuse sample_offset (intensity prb)) >>
  (if lb_bounce_curr lb =? 0 then
     (* We only need to filter the visibility for the first bounce. *)
     emit (EEVEE_lightbake_filter_visibility sample_offset (clipsta prb)
             (clipend prb) (visibility_range egrid) (vis_blur prb) (lb_vis_res lb))
   else ret tt) >>
  (* Update level for progressive update. *)
  (if is_last_bounce_sample then store_level_bias egrid_idx 1%Q
   else if lb_bounce_curr lb =? 0
        then store_level_bias egrid_idx (inject_Z (Z.shiftl (r_stride cell) 1))
        else ret tt) >>
  (* Only run this for the last sample of a bounce. *)
  (if is_last_bounce_sample then eevee_lightbake_copy_irradiance else ret tt).

Definition eevee_lightbake_render_probe_sample : bake unit :=
  let* lb := gets lbake in
  let* cube_idx := of_option (lb_cube lb) in
  let* prb := deref_probe in
  eevee_lightbake_cache_create >>
  (* Disable specular lighting when rendering probes to avoid feedback loops. *)
  modify (fun s =>
    set_common_data (mkCommon false 0 0 (prb_num_render_grid (common_data s))) s) >>
  let* c := gets common_data in
  emit (DRW_uniformbuffer_update c) >>
  let* lcache := get_lcache in
  let* eprobe := of_option (lc_cube_data lcache !! cube_idx) in
  emit (EEVEE_lightbake_render_scene (position eprobe) (clipsta prb) (clipend prb)) >>
  emit (EEVEE_lightbake_filter_glossy (lb_cube_offset lb) (intensity prb)) >>
  modify_lcache (fun lcache => set_lc_cube_count (lc_cube_count lcache + 1) lcache).

(** *** Light bake job: gathering and scheduling *)

(** One iteration of the object loop of [eevee_lightbake_gather_probes];
    [counts] are the locals [grid_count], [cube_count] and
    [total_irr_samples]. *)
Definition gather_probes_step (counts : Z * Z * Z) (ob : Object)
  : bake (Z * Z * Z) :=
  let '(grid_count, cube_count, total_irr_samples) := counts in
  match ob with
  | OB_LIGHTPROBE _ prb =>
    match prb_type prb with
    | LIGHTPROBE_TYPE_GRID =>
      let* lb := gets lbake in
      let* grid_prb := of_option (array_store (lb_grid_prb lb) grid_count (Some prb)) in
      modify_lbake (set_lb_grid_prb grid_prb) >>
      let* lcache := get_lcache in
      let* egrid := of_option (array_load (lc_grid_data lcache) grid_count) in
      let '(egrid, total_irr_samples) :=
        EEVEE_lightprobes_grid_data_from_object env ob egrid total_irr_samples in
      let* grid_data := of_option (array_store (lc_grid_data lcache) grid_count egrid) in
      put_lcache (set_lc_grid_data grid_data lcache) >>
      ret (grid_count + 1, cube_count, total_irr_samples)
    | LIGHTPROBE_TYPE_CUBE =>
      let* lb := gets lbake in
      let* cube_prb := of_option (array_store (lb_cube_prb lb) cube_count (Some prb)) in
      modify_lbake (set_lb_cube_prb cube_prb) >>
      let* lcache := get_lcache in
      let* eprobe := of_option (array_load (lc_cube_data lcache) cube_count) in
      let eprobe := EEVEE_lightprobes_cube_data_from_object env ob eprobe in
      let* cube_data := of_option (array_store (lc_cube_data lcache) cube_count eprobe) in
      put_lcache (set_lc_cube_data cube_data lcache) >>
      ret (grid_count, cube_count + 1, total_irr_samples)
    | LIGHTPROBE_TYPE_PLANAR => ret counts
    end
  | OB_OTHER _ => ret counts
  end.

Fixpoint gather_probes_loop (obs : list Object) (counts : Z * Z * Z)
  : bake (Z * Z * Z) :=
  match obs with
  | [] => ret counts
  | ob :: obs' =>
    let* counts := gather_probes_step counts ob in gather_probes_loop obs' counts
  end.

Definition eevee_lightbake_gather_probes : bake unit :=
  let* lb := gets lbake in
  (* At least one for the world *)
  gather_probes_loop (lb_depsgraph lb) (1, 1, 1) >>
  modify_lbake (fun lb =>
    set_lb_total (lb_total_irr_samples lb * lb_bounce_count lb + lb_cube_count lb) lb) >>
  modify_lbake (set_lb_done 0).

Definition lightbake_do_sample (render_callback : bake unit) : bake bool :=
  let* n := gets polls in
  modify (set_polls (S n)) >>
  if G_is_break env n then ret false
  else
    eevee_lightbake_context_enable >>
    emit DRW_custom_pipeline >>
    render_callback >>
    modify_lbake (fun lb => set_lb_done (lb_done lb + 1) lb) >>
    let* lb := gets lbake in
    emit (store_progress (float_div (lb_done lb) (lb_total lb))) >>
    emit store_do_update >>
    eevee_lightbake_context_disable >>
    ret true.

(** [for (lbake->x = start; lbake->x < stop; ++lbake->x) body], for a counter
    [x] that lives in the job record and that [body] leaves alone. *)
Definition for_counter (set : Z -> EEVEE_LightBake -> EEVEE_LightBake)
    (start stop : Z) (body : bake unit) : bake unit :=
  for_range (Z.to_nat (stop - start)) start
            (fun i => modify_lbake (set i) >> body) >>
  modify_lbake (set (Z.max start stop)).

(** The body of the [for (int p = 1; ...)] loop over the grid probes. *)
Definition bake_grid_probe : bake unit :=
  let* prb := deref_probe in
  let grid_sample_count :=
    grid_resolution_x prb * grid_resolution_y prb * grid_resolution_z prb in
  for_counter set_lb_grid_sample 0 grid_sample_count
    (lightbake_do_sample eevee_lightbake_render_grid_sample >> ret tt) >>
  modify_lbake (fun lb => set_lb_probe (probe_ptr_next (lb_probe lb)) lb) >>
  modify_lbake (fun lb => set_lb_grid (option_map S (lb_grid lb)) lb).

(** The block "Render world irradiance and reflection first". *)
Definition lightbake_job_world : bake unit :=
  let* lcache := get_lcache in
  if flag_test (lc_flag lcache) LIGHTCACHE_UPDATE_WORLD then
    modify_lbake (set_lb_probe PROBE_NULL) >>
    lightbake_do_sample eevee_lightbake_render_world_sample >> ret tt
  else ret tt.

(** The block "Render irradiance grids". *)
Definition lightbake_job_grids : bake unit :=
  let* lb := gets lbake in
  for_counter set_lb_bounce_curr 0 (lb_bounce_count lb)
    ((* Bypass world, start at 1. *)
     modify_lbake (set_lb_probe (GRID_PRB 1)) >>
     modify_lbake (set_lb_grid (Some 1%nat)) >>
     for_range (Z.to_nat (lb_grid_count lb - 1)) 1 (fun _ => bake_grid_probe)).

(** The block "Render reflections". *)
Definition lightbake_job_cubes : bake unit :=
  modify_lcache (set_lc_cube_count 1) >>
  (* Bypass world, start at 1. *)
  modify_lbake (set_lb_probe (CUBE_PRB 1)) >>
  modify_lbake (set_lb_cube (Some 1%nat)) >>
  let* lb := gets lbake in
  for_counter set_lb_cube_offset 1 (lb_cube_count lb)
    (lightbake_do_sample eevee_lightbake_render_probe_sample >>
     modify_lbake (fun lb => set_lb_probe (probe_ptr_next (lb_probe lb)) lb) >>
     modify_lbake (fun lb => set_lb_cube (option_map S (lb_cube lb)) lb)).

Definition EEVEE_lightbake_job : bake unit :=
  (* We need to create the FBOs in the right context. *)
  eevee_lightbake_context_enable >>
  (let* lb := gets lbake in eevee_lightbake_create_render_target (lb_rt_res lb)) >>
  eevee_lightbake_context_disable >>
  (* Gather all probes data *)
  eevee_lightbake_gather_probes >>
  lightbake_job_world >>
  lightbake_job_grids >>
  lightbake_job_cubes >>
  modify_lcache (fun lcache =>
    set_lc_flag (Z.lor (lc_flag lcache) LIGHTCACHE_BAKED) lcache) >>
  eevee_lightbake_delete_resources.

(** This is to update the world irradiance and reflection contribution from
    within the viewport drawing.  The cache of the viewport is the scene's;
    the [EEVEE_LightBake] is a local of the function. *)
Definition EEVEE_lightbake_update_world_quick : bake unit :=
  let* eevee := gets scene in
  modify (set_lbake
    (mkBake [] PROBE_NULL 0 0 0 None (0, 0, 0) 0 0 0 0 0 None [] None 0 0 []
            0 0 true false false)) >>
  (* Create resources. *)
  eevee_lightbake_create_render_target (gi_cubemap_resolution eevee) >>
  emit EEVEE_lightbake_cache_init >>
  emit EEVEE_lightbake_render_world >>
  emit (EEVEE_lightbake_filter_glossy 0 1%Q) >>
  emit (EEVEE_lightbake_filter_diffuse 0 1%Q) >>
  (* Don't hide grids if they are already rendered. *)
  modify_lcache (fun lcache =>
    set_lc_grid_count (max_ii 1 (lc_grid_count lcache)) lcache) >>
  modify_lcache (set_lc_cube_count 1) >>
  modify_lcache (fun lcache =>
    set_lc_flag (Z.lor (lc_flag lcache)
                       (Z.lor LIGHTCACHE_CUBE_READY LIGHTCACHE_GRID_READY)) lcache) >>
  modify_lcache (fun lcache =>
    set_lc_flag (Z.land (lc_flag lcache) (Z.lnot LIGHTCACHE_UPDATE_WORLD)) lcache) >>
  eevee_lightbake_delete_resources.

End LightBake.

(* ------------------------------------------------------------------ *)
(** ** Vocabulary of the statements *)



(** Number of samples of a grid probe. *)
Definition grid_sample_count (prb : LightProbe) : Z :=
  grid_resolution_x prb * grid_resolution_y prb * grid_resolution_z prb.

(** The grid probes and the cube probes of a depsgraph, in iteration order. *)
Definition grid_probes (dg : Depsgraph) : list LightProbe :=
  flat_map (fun ob =>
    match ob with
    | OB_LIGHTPROBE _ prb =>
      match prb_type prb with LIGHTPROBE_TYPE_GRID => [prb] | _ => [] end
    | OB_OTHER _ => []
    end) dg.

Definition cube_probes (dg : Depsgraph) : list LightProbe :=
  flat_map (fun ob =>
    match ob with
    | OB_LIGHTPROBE _ prb =>
      match prb_type prb with LIGHTPROBE_TYPE_CUBE => [prb] | _ => [] end
    | OB_OTHER _ => []
    end) dg.

(** Sum of [resX * resY * resZ] over the grid probes. *)
Definition grid_samples_sum (dg : Depsgraph) : Z :=
  fold_right Z.add 0 (map grid_sample_count (grid_probes dg)).

(** The passes a sample callback asks of the renderer. *)
Inductive pass : Set :=
| PassRenderWorld
| PassRenderScene
| PassFilterGlossy
| PassFilterDiffuse
| PassFilterVisibility.

Definition pass_of_event (e : event) : option pass :=
  match e with
  | EEVEE_lightbake_render_world => Some PassRenderWorld
  | EEVEE_lightbake_render_scene _ _ _ => Some PassRenderScene
  | EEVEE_lightbake_filter_glossy _ _ => Some PassFilterGlossy
  | EEVEE_lightbake_filter_diffuse _ _ => Some PassFilterDiffuse
  | EEVEE_lightbake_filter_visibility _ _ _ _ _ _ => Some PassFilterVisibility
  | _ => None
  end.

(** The render and filter passes of a trace, in order. *)
Definition passes (l : list event) : list pass := omap pass_of_event l.

(** Samples started: entries into [DRW_custom_pipeline]. *)
Definition is_pipeline (e : event) : bool :=
  match e with DRW_custom_pipeline => true | _ => false end.

Definition is_render_world (e : event) : bool :=
  match e with EEVEE_lightbake_render_world => true | _ => false end.

Definition count_events (p : event -> bool) (l : list event) : Z :=
  Z.of_nat (length (List.filter p l)).

(** The values stored through [progress], in order. *)
Definition progress_stores (l : list event) : list (option Q) :=
  omap (fun e => match e with store_progress p => Some p | _ => None end) l.

(** How many of the reads [a], [a+1], ..., [b-1] of [G.is_break] find it
    clear. *)
Definition clear_polls (env : surroundings) (a b : nat) : Z :=
  Z.of_nat (length (List.filter (fun j => negb (G_is_break env j)) (seq a (b - a)))).

(** The state a bake starts from: the scene, nothing done yet. *)
Definition bake_start (sc : SceneEEVEE) : bake_state :=
  mkState (calloc_LightBake []) sc (mkCommon true 0 0 0) 0 0 [].

(** A whole bake: allocation on the main thread, then the job. *)
Definition bake_run (env : surroundings) (dg : Depsgraph) (run_as_job : bool)
  : bake unit :=
  EEVEE_lightbake_job_data_alloc env dg run_as_job >> EEVEE_lightbake_job env.

(** Bit [n] of the cache flag. *)
Definition flag_bit (c : EEVEE_LightCache) (n : Z) : bool := Z.testbit (lc_flag c) n.

(** *** The visiting order of [compute_cell_id], written as a list *)






(** *** Relations between the state before and the state after a step *)

(** Every run of [c] takes a state to an [R]-related one, whether it
    completes or is fatal. *)
Definition respects {A : Type} (R : bake_state -> bake_state -> Prop)
    (c : bake A) : Prop :=
  forall s, R s (snd (c s)).

Definition is_store_progress (e : event) : bool :=
  match e with store_progress _ => true | _ => false end.

(** Events that neither start a sample nor report progress. *)
Definition is_quiet (e : event) : bool :=
  negb (is_pipeline e) && negb (is_store_progress e).

(** The members of the job record that only the scheduler and the two
    probe passes write. *)
Definition job_counters (lb : EEVEE_LightBake)
  : Depsgraph * (Z * Z * Z * Z) * (Z * Z) *
    (list (option LightProbe) * list (option LightProbe)) * probe_ptr :=
  (lb_depsgraph lb,
   (lb_grid_count lb, lb_cube_count lb, lb_total_irr_samples lb, lb_bounce_count lb),
   (lb_total lb, lb_done lb),
   (lb_grid_prb lb, lb_cube_prb lb),
   lb_probe lb).

(** What a render callback leaves alone: the counters and probe arrays of
    the job and the poll count; it starts no sample and reports no
    progress. *)
Definition callback_frame (s s' : bake_state) : Prop :=
  job_counters (lbake s') = job_counters (lbake s) /\
  polls s' = polls s /\
  exists new, events s' = events s ++ new /\ forallb is_quiet new = true.

(** The accounting of the scheduler between two states: [total] and the
    probe arrays stay, every clear poll starts one sample, [done] grows by
    one with every progress report and never overtakes the samples started,
    and the n-th report stores [n / total]. *)
Definition scheduled (env : surroundings) (s s' : bake_state) : Prop :=
  lb_total (lbake s') = lb_total (lbake s) /\
  lb_grid_prb (lbake s') = lb_grid_prb (lbake s) /\
  lb_cube_prb (lbake s') = lb_cube_prb (lbake s) /\
  (polls s <= polls s')%nat /\
  exists new,
    events s' = events s ++ new /\
    count_events is_pipeline new = clear_polls env (polls s) (polls s') /\
    progress_stores new =
      map (fun i => float_div i (lb_total (lbake s)))
          (seqZ (lb_done (lbake s) + 1) (lb_done (lbake s') - lb_done (lbake s))) /\
    lb_done (lbake s) <= lb_done (lbake s') /\
    lb_done (lbake s') <= lb_done (lbake s) + count_events is_pipeline new.

(** At most [n] polls were made, and the probe array of the grids and the
    loop bounds of the scheduler are what they were. *)
Definition polls_within (n : Z) (s s' : bake_state) : Prop :=
  Z.of_nat (polls s') <= Z.of_nat (polls s) + n /\
  lb_grid_prb (lbake s') = lb_grid_prb (lbake s) /\
  lb_bounce_count (lbake s') = lb_bounce_count (lbake s) /\
  lb_grid_count (lbake s') = lb_grid_count (lbake s) /\
  lb_cube_count (lbake s') = lb_cube_count (lbake s).

(** The probe pointer of the job is where it was. *)
Definition probe_kept (s s' : bake_state) : Prop :=
  lb_probe (lbake s') = lb_probe (lbake s).

(** Nothing of the world pass happened: the cache flag is what it was and
    the world was not rendered. *)
Definition no_world_pass (s s' : bake_state) : Prop :=
  option_map lc_flag (light_cache (scene s')) =
  option_map lc_flag (light_cache (scene s)) /\
  exists new, events s' = events s ++ new /\ count_events is_render_world new = 0.

(** Samples of the grid probe at [lbake->grid_prb[q]]; none where the
    entry is missing. *)
Definition grid_prb_samples (grid_prb : list (option LightProbe)) (q : nat) : Z :=
  match mjoin (grid_prb !! q) with
  | Some prb => Z.max 0 (grid_sample_count prb)
  | None => 0
  end.

(** Samples of the [m] grid probes from [lbake->grid_prb[q]] on. *)
Fixpoint grid_prb_samples_from (grid_prb : list (option LightProbe))
    (m q : nat) : Z :=
  match m with
  | O => 0
  | S m' => grid_prb_samples grid_prb q + grid_prb_samples_from grid_prb m' (S q)
  end.

(** The members of the job record that the gathering pass leaves alone. *)
Definition gather_fixed (lb : EEVEE_LightBake)
  : Depsgraph * (Z * Z * Z * Z) * (Z * Z) :=
  (lb_depsgraph lb,
   (lb_grid_count lb, lb_cube_count lb, lb_total_irr_samples lb, lb_bounce_count lb),
   (lb_total lb, lb_done lb)).

(** What the object loop of the gathering pass leaves alone: everything
    but the two probe arrays and the metadata of the cache. *)
Definition gather_frame (s s' : bake_state) : Prop :=
  gather_fixed (lbake s') = gather_fixed (lbake s) /\
  polls s' = polls s /\
  events s' = events s /\
  option_map lc_flag (light_cache (scene s')) =
  option_map lc_flag (light_cache (scene s)).


(** The rest of [EEVEE_lightbake_job] once the probes are gathered. *)
Definition lightbake_job_samples (env : surroundings) : bake unit :=
  lightbake_job_world env >>
  lightbake_job_grids env >>
  lightbake_job_cubes env >>
  modify_lcache (fun lcache =>
    set_lc_flag (Z.lor (lc_flag lcache) LIGHTCACHE_BAKED) lcache) >>
  eevee_lightbake_delete_resources.

(** *** A small scene to run the bake on *)

(** A filler for grid records in the manner of the spec's GridRecord: the
    resolution of the probe, and an offset into the shared sample index
    space that advances by the cell count. *)
Definition example_grid_data_from_object (ob : Object) (egrid : EEVEE_LightGrid)
    (offset : Z) : EEVEE_LightGrid * Z :=
  match ob with
  | OB_LIGHTPROBE _ prb =>
    (mkEGrid (grid_resolution_x prb, grid_resolution_y prb, grid_resolution_z prb)
             offset (corner egrid) (increment_x egrid) (increment_y egrid)
             (increment_z egrid) (visibility_range egrid) (level_bias egrid),
     offset + grid_sample_count prb)
  | OB_OTHER _ => (egrid, offset)
  end.

Definition example_env (is_break : nat -> bool) : surroundings :=
  mkSurroundings IRRADIANCE_HL2 (fun cube_size => cube_size)
                 example_grid_data_from_object (fun _ eprobe => eprobe) is_break.

(** One mesh, one grid probe of two cells, one reflection cube. *)
Definition example_depsgraph : Depsgraph :=
  [OB_OTHER 0;
   OB_LIGHTPROBE 1 (probe_of_resolution 2 1 1);
   OB_LIGHTPROBE 2 (mkProbe LIGHTPROBE_TYPE_CUBE 0 0 0 0%Q 0%Q 1%Q 0%Q 0%nat false)].

(** Two bounces, 8-texel visibility samples, 64-texel cubemaps, no cache. *)
Definition example_scene : SceneEEVEE := mkScene 2 8 64 None.

Definition never_stop : nat -> bool := fun _ => false.
Definition always_stop : nat -> bool := fun _ => true.

(** The example job as allocated, ready to run. *)
Definition example_allocated (is_break : nat -> bool) : bake_state :=
  snd (EEVEE_lightbake_job_data_alloc (example_env is_break) example_depsgraph
         false (bake_start example_scene)).

(** The state of the first grid sample of the example: the allocated job
    with the probes gathered and the scheduler at grid probe 1, sample 0. *)
Definition example_grid_sample_state : bake_state :=
  let s := snd (eevee_lightbake_gather_probes (example_env never_stop)
                  (example_allocated never_stop)) in
  set_lbake (set_lb_grid (Some 1%nat) (set_lb_probe (GRID_PRB 1) (lbake s))) s.

(** *** Vocabulary for the allocation of a job *)

(** The flag [eevee_lightbake_create_resources] stores in the cache. *)
Definition LIGHTCACHE_allocated_flag : Z :=
  Z.lor (Z.lor (Z.lor LIGHTCACHE_UPDATE_WORLD LIGHTCACHE_UPDATE_CUBE)
               LIGHTCACHE_UPDATE_GRID) LIGHTCACHE_BAKING.

(** The cache a job has after its allocation when a new one was created:
    zero-filled metadata, two new textures numbered from [first_tex]. *)
Definition new_allocated_cache (vis_res : Z) (irr_size : Z * Z * Z)
    (cube_res grid_count cube_count : Z) (first_tex : nat) : EEVEE_LightCache :=
  mkCache LIGHTCACHE_allocated_flag 0 0 vis_res
          (mkTexture first_tex (irr_size.1.1) (irr_size.1.2) (irr_size.2))
          (mkTexture (S first_tex) cube_res cube_res cube_count)
          (replicate (Z.to_nat cube_count) calloc_LightProbe)
          (replicate (Z.to_nat grid_count) calloc_LightGrid).

(** The job record before [eevee_lightbake_create_resources] runs. *)
Definition counted_LightBake (depsgraph : Depsgraph) (run_as_job : bool)
  : EEVEE_LightBake :=
  eevee_lightbake_count_probes
    (if run_as_job then set_lb_gl_context true (calloc_LightBake depsgraph)
     else calloc_LightBake depsgraph).

(** *** A second bake on the cache of a first *)

(** The scene after a first, complete bake of the example. *)
Definition example_baked : bake_state :=
  snd (bake_run (example_env never_stop) example_depsgraph false
         (bake_start example_scene)).

(** Two grid probes of one cell each and one reflection cube: as many
    irradiance samples and cubes as [example_depsgraph], one grid more. *)
Definition example_depsgraph_two_grids : Depsgraph :=
  [OB_LIGHTPROBE 1 (probe_of_resolution 1 1 1);
   OB_LIGHTPROBE 2 (probe_of_resolution 1 1 1);
   OB_LIGHTPROBE 3 (mkProbe LIGHTPROBE_TYPE_CUBE 0 0 0 0%Q 0%Q 1%Q 0%Q 0%nat false)].

(** *** What switching the OpenGL context leaves alone *)

(** Besides what [callback_frame] keeps: the scene with its cache, the
    uniform data and the texture counter. *)
Definition context_frame (s s' : bake_state) : Prop :=
  callback_frame s s' /\
  scene s' = scene s /\
  common_data s' = common_data s /\
  next_tex s' = next_tex s.

(** The job allocated for [example_depsgraph_two_grids] on the scene the
    first bake left. *)
Definition example_rebake_allocated : bake_state :=
  snd (EEVEE_lightbake_job_data_alloc (example_env never_stop)
         example_depsgraph_two_grids false example_baked).

(** The state of the cube sample of the example: the probes gathered and
    the scheduler at cube probe 1. *)
Definition example_cube_sample_state : bake_state :=
  let s := snd (eevee_lightbake_gather_probes (example_env never_stop)
                  (example_allocated never_stop)) in
  set_lbake (set_lb_cube_offset 1
               (set_lb_cube (Some 1%nat) (set_lb_probe (CUBE_PRB 1) (lbake s)))) s.

(** *** The OpenGL context along a trace *)

(** Which context is current: none, the one of the draw manager
    ([DRW_opengl_context_enable]), the render context of the job, or the
    render context with its Gawain context active. *)
Inductive context_state : Set :=
| ContextOff
| ContextGL
| ContextRender
| ContextGawain.

(** Calls that draw or create, read or free GPU resources. *)
Definition needs_context (e : event) : bool :=
  match e with
  | DRW_texture_create_cube _ | DRW_texture_create_2D_array _
  | DRW_texture_free _ | GPU_texture_read _ | GPU_framebuffer_free
  | DRW_custom_pipeline | lightbake_cache_create _
  | EEVEE_lightbake_cache_init | EEVEE_lightbake_render_world
  | EEVEE_lightbake_render_scene _ _ _ | EEVEE_lightbake_filter_glossy _ _
  | EEVEE_lightbake_filter_diffuse _ _
  | EEVEE_lightbake_filter_visibility _ _ _ _ _ _
  | probe_grid_fill _ | DRW_uniformbuffer_update _ => true
  | _ => false
  end.

(** Calls that switch, create or dispose of a context. *)
Definition switches_context (e : event) : bool :=
  match e with
  | DRW_opengl_context_enable | DRW_opengl_context_disable
  | DRW_opengl_render_context_enable | DRW_opengl_render_context_disable
  | DRW_gawain_render_context_enable | DRW_gawain_render_context_disable
  | GWN_context_create | GWN_context_discard | WM_opengl_context_dispose => true
  | _ => false
  end.

(** One call against the current context and the existence of the Gawain
    context of the job.  A context is enabled only when none is current, and
    disabled only when it is the current one; the Gawain context is created
    once, inside the render context; it is activated there once it exists,
    and deactivated or discarded while active; the render context is disposed
    of when no context is current and its Gawain context is gone; a drawing
    call wants the draw manager's context or an active Gawain context.
    [None] is a call out of place. *)
Definition context_step (st : context_state * bool) (e : event)
  : option (context_state * bool) :=
  let '(cur, gwn) := st in
  match e with
  | DRW_opengl_context_enable =>
    match cur with ContextOff => Some (ContextGL, gwn) | _ => None end
  | DRW_opengl_context_disable =>
    match cur with ContextGL => Some (ContextOff, gwn) | _ => None end
  | DRW_opengl_render_context_enable =>
    match cur with ContextOff => Some (ContextRender, gwn) | _ => None end
  | DRW_opengl_render_context_disable =>
    match cur with ContextRender => Some (ContextOff, gwn) | _ => None end
  | GWN_context_create =>
    match cur, gwn with ContextRender, false => Some (ContextRender, true) | _, _ => None end
  | DRW_gawain_render_context_enable =>
    match cur, gwn with ContextRender, true => Some (ContextGawain, true) | _, _ => None end
  | DRW_gawain_render_context_disable =>
    match cur with ContextGawain => Some (ContextRender, gwn) | _ => None end
  | GWN_context_discard =>
    match cur with ContextGawain => Some (ContextRender, false) | _ => None end
  | WM_opengl_context_dispose =>
    match cur, gwn with ContextOff, false => Some (ContextOff, false) | _, _ => None end
  | _ =>
    if needs_context e
    then match cur with
         | ContextGL | ContextGawain => Some st
         | _ => None
         end
    else Some st
  end.

Fixpoint context_run (st : context_state * bool) (l : list event)
  : option (context_state * bool) :=
  match l with
  | [] => Some st
  | e :: l' =>
    match context_step st e with
    | Some st' => context_run st' l'
    | None => None
    end
  end.

(** The context a sample runs in. *)
Definition sample_context (gl_context : bool) : context_state :=
  if gl_context then ContextGawain else ContextGL.

(** Steps taken with a context current: no call switches it. *)
Definition in_context (s s' : bake_state) : Prop :=
  lb_gl_context (lbake s') = lb_gl_context (lbake s) /\
  lb_gwn_context (lbake s') = lb_gwn_context (lbake s) /\
  lb_resource_only (lbake s') = lb_resource_only (lbake s) /\
  exists new,
    events s' = events s ++ new /\ forallb (fun e => negb (switches_context e)) new = true.

(** Steps that call nothing. *)
Definition no_event (s s' : bake_state) : Prop :=
  lb_gl_context (lbake s') = lb_gl_context (lbake s) /\
  lb_gwn_context (lbake s') = lb_gwn_context (lbake s) /\
  lb_resource_only (lbake s') = lb_resource_only (lbake s) /\
  events s' = events s.

(** Between samples: the job is not resource-only and, when it has a render
    context, the Gawain context of it exists. *)
Definition context_ready (s : bake_state) : Prop :=
  lb_resource_only (lbake s) = false /\
  (lb_gl_context (lbake s) = true -> lb_gwn_context (lbake s) = true).

(** A command that starts between samples with no context current, keeps
    every call in place and the contexts of the job as they are; when it
    completes no context is current. *)
Definition bracketed {A : Type} (c : bake A) : Prop :=
  forall s,
    context_ready s ->
    lb_gl_context (lbake (snd (c s))) = lb_gl_context (lbake s) /\
    lb_gwn_context (lbake (snd (c s))) = lb_gwn_context (lbake s) /\
    lb_resource_only (lbake (snd (c s))) = lb_resource_only (lbake s) /\
    exists new,
      events (snd (c s)) = events s ++ new /\
      let rest := (ContextOff, lb_gwn_context (lbake s)) in
      match fst (c s) with
      | Ok _ => context_run rest new = Some rest
      | Fatal => context_run rest new <> None
      end.

(** The example job allocated to run as a job, with a render context of
    its own. *)
Definition example_allocated_as_job : bake_state :=
  snd (EEVEE_lightbake_job_data_alloc (example_env never_stop) example_depsgraph
         true (bake_start example_scene)).

(** *** Samples of a run that completes *)

(** [n] polls were made and [n] samples completed, and the probe array of
    the grids and the loop bounds of the scheduler are what they were. *)
Definition samples_exactly (n : Z) (s s' : bake_state) : Prop :=
  Z.of_nat (polls s') = Z.of_nat (polls s) + n /\
  lb_done (lbake s') = lb_done (lbake s) + n /\
  lb_grid_prb (lbake s') = lb_grid_prb (lbake s) /\
  lb_bounce_count (lbake s') = lb_bounce_count (lbake s) /\
  lb_grid_count (lbake s') = lb_grid_count (lbake s) /\
  lb_cube_count (lbake s') = lb_cube_count (lbake s).

(** Whenever [c] completes, it has polled and sampled exactly [n] times. *)
Definition completes_with {A : Type} (n : Z) (c : bake A) : Prop :=
  forall s a s', c s = (Ok a, s') -> samples_exactly n s s'.

(** *** The cubes the cache shows *)

(** The cache is still there, shows as many more cubes as samples were
    completed, and as many grids as before. *)
Definition cubes_in_step (s s' : bake_state) : Prop :=
  forall c,
    light_cache (scene s) = Some c ->
    exists c',
      light_cache (scene s') = Some c' /\
      lc_cube_count c' - lb_done (lbake s') = lc_cube_count c - lb_done (lbake s) /\
      lc_grid_count c' = lc_grid_count c.

(** Whenever [c] completes, its two ends are related by [R]. *)
Definition when_complete {A : Type} (R : bake_state -> bake_state -> Prop)
    (c : bake A) : Prop :=
  forall s a s', c s = (Ok a, s') -> R s s'.

(** *** The textures along a trace *)

(** Calls that create, free, read or draw into a texture array. *)
Definition is_tex_event (e : event) : bool :=
  match e with
  | DRW_texture_create_2D_array _ | DRW_texture_free _
  | GPU_texture_read _ | probe_grid_fill _ => true
  | _ => false
  end.

Definition tex_live (i : nat) (live : list nat) : bool := existsb (Nat.eqb i) live.

(** One call against the textures that exist: a texture is created under
    an identity that is not in use; it is freed, read or drawn into only
    while it exists, and after it is freed it does not exist.  [None] is a
    call on a texture that does not exist. *)
Definition tex_step (live : list nat) (e : event) : option (list nat) :=
  match e with
  | DRW_texture_create_2D_array tex =>
    if tex_live (tex_id tex) live then None else Some (tex_id tex :: live)
  | DRW_texture_free tex =>
    if tex_live (tex_id tex) live
    then Some (List.filter (fun i => negb (Nat.eqb i (tex_id tex))) live)
    else None
  | GPU_texture_read tex | probe_grid_fill tex =>
    if tex_live (tex_id tex) live then Some live else None
  | _ => Some live
  end.

Fixpoint tex_run (live : list nat) (l : list event) : option (list nat) :=
  match l with
  | [] => Some live
  | e :: l' =>
    match tex_step live e with
    | Some live' => tex_run live' l'
    | None => None
    end
  end.

(** The textures the cache holds. *)
Definition cache_ids (sc : SceneEEVEE) : list nat :=
  match light_cache sc with
  | Some c => [tex_id (lc_grid_tx c); tex_id (lc_cube_tx c)]
  | None => []
  end.

(** The textures a state holds: [grid_prev] of the job and the two of the
    cache. *)
Definition owned_ids (s : bake_state) : list nat :=
  match lb_grid_prev (lbake s) with
  | Some tex => [tex_id tex]
  | None => []
  end ++ cache_ids (scene s).

Definition same_ids (l1 l2 : list nat) : Prop := forall i, In i l1 <-> In i l2.

(** The textures held are distinct and were created earlier. *)
Definition ids_created (ids : list nat) (next : nat) : Prop :=
  List.NoDup ids /\ Forall (fun i => (i < next)%nat) ids.

(** From a state whose textures are distinct and were created earlier: the
    textures of the new state are so too, and the calls made in between
    are all on textures that exist, start from the textures the first state
    holds and leave exactly the textures the new state holds. *)
Definition textures_step (s s' : bake_state) : Prop :=
  ids_created (owned_ids s) (next_tex s) ->
  ids_created (owned_ids s') (next_tex s') /\
  exists new,
    events s' = events s ++ new /\
    exists live,
      tex_run (owned_ids s) new = Some live /\ same_ids live (owned_ids s').

(** Steps that neither touch a texture nor change hands. *)
Definition textures_kept (s s' : bake_state) : Prop :=
  owned_ids s' = owned_ids s /\
  next_tex s' = next_tex s /\
  exists new,
    events s' = events s ++ new /\
    forallb (fun e => negb (is_tex_event e)) new = true.

(** The cache, if there is one, shows as many grids as before. *)
Definition grids_shown_kept (s s' : bake_state) : Prop :=
  option_map lc_grid_count (light_cache (scene s')) =
  option_map lc_grid_count (light_cache (scene s)).

(* ================================================================== *)
(** * Properties *)

(** ** Integer helpers *)

Lemma max_ii_spec a b : max_ii a b = Z.max a b.
Proof. unfold max_ii. destruct (Z.ltb_spec b a); lia. Qed.







(** ** Irradiance pool size *)















(** ** Shape validation *)

(** [EEVEE_lightcache_validate] answers true exactly when the cache
    exists and the five extents agree. *)
Lemma EEVEE_lightcache_validate_spec
    (light_cache : option EEVEE_LightCache) (cube_count cube_res : Z)
    (irr_size0 irr_size1 irr_size2 : Z) :
  EEVEE_lightcache_validate light_cache cube_count cube_res
                            (irr_size0, irr_size1, irr_size2) = true <->
  exists c,
    light_cache = Some c /\
    irr_size0 = GPU_texture_width (lc_grid_tx c) /\
    irr_size1 = GPU_texture_height (lc_grid_tx c) /\
    irr_size2 = GPU_texture_layers (lc_grid_tx c) /\
    cube_res = GPU_texture_width (lc_cube_tx c) /\
    cube_count = GPU_texture_layers (lc_cube_tx c).
Proof.
  unfold EEVEE_lightcache_validate. destruct light_cache as [c |].
  - destruct (Z.eqb_spec irr_size0 (GPU_texture_width (lc_grid_tx c)));
    destruct (Z.eqb_spec irr_size1 (GPU_texture_height (lc_grid_tx c)));
    destruct (Z.eqb_spec irr_size2 (GPU_texture_layers (lc_grid_tx c)));
    destruct (Z.eqb_spec cube_res (GPU_texture_width (lc_cube_tx c)));
    destruct (Z.eqb_spec cube_count (GPU_texture_layers (lc_cube_tx c)));
    cbn; split;
      try discriminate;
      try (intros _; exists c; repeat split; assumption);
      try (intros (c' & Hc & H0 & H1 & H2 & H3 & H4);
           injection Hc as <-; contradiction).
    reflexivity.
  - split; [discriminate |]. intros (c & Hc & _). discriminate.
Qed.

(** C2: [EEVEE_lightcache_validate] answers true if and only if the cache
    exists and the five extents agree - the three components of [irr_size]
    with width, height and layers of [grid_tx], [cube_res] with the width of
    [cube_tx], and [cube_count] with the layers of [cube_tx]; on an existing
    cache a single mismatching extent makes the answer false. *)
Theorem EEVEE_lightcache_validate_iff
    (light_cache : option EEVEE_LightCache) (cube_count cube_res : Z)
    (irr_size0 irr_size1 irr_size2 : Z) :
  (EEVEE_lightcache_validate light_cache cube_count cube_res
                             (irr_size0, irr_size1, irr_size2) = true <->
   exists c,
     light_cache = Some c /\
     irr_size0 = GPU_texture_width (lc_grid_tx c) /\
     irr_size1 = GPU_texture_height (lc_grid_tx c) /\
     irr_size2 = GPU_texture_layers (lc_grid_tx c) /\
     cube_res = GPU_texture_width (lc_cube_tx c) /\
     cube_count = GPU_texture_layers (lc_cube_tx c)) /\
  (forall c,
     light_cache = Some c ->
     irr_size0 <> GPU_texture_width (lc_grid_tx c) \/
     irr_size1 <> GPU_texture_height (lc_grid_tx c) \/
     irr_size2 <> GPU_texture_layers (lc_grid_tx c) \/
     cube_res <> GPU_texture_width (lc_cube_tx c) \/
     cube_count <> GPU_texture_layers (lc_cube_tx c) ->
     EEVEE_lightcache_validate light_cache cube_count cube_res
                               (irr_size0, irr_size1, irr_size2) = false).
Proof.
  split; [apply EEVEE_lightcache_validate_spec |].
  intros c Hc Hne.
  destruct (EEVEE_lightcache_validate light_cache cube_count cube_res
              (irr_size0, irr_size1, irr_size2)) eqn:E; [| reflexivity].
  apply EEVEE_lightcache_validate_spec in E.
  destruct E as (c' & Hc' & H0 & H1 & H2 & H3 & H4).
  rewrite Hc in Hc'. injection Hc' as <-. intuition congruence.
Qed.

(** A cache of 32 by 64 by 3 irradiance texels and two cubemaps of 64
    texels is valid for that shape and for no other cube count. *)
Lemma EEVEE_lightcache_validate_iff_witness :
  let c := mkCache 0 2 2 8 (mkTexture 0 32 64 3) (mkTexture 1 64 64 2) [] [] in
  EEVEE_lightcache_validate (Some c) 2 64 (32, 64, 3) = true /\
  EEVEE_lightcache_validate (Some c) 3 64 (32, 64, 3) = false.
Proof.
  cbn zeta. split.
  - apply (proj1 (EEVEE_lightcache_validate_iff _ 2 64 32 64 3)).
    eexists. repeat split; reflexivity.
  - apply (proj2 (EEVEE_lightcache_validate_iff _ 3 64 32 64 3) _ eq_refl).
    right. right. right. right. simpl. lia.
Defined.

(** ** Cell indexing *)




(** *** The lattice of a level *)









(** *** The visiting order is a permutation of the cells *)














(** ** Cache flags *)

(** ** Cache flags *)

Lemma flag_test_bit flag k :
  0 <= k -> flag_test flag (Z.shiftl 1 k) = Z.testbit flag k.
Proof.
  intros Hk. unfold flag_test. rewrite Z.shiftl_1_l.
  destruct (Z.testbit flag k) eqn:E.
  - apply negb_true_iff, Z.eqb_neq. intros H0.
    assert (Hb : Z.testbit (Z.land flag (2 ^ k)) k = true).
    { rewrite Z.land_spec, E, Z.pow2_bits_true by lia. reflexivity. }
    rewrite H0, Z.bits_0 in Hb. discriminate.
  - apply negb_false_iff, Z.eqb_eq. apply Z.bits_inj'. intros n Hn.
    rewrite Z.land_spec, Z.bits_0, Z.pow2_bits_eqb by lia.
    destruct (Z.eqb_spec k n) as [<- | Hne].
    + rewrite E. reflexivity.
    + apply andb_false_r.
Qed.

Lemma flag_test_BAKED flag :
  flag_test flag LIGHTCACHE_BAKED = Z.testbit flag 0.
Proof. apply flag_test_bit. lia. Qed.

Lemma flag_test_BAKING flag :
  flag_test flag LIGHTCACHE_BAKING = Z.testbit flag 1.
Proof. apply flag_test_bit. lia. Qed.

Lemma flag_test_CUBE_READY flag :
  flag_test flag LIGHTCACHE_CUBE_READY = Z.testbit flag 2.
Proof. apply flag_test_bit. lia. Qed.

Lemma flag_test_GRID_READY flag :
  flag_test flag LIGHTCACHE_GRID_READY = Z.testbit flag 3.
Proof. apply flag_test_bit. lia. Qed.

Lemma flag_test_UPDATE_CUBE flag :
  flag_test flag LIGHTCACHE_UPDATE_CUBE = Z.testbit flag 4.
Proof. apply flag_test_bit. lia. Qed.

Lemma flag_test_UPDATE_GRID flag :
  flag_test flag LIGHTCACHE_UPDATE_GRID = Z.testbit flag 5.
Proof. apply flag_test_bit. lia. Qed.

Lemma flag_test_UPDATE_WORLD flag :
  flag_test flag LIGHTCACHE_UPDATE_WORLD = Z.testbit flag 6.
Proof. apply flag_test_bit. lia. Qed.

(** Bits of the flag after [flag |= CUBE_READY | GRID_READY] and
    [flag &= ~UPDATE_WORLD]. *)
Lemma world_done_flag_bits flag n :
  0 <= n ->
  Z.testbit (Z.land (Z.lor flag (Z.lor LIGHTCACHE_CUBE_READY LIGHTCACHE_GRID_READY))
                    (Z.lnot LIGHTCACHE_UPDATE_WORLD)) n =
  (Z.testbit flag n || (n =? 2) || (n =? 3)) && negb (n =? 6).
Proof.
  intros Hn.
  unfold LIGHTCACHE_CUBE_READY, LIGHTCACHE_GRID_READY, LIGHTCACHE_UPDATE_WORLD.
  rewrite !Z.shiftl_1_l.
  rewrite Z.land_spec, Z.lnot_spec, !Z.lor_spec, !Z.pow2_bits_eqb by lia.
  rewrite (Z.eqb_sym 2 n), (Z.eqb_sym 3 n), (Z.eqb_sym 6 n).
  rewrite orb_assoc. reflexivity.
Qed.


(** ** The quick world update *)

(** The quick world update on a scene that has a cache: it completes, and
    the cache it leaves is the old one with the two counts and the flag
    rewritten. *)
Lemma EEVEE_lightbake_update_world_quick_run s c :
  light_cache (scene s) = Some c ->
  exists s',
    EEVEE_lightbake_update_world_quick s = (Ok tt, s') /\
    light_cache (scene s') =
      Some (set_lc_flag
              (Z.land (Z.lor (lc_flag c)
                             (Z.lor LIGHTCACHE_CUBE_READY LIGHTCACHE_GRID_READY))
                      (Z.lnot LIGHTCACHE_UPDATE_WORLD))
              (set_lc_cube_count 1
                 (set_lc_grid_count (max_ii 1 (lc_grid_count c)) c))).
Proof.
  intros Hc.
  destruct s as [lb [bounces vis cube lc] cd p nt ev]. cbn in Hc. subst lc.
  eexists. split; vm_compute; reflexivity.
Qed.

(** C10: [EEVEE_lightbake_update_world_quick] leaves [cube_count] at 1 and
    [grid_count] at [max 1] of its previous value, sets CubeReady and
    GridReady, clears NeedsWorldUpdate, and leaves every other bit of the
    flag and every other member of the cache (the two texture handles, the
    two metadata arrays, the visibility resolution) as they were. *)
Theorem EEVEE_lightbake_update_world_quick_frame (s : bake_state)
    (c : EEVEE_LightCache) :
  light_cache (scene s) = Some c ->
  exists (s' : bake_state) (c' : EEVEE_LightCache),
    EEVEE_lightbake_update_world_quick s = (Ok tt, s') /\
    light_cache (scene s') = Some c' /\
    lc_cube_count c' = 1 /\
    lc_grid_count c' = Z.max 1 (lc_grid_count c) /\
    flag_test (lc_flag c') LIGHTCACHE_CUBE_READY = true /\
    flag_test (lc_flag c') LIGHTCACHE_GRID_READY = true /\
    flag_test (lc_flag c') LIGHTCACHE_UPDATE_WORLD = false /\
    (forall mask,
       In mask [LIGHTCACHE_BAKED; LIGHTCACHE_BAKING;
                LIGHTCACHE_UPDATE_CUBE; LIGHTCACHE_UPDATE_GRID] ->
       flag_test (lc_flag c') mask = flag_test (lc_flag c) mask) /\
    (forall n, 6 < n -> Z.testbit (lc_flag c') n = Z.testbit (lc_flag c) n) /\
    lc_vis_res c' = lc_vis_res c /\
    lc_grid_tx c' = lc_grid_tx c /\
    lc_cube_tx c' = lc_cube_tx c /\
    lc_cube_data c' = lc_cube_data c /\
    lc_grid_data c' = lc_grid_data c.
Proof.
  intros Hc.
  destruct (EEVEE_lightbake_update_world_quick_run s c Hc) as (s' & Hrun & Hc').
  eexists. eexists.
  split; [exact Hrun |]. split; [exact Hc' |].
  cbn [lc_cube_count lc_grid_count lc_flag lc_vis_res lc_grid_tx lc_cube_tx
       lc_cube_data lc_grid_data set_lc_flag set_lc_cube_count set_lc_grid_count].
  split; [reflexivity |]. split; [apply max_ii_spec |].
  rewrite flag_test_CUBE_READY, flag_test_GRID_READY, flag_test_UPDATE_WORLD.
  rewrite !world_done_flag_bits by lia.
  split; [cbn; rewrite orb_true_r; reflexivity |].
  split; [cbn; rewrite orb_true_r; reflexivity |].
  split; [cbn; apply andb_false_r |].
  split.
  { intros mask Hm. cbn in Hm.
    destruct Hm as [<- | [<- | [<- | [<- | []]]]];
      rewrite ?flag_test_BAKED, ?flag_test_BAKING, ?flag_test_UPDATE_CUBE,
              ?flag_test_UPDATE_GRID, world_done_flag_bits by lia;
      cbn; rewrite !orb_false_r, andb_true_r; reflexivity. }
  split.
  { intros n Hn. rewrite world_done_flag_bits by lia.
    destruct (Z.eqb_spec n 2); [lia |]. destruct (Z.eqb_spec n 3); [lia |].
    destruct (Z.eqb_spec n 6); [lia |].
    cbn. rewrite !orb_false_r, andb_true_r. reflexivity. }
  repeat split.
Qed.

Lemma EEVEE_lightbake_update_world_quick_frame_witness :
  exists c,
    light_cache (scene (snd (bake_run (example_env never_stop) example_depsgraph
                               false (bake_start example_scene)))) = Some c /\
    lc_cube_count c = 2 /\ lc_grid_count c = 2 /\
    exists s' c',
      EEVEE_lightbake_update_world_quick
        (snd (bake_run (example_env never_stop) example_depsgraph false
                (bake_start example_scene))) = (Ok tt, s') /\
      light_cache (scene s') = Some c' /\
      lc_cube_count c' = 1 /\ lc_grid_count c' = 2.
Proof.
  eexists. split; [vm_compute; reflexivity |].
  split; [reflexivity |]. split; [reflexivity |].
  match goal with
  | |- exists s' c', EEVEE_lightbake_update_world_quick ?s = _ /\ _ =>
    destruct (EEVEE_lightbake_update_world_quick_frame s _
                ltac:(vm_compute; reflexivity))
      as (s' & c' & Hrun & Hc' & Hcube & Hgrid & _)
  end.
  exists s', c'. split; [exact Hrun |]. split; [exact Hc' |].
  split; [exact Hcube | exact Hgrid].
Defined.

(** ** Running the bake monad *)

Lemma bind_run {A B : Type} (c : bake A) (k : A -> bake B) (s : bake_state) :
  bind c k s =
  match c s with
  | (Ok a, s') => k a s'
  | (Fatal, s') => (Fatal, s')
  end.
Proof. reflexivity. Qed.

Lemma bind_ok_inv {A B : Type} (c : bake A) (k : A -> bake B) s b s' :
  bind c k s = (Ok b, s') ->
  exists a s1, c s = (Ok a, s1) /\ k a s1 = (Ok b, s').
Proof.
  unfold bind. destruct (c s) as [[a |] s1]; [| discriminate].
  intros H. exists a, s1. split; [reflexivity | exact H].
Qed.

Section Respects.

Context (R : bake_state -> bake_state -> Prop) `{!PreOrder R}.

Lemma respects_ret {A : Type} (a : A) : respects R (ret a).
Proof. intros s. cbn. reflexivity. Qed.

Lemma respects_fatal {A : Type} : respects R (@fatal A).
Proof. intros s. cbn. reflexivity. Qed.

Lemma respects_gets {A : Type} (f : bake_state -> A) : respects R (gets f).
Proof. intros s. cbn. reflexivity. Qed.

Lemma respects_of_option {A : Type} (o : option A) : respects R (of_option o).
Proof. destruct o; [apply respects_ret | apply respects_fatal]. Qed.

Lemma respects_modify (f : bake_state -> bake_state) :
  (forall s, R s (f s)) -> respects R (modify f).
Proof. intros H s. cbn. apply H. Qed.

Lemma respects_bind {A B : Type} (c : bake A) (k : A -> bake B) :
  respects R c -> (forall a, respects R (k a)) -> respects R (bind c k).
Proof.
  intros Hc Hk s. rewrite bind_run. specialize (Hc s).
  destruct (c s) as [[a |] s1]; cbn in *; [| exact Hc].
  etransitivity; [exact Hc | apply Hk].
Qed.

Lemma respects_for_range (n : nat) (i : Z) (body : Z -> bake unit) :
  (forall j, respects R (body j)) -> respects R (for_range n i body).
Proof.
  intros Hb. revert i. induction n as [| n IH]; intros i; cbn [for_range].
  - apply respects_ret.
  - apply respects_bind; [apply Hb | intros _; apply IH].
Qed.

End Respects.

(** One step of the compositional proofs that a command respects a
    relation; [leaf] settles the [modify] side conditions. *)
Ltac respects_with atom leaf :=
  repeat first
    [ atom
    | apply respects_ret; typeclasses eauto
    | apply respects_fatal; typeclasses eauto
    | apply respects_gets; typeclasses eauto
    | apply respects_of_option; typeclasses eauto
    | apply respects_bind; [typeclasses eauto | | intros ?]
    | apply respects_for_range; [typeclasses eauto | intros ?]
    | apply respects_modify; intros ?; leaf
    | match goal with
      | |- respects _ (if ?b then _ else _) => destruct b
      | |- respects _ (match ?o with _ => _ end) => destruct o
      end
    | progress unfold get_lcache, put_lcache, modify_lcache, modify_lbake, emit,
        texture_create_2D_array, swap_grid_prev_grid_tx, deref_probe,
        eevee_lightbake_cache_create, eevee_lightbake_copy_irradiance,
        store_level_bias, eevee_lightbake_context_enable,
        eevee_lightbake_context_disable, eevee_lightbake_create_render_target,
        eevee_lightbake_delete_resources, bake_grid_probe, for_counter ].

(** *** Render callbacks keep to their frame *)

#[export] Instance callback_frame_preorder : PreOrder callback_frame.
Proof.
  split.
  - intros s. unfold callback_frame. repeat split.
    exists []. split; [symmetry; apply app_nil_r | reflexivity].
  - intros s1 s2 s3 (J1 & L1 & n1 & E1 & Q1) (J2 & L2 & n2 & E2 & Q2).
    unfold callback_frame. repeat split; try congruence.
    exists (n1 ++ n2). split.
    + rewrite E2, E1, app_assoc. reflexivity.
    + rewrite forallb_app, Q1, Q2. reflexivity.
Qed.

Ltac callback_leaf :=
  unfold callback_frame, job_counters; cbn; repeat split;
  first [ exists []; split; [symmetry; apply app_nil_r | reflexivity]
        | eexists [_]; split; reflexivity ].

Lemma render_world_sample_frame :
  respects callback_frame eevee_lightbake_render_world_sample.
Proof.
  unfold eevee_lightbake_render_world_sample. respects_with fail callback_leaf.
Qed.

Lemma render_grid_sample_frame :
  respects callback_frame eevee_lightbake_render_grid_sample.
Proof.
  unfold eevee_lightbake_render_grid_sample. respects_with fail callback_leaf.
Qed.

Lemma render_probe_sample_frame :
  respects callback_frame eevee_lightbake_render_probe_sample.
Proof.
  unfold eevee_lightbake_render_probe_sample. respects_with fail callback_leaf.
Qed.

(** *** Counting events and polls *)

Lemma count_events_app p l1 l2 :
  count_events p (l1 ++ l2) = count_events p l1 + count_events p l2.
Proof.
  unfold count_events. rewrite List.filter_app, length_app. lia.
Qed.


Lemma progress_stores_app l1 l2 :
  progress_stores (l1 ++ l2) = progress_stores l1 ++ progress_stores l2.
Proof. apply omap_app. Qed.

Lemma quiet_events_silent l :
  forallb is_quiet l = true ->
  count_events is_pipeline l = 0 /\ progress_stores l = [].
Proof.
  induction l as [| e l IH]; [split; reflexivity |].
  cbn [forallb]. intros H. apply andb_true_iff in H as [He Hl].
  destruct (IH Hl) as [IH1 IH2].
  unfold is_quiet in He. apply andb_true_iff in He as [Hp Hs].
  apply negb_true_iff in Hp, Hs.
  split.
  - unfold count_events in *. cbn [List.filter]. rewrite Hp. exact IH1.
  - unfold progress_stores in *. cbn [omap]. destruct e; try discriminate Hs; exact IH2.
Qed.



Lemma clear_polls_refl env a : clear_polls env a a = 0.
Proof. unfold clear_polls. rewrite Nat.sub_diag. reflexivity. Qed.

Lemma clear_polls_split env a b c :
  (a <= b)%nat -> (b <= c)%nat ->
  clear_polls env a c = clear_polls env a b + clear_polls env b c.
Proof.
  intros Hab Hbc. unfold clear_polls.
  replace (c - a)%nat with ((b - a) + (c - b))%nat by lia.
  rewrite seq_app, List.filter_app, length_app.
  replace (a + (b - a))%nat with b by lia. lia.
Qed.




#[export] Instance scheduled_preorder env : PreOrder (scheduled env).
Proof.
  split.
  - intros s. unfold scheduled. repeat split; try reflexivity.
    exists []. rewrite clear_polls_refl, Z.sub_diag, app_nil_r.
    repeat split; try reflexivity; try lia.
    unfold count_events. cbn. lia.
  - intros s1 s2 s3
      (T1 & G1 & C1 & P1 & n1 & E1 & K1 & S1 & D1 & U1)
      (T2 & G2 & C2 & P2 & n2 & E2 & K2 & S2 & D2 & U2).
    unfold scheduled. repeat split; try congruence; try lia.
    exists (n1 ++ n2).
    rewrite count_events_app, progress_stores_app.
    repeat split; try lia.
    + rewrite E2, E1, app_assoc. reflexivity.
    + rewrite K1, K2. symmetry. apply clear_polls_split; assumption.
    + rewrite S1, S2, T1, <- map_app. f_equal.
      replace (lb_done (lbake s3) - lb_done (lbake s1))
        with ((lb_done (lbake s2) - lb_done (lbake s1)) +
              (lb_done (lbake s3) - lb_done (lbake s2))) by lia.
      rewrite seqZ_app by lia. do 2 f_equal. lia.
Qed.

(** A step inside the frame of a callback is a scheduling step in which
    nothing was polled. *)
Lemma callback_frame_scheduled env s s' :
  callback_frame s s' -> scheduled env s s'.
Proof.
  intros (J & L & new & E & Q). unfold job_counters in J.
  injection J as _ _ _ _ _ HT HD HG HC _.
  destruct (quiet_events_silent new Q) as [Q1 Q2].
  unfold scheduled. rewrite HT, HD, HG, HC, L.
  repeat split; try reflexivity.
  exists new. rewrite Q1, Q2, clear_polls_refl, Z.sub_diag.
  repeat split; try assumption; try reflexivity; lia.
Qed.

(** *** One scheduling step *)

Lemma context_enable_ok s :
  exists s', eevee_lightbake_context_enable s = (Ok tt, s') /\ callback_frame s s'.
Proof.
  unfold eevee_lightbake_context_enable, bind, gets, emit, modify_lbake, modify, ret.
  destruct (lb_gl_context (lbake s)); [destruct (lb_gwn_context (lbake s)) |];
    eexists; (split; [reflexivity |]); unfold callback_frame, job_counters; cbn;
    repeat split; eexists; (split; [| shelve]); try rewrite <- !app_assoc;
    reflexivity.
  Unshelve. all: reflexivity.
Qed.

Lemma context_disable_ok s :
  exists s', eevee_lightbake_context_disable s = (Ok tt, s') /\ callback_frame s s'.
Proof.
  unfold eevee_lightbake_context_disable, bind, gets, emit, modify.
  destruct (lb_gl_context (lbake s));
    eexists; (split; [reflexivity |]); unfold callback_frame, job_counters; cbn;
    repeat split; eexists; (split; [| shelve]); try rewrite <- !app_assoc;
    reflexivity.
  Unshelve. all: reflexivity.
Qed.

(** A cancelled sample: the poll is counted and nothing else changes. *)
Lemma lightbake_do_sample_cancelled env cb s :
  G_is_break env (polls s) = true ->
  lightbake_do_sample env cb s = (Ok false, set_polls (S (polls s)) s).
Proof.
  intros Hb. unfold lightbake_do_sample, bind, gets, modify. cbn.
  rewrite Hb. reflexivity.
Qed.

(** A sample that is not cancelled: context on, pipeline entered, callback
    run; if the callback completes, [done] is bumped, progress and the update
    request are stored and the context is released. *)
Lemma lightbake_do_sample_clear env cb s :
  G_is_break env (polls s) = false ->
  exists s1 pre,
    eevee_lightbake_context_enable (set_polls (S (polls s)) s) = (Ok tt, s1) /\
    callback_frame (set_polls (S (polls s)) s) s1 /\
    events s1 = events s ++ pre /\ forallb is_quiet pre = true /\
    let s2 := set_events (events s1 ++ [DRW_custom_pipeline]) s1 in
    match cb s2 with
    | (Fatal, s3) => lightbake_do_sample env cb s = (Fatal, s3)
    | (Ok _, s3) =>
      let s4 := set_lbake (set_lb_done (lb_done (lbake s3) + 1) (lbake s3)) s3 in
      let s5 := set_events
                  (events s4 ++
                   [store_progress (float_div (lb_done (lbake s4)) (lb_total (lbake s4)))])
                  s4 in
      let s5' := set_events (events s5 ++ [store_do_update]) s5 in
      exists s6,
        eevee_lightbake_context_disable s5' = (Ok tt, s6) /\
        callback_frame s5' s6 /\
        lightbake_do_sample env cb s = (Ok true, s6)
    end.
Proof.
  intros Hb.
  destruct (context_enable_ok (set_polls (S (polls s)) s)) as (s1 & E1 & F1).
  pose proof F1 as (_ & _ & pre & Epre & Qpre). cbn in Epre.
  exists s1, pre. split; [exact E1 |].
  split; [exact F1 |]. split; [exact Epre |]. split; [exact Qpre |].
  cbn zeta.
  unfold lightbake_do_sample, emit, modify_lbake, bind, gets, modify, ret.
  rewrite Hb, E1. cbv beta iota.
  destruct (cb _) as [[[] |] s3]; [| reflexivity].
  match goal with
  | |- exists s6, eevee_lightbake_context_disable ?x = _ /\ _ =>
    destruct (context_disable_ok x) as (s6 & E6 & F6)
  end.
  exists s6. split; [exact E6 |]. split; [exact F6 |].
  match goal with
  | |- context [eevee_lightbake_context_disable ?y] =>
    match type of E6 with
    | eevee_lightbake_context_disable ?x = _ => change y with x
    end
  end.
  rewrite E6. reflexivity.
Qed.

Lemma callback_frame_inv s s' :
  callback_frame s s' ->
  lb_total (lbake s') = lb_total (lbake s) /\
  lb_done (lbake s') = lb_done (lbake s) /\
  lb_grid_prb (lbake s') = lb_grid_prb (lbake s) /\
  lb_cube_prb (lbake s') = lb_cube_prb (lbake s) /\
  lb_probe (lbake s') = lb_probe (lbake s) /\
  polls s' = polls s /\
  exists new,
    events s' = events s ++ new /\
    count_events is_pipeline new = 0 /\ progress_stores new = [] /\
    forallb is_quiet new = true.
Proof.
  intros (J & L & new & E & Q). unfold job_counters in J.
  injection J as _ _ _ _ _ HT HD HG HC HP.
  destruct (quiet_events_silent new Q) as [Q1 Q2].
  repeat split; try assumption. exists new. repeat split; assumption.
Qed.


(** *** The three blocks of the job keep the accounting *)








(** *** How many polls a block can make *)

Lemma polls_within_refl s : polls_within 0 s s.
Proof. unfold polls_within. repeat split; lia. Qed.

Lemma polls_within_trans a b s1 s2 s3 :
  polls_within a s1 s2 -> polls_within b s2 s3 -> polls_within (a + b) s1 s3.
Proof.
  intros (P1 & G1 & B1 & N1 & C1) (P2 & G2 & B2 & N2 & C2).
  unfold polls_within. repeat split; try congruence. lia.
Qed.

Lemma polls_within_weaken a b s s' :
  a <= b -> polls_within a s s' -> polls_within b s s'.
Proof.
  intros Hab (P & G & B & N & C). unfold polls_within. repeat split; try assumption. lia.
Qed.

Lemma polls_within_bind {A B : Type} a b (c : bake A) (k : A -> bake B) :
  0 <= b ->
  respects (polls_within a) c -> (forall x, respects (polls_within b) (k x)) ->
  respects (polls_within (a + b)) (bind c k).
Proof.
  intros Hb Hc Hk s. rewrite bind_run. specialize (Hc s).
  destruct (c s) as [[x |] s1]; cbn [snd] in *.
  - eapply polls_within_trans; [exact Hc | apply Hk].
  - eapply polls_within_weaken; [| exact Hc]. lia.
Qed.

Lemma polls_within_for_range m (n : nat) (i : Z) (body : Z -> bake unit) :
  0 <= m ->
  (forall j, respects (polls_within m) (body j)) ->
  respects (polls_within (Z.of_nat n * m)) (for_range n i body).
Proof.
  intros Hm Hb. revert i. induction n as [| n IH]; intros i; cbn [for_range].
  - intros s. cbn. apply polls_within_refl.
  - replace (Z.of_nat (S n) * m) with (m + Z.of_nat n * m) by lia.
    apply polls_within_bind; [nia | apply Hb | intros _; apply IH].
Qed.

Lemma callback_frame_polls_within s s' :
  callback_frame s s' -> polls_within 0 s s'.
Proof.
  intros (J & L & _). unfold job_counters in J.
  injection J as _ HG HC _ HB _ _ HP _ _.
  unfold polls_within. repeat split; try assumption. lia.
Qed.


Lemma polls_within_modify_lbake n f :
  0 <= n ->
  (forall lb, lb_grid_prb (f lb) = lb_grid_prb lb /\
              lb_bounce_count (f lb) = lb_bounce_count lb /\
              lb_grid_count (f lb) = lb_grid_count lb /\
              lb_cube_count (f lb) = lb_cube_count lb) ->
  respects (polls_within n) (modify_lbake f).
Proof.
  intros Hn Hf s. destruct (Hf (lbake s)) as (G & B & N & C).
  unfold polls_within. cbn. repeat split; try assumption. lia.
Qed.

(** One sample, cancelled or not, is one poll. *)
Lemma lightbake_do_sample_polls env cb :
  respects callback_frame cb ->
  respects (polls_within 1) (lightbake_do_sample env cb).
Proof.
  intros Hcb s. destruct (G_is_break env (polls s)) eqn:Hb.
  - rewrite lightbake_do_sample_cancelled by exact Hb. cbn [snd].
    unfold polls_within. cbn. repeat split. lia.
  - destruct (lightbake_do_sample_clear env cb s Hb)
      as (s1 & pre & _ & F1 & _ & _ & H).
    cbn zeta in H.
    apply callback_frame_polls_within in F1.
    pose proof (Hcb (set_events (events s1 ++ [DRW_custom_pipeline]) s1)) as F3.
    assert (F01 : polls_within 1 s s1).
    { destruct F1 as (P & G & B & N & C). cbn in P, G, B, N, C.
      unfold polls_within. repeat split; try assumption. lia. }
    destruct (cb _) as [[[] |] s3]; cbn [snd] in F3;
      apply callback_frame_polls_within in F3.
    + destruct H as (s6 & _ & F6 & ->). cbn [snd].
      apply callback_frame_polls_within in F6.
      destruct F01 as (P1 & G1 & B1 & N1 & C1).
      destruct F3 as (P3 & G3 & B3 & N3 & C3). cbn in P3, G3, B3, N3, C3.
      destruct F6 as (P6 & G6 & B6 & N6 & C6). cbn in P6, G6, B6, N6, C6.
      unfold polls_within. repeat split; try congruence. lia.
    + rewrite H. cbn [snd].
      destruct F01 as (P1 & G1 & B1 & N1 & C1).
      destruct F3 as (P3 & G3 & B3 & N3 & C3). cbn in P3, G3, B3, N3, C3.
      unfold polls_within. repeat split; try congruence. lia.
Qed.

#[export] Instance probe_kept_preorder : PreOrder probe_kept.
Proof.
  split.
  - intros s. reflexivity.
  - intros s1 s2 s3 H1 H2. unfold probe_kept in *. congruence.
Qed.

Lemma callback_frame_probe_kept s s' : callback_frame s s' -> probe_kept s s'.
Proof.
  intros (J & _). unfold job_counters in J.
  injection J as _ _ _ _ _ _ _ _ _ HP. exact HP.
Qed.

Lemma lightbake_do_sample_probe_kept env cb :
  respects callback_frame cb ->
  respects probe_kept (lightbake_do_sample env cb).
Proof.
  intros Hcb s. destruct (G_is_break env (polls s)) eqn:Hb.
  - rewrite lightbake_do_sample_cancelled by exact Hb. reflexivity.
  - destruct (lightbake_do_sample_clear env cb s Hb)
      as (s1 & pre & _ & F1 & _ & _ & H).
    cbn zeta in H.
    apply callback_frame_probe_kept in F1.
    pose proof (Hcb (set_events (events s1 ++ [DRW_custom_pipeline]) s1)) as F3.
    destruct (cb _) as [[[] |] s3]; cbn [snd] in F3;
      apply callback_frame_probe_kept in F3.
    + destruct H as (s6 & _ & F6 & ->). cbn [snd].
      apply callback_frame_probe_kept in F6.
      unfold probe_kept in *. cbn in *. congruence.
    + rewrite H. cbn [snd]. unfold probe_kept in *. cbn in *. congruence.
Qed.

Ltac probe_kept_leaf := unfold probe_kept; cbn; reflexivity.

Ltac probe_kept_atom :=
  first [ apply lightbake_do_sample_probe_kept;
          first [ apply render_world_sample_frame
                | apply render_grid_sample_frame
                | apply render_probe_sample_frame ] ].

(** A counted loop whose body makes at most [m] polls. *)
Lemma for_counter_polls set m start stop body :
  0 <= m ->
  (forall v lb, lb_grid_prb (set v lb) = lb_grid_prb lb /\
                lb_bounce_count (set v lb) = lb_bounce_count lb /\
                lb_grid_count (set v lb) = lb_grid_count lb /\
                lb_cube_count (set v lb) = lb_cube_count lb) ->
  respects (polls_within m) body ->
  respects (polls_within (Z.max 0 (stop - start) * m))
           (for_counter set start stop body).
Proof.
  intros Hm Hset Hbody. unfold for_counter.
  replace (Z.max 0 (stop - start) * m)
    with (Z.of_nat (Z.to_nat (stop - start)) * m + 0) by lia.
  apply polls_within_bind; [lia | |].
  - apply polls_within_for_range; [exact Hm |].
    intros j. replace m with (0 + m) by lia.
    apply polls_within_bind; [exact Hm | | intros _; exact Hbody].
    apply polls_within_modify_lbake; [lia | apply Hset].
  - intros _. apply polls_within_modify_lbake; [lia | apply Hset].
Qed.



(** The samples of one grid probe: as many polls as the probe has cells;
    the probe pointer moves on if the block completes. *)
Lemma deref_probe_grid p s :
  lb_probe (lbake s) = GRID_PRB p ->
  deref_probe s = of_option (mjoin (lb_grid_prb (lbake s) !! p)) s.
Proof.
  intros Hp. unfold deref_probe. rewrite bind_run. cbn [gets].
  rewrite Hp. reflexivity.
Qed.

Lemma bake_grid_probe_polls env p s r s' :
  lb_probe (lbake s) = GRID_PRB p ->
  bake_grid_probe env s = (r, s') ->
  polls_within (grid_prb_samples (lb_grid_prb (lbake s)) p) s s' /\
  (r = Ok tt -> lb_probe (lbake s') = GRID_PRB (S p)).
Proof.
  intros Hp E. unfold bake_grid_probe in E. rewrite bind_run in E.
  rewrite (deref_probe_grid p s Hp) in E.
  unfold grid_prb_samples.
  destruct (mjoin (lb_grid_prb (lbake s) !! p)) as [prb |]; cbn [of_option ret fatal] in E.
  2:{ injection E as <- <-. split; [apply polls_within_refl | discriminate]. }
  set (loop := for_counter set_lb_grid_sample 0 _ _) in E.
  assert (Hloop : respects (polls_within (Z.max 0 (grid_sample_count prb))) loop).
  { replace (Z.max 0 (grid_sample_count prb))
      with (Z.max 0 (grid_sample_count prb - 0) * 1) by lia.
    apply for_counter_polls; [lia | intros v lb; repeat split |].
    replace 1 with (1 + 0) by lia.
    apply polls_within_bind; [lia | | intros _ s0; apply polls_within_refl].
    apply lightbake_do_sample_polls, render_grid_sample_frame. }
  assert (Hkept : respects probe_kept loop).
  { subst loop. respects_with probe_kept_atom probe_kept_leaf. }
  rewrite bind_run in E. specialize (Hloop s). specialize (Hkept s).
  destruct (loop s) as [[[] |] s1]; cbn [snd] in *.
  - cbn in E. injection E as <- <-. split.
    + destruct Hloop as (P & G & B & N & C).
      unfold polls_within. cbn. repeat split; assumption.
    + intros _. cbn. unfold probe_kept in Hkept. rewrite Hkept, Hp. reflexivity.
  - injection E as <- <-. split; [exact Hloop | discriminate].
Qed.








(** ** Counting and gathering the probes *)

Lemma grid_probes_cons ob dg :
  grid_probes (ob :: dg) = grid_probes [ob] ++ grid_probes dg.
Proof. unfold grid_probes. cbn [flat_map]. rewrite app_nil_r. reflexivity. Qed.

Lemma cube_probes_cons ob dg :
  cube_probes (ob :: dg) = cube_probes [ob] ++ cube_probes dg.
Proof. unfold cube_probes. cbn [flat_map]. rewrite app_nil_r. reflexivity. Qed.

Lemma grid_samples_sum_cons ob dg :
  grid_samples_sum (ob :: dg) = grid_samples_sum [ob] + grid_samples_sum dg.
Proof.
  unfold grid_samples_sum. rewrite grid_probes_cons, map_app.
  induction (map grid_sample_count (grid_probes [ob])) as [| x l IH]; cbn; lia.
Qed.

(** The object loop of the counting pass adds, to the three counters, the
    grid probes, the cube probes and the grid samples of the objects. *)
Lemma count_probes_loop obs :
  forall lb,
    let lb' := fold_left count_probes_step obs lb in
    lb_grid_count lb' = lb_grid_count lb + Z.of_nat (length (grid_probes obs)) /\
    lb_cube_count lb' = lb_cube_count lb + Z.of_nat (length (cube_probes obs)) /\
    lb_total_irr_samples lb' = lb_total_irr_samples lb + grid_samples_sum obs /\
    lb_depsgraph lb' = lb_depsgraph lb /\
    lb_total lb' = lb_total lb /\ lb_done lb' = lb_done lb /\
    lb_bounce_count lb' = lb_bounce_count lb /\
    lb_gl_context lb' = lb_gl_context lb.
Proof.
  induction obs as [| ob obs IH]; intros lb; cbn [fold_left].
  - cbn. repeat split; lia.
  - specialize (IH (count_probes_step lb ob)). cbn zeta in *.
    destruct IH as (G & C & T & D & TT & DD & B & GL).
    rewrite G, C, T, D, TT, DD, B, GL.
    rewrite grid_probes_cons, cube_probes_cons, grid_samples_sum_cons, !length_app.
    destruct ob as [id prb | id]; [destruct (prb_type prb) eqn:Ety |];
      unfold grid_probes, cube_probes, grid_samples_sum, grid_probes;
      cbn [flat_map count_probes_step]; rewrite ?Ety; cbn;
      unfold grid_sample_count; repeat split; lia.
Qed.

Lemma eevee_lightbake_count_probes_spec lb :
  let lb' := eevee_lightbake_count_probes lb in
  lb_grid_count lb' = 1 + Z.of_nat (length (grid_probes (lb_depsgraph lb))) /\
  lb_cube_count lb' = 1 + Z.of_nat (length (cube_probes (lb_depsgraph lb))) /\
  lb_total_irr_samples lb' = 1 + grid_samples_sum (lb_depsgraph lb) /\
  lb_depsgraph lb' = lb_depsgraph lb /\
  lb_total lb' = lb_total lb /\ lb_done lb' = lb_done lb /\
  lb_bounce_count lb' = lb_bounce_count lb /\
  lb_gl_context lb' = lb_gl_context lb.
Proof.
  unfold eevee_lightbake_count_probes. cbn zeta.
  match goal with
  | |- context [fold_left count_probes_step ?obs ?x] =>
    pose proof (count_probes_loop obs x) as H
  end.
  cbn zeta in H. cbn in H. exact H.
Qed.

#[export] Instance gather_frame_preorder : PreOrder gather_frame.
Proof.
  split.
  - intros s. unfold gather_frame. repeat split.
  - intros s1 s2 s3 (F1 & P1 & E1 & L1) (F2 & P2 & E2 & L2).
    unfold gather_frame. repeat split; congruence.
Qed.

(** Case analysis on the innermost scrutinee, then computation. *)
Ltac destruct_matches_with simp :=
  repeat (match goal with
          | |- context [match ?x with _ => _ end] =>
            lazymatch x with
            | context [match _ with _ => _ end] => fail
            | _ => destruct x eqn:?
            end
          end; simp).

Ltac destruct_matches :=
  repeat (match goal with
          | |- context [match ?x with _ => _ end] =>
            lazymatch x with
            | context [match _ with _ => _ end] => fail
            | _ => destruct x eqn:?
            end
          end; cbn).

Lemma gather_probes_step_frame env counts ob :
  respects gather_frame (gather_probes_step env counts ob).
Proof.
  intros s. destruct counts as [[gc cc] tot].
  destruct ob as [id prb | id]; cbn [gather_probes_step];
    [destruct (prb_type prb) |]; try (cbn; reflexivity).
  - unfold bind, gets, of_option, modify_lbake, get_lcache, put_lcache,
      modify, bind, gets, of_option, ret, fatal.
    cbn. destruct_matches; cbn; unfold gather_frame; cbn; repeat split;
      try congruence;
      repeat match goal with
             | H : light_cache (scene s) = _ |- _ => rewrite H
             | H : (_, _) = (_, _) |- _ => injection H as <- <-
             | H : Some _ = Some _ |- _ => injection H as <-
             end; try reflexivity; try discriminate.
  - unfold bind, gets, of_option, modify_lbake, get_lcache, put_lcache,
      modify, bind, gets, of_option, ret, fatal.
    cbn. destruct_matches; cbn; unfold gather_frame; cbn; repeat split;
      try congruence;
      repeat match goal with
             | H : light_cache (scene s) = _ |- _ => rewrite H
             | H : (_, _) = (_, _) |- _ => injection H as <- <-
             | H : Some _ = Some _ |- _ => injection H as <-
             end; try reflexivity; try discriminate.
Qed.

Lemma gather_probes_loop_frame env obs :
  forall counts, respects gather_frame (gather_probes_loop env obs counts).
Proof.
  induction obs as [| ob obs IH]; intros counts; cbn [gather_probes_loop].
  - apply respects_ret. typeclasses eauto.
  - apply respects_bind; [typeclasses eauto | apply gather_probes_step_frame |].
    intros counts'. apply IH.
Qed.

Lemma array_store_inv {A : Type} (a : list A) i x a' :
  array_store a i x = Some a' ->
  0 <= i < Z.of_nat (length a) /\ a' = <[Z.to_nat i := x]> a.
Proof.
  unfold array_store.
  destruct (Z.leb_spec 0 i) as [H0 | H0];
    destruct (Z.ltb_spec i (Z.of_nat (length a))) as [H1 | H1];
    cbn; try discriminate.
  intros E. injection E as <-. split; [lia | reflexivity].
Qed.

(** A completed iteration of the object loop of the gathering pass. *)
Lemma gather_probes_step_ok env gc cc tot ob s c1 s1 :
  gather_probes_step env (gc, cc, tot) ob s = (Ok c1, s1) ->
  (exists tot1,
     c1 = (gc + Z.of_nat (length (grid_probes [ob])),
           cc + Z.of_nat (length (cube_probes [ob])), tot1)) /\
  match grid_probes [ob] with
  | prb :: _ =>
    0 <= gc < Z.of_nat (length (lb_grid_prb (lbake s))) /\
    lb_grid_prb (lbake s1) = <[Z.to_nat gc := Some prb]> (lb_grid_prb (lbake s))
  | [] => lb_grid_prb (lbake s1) = lb_grid_prb (lbake s)
  end.
Proof.
  destruct ob as [id prb | id]; cbn [gather_probes_step];
    [destruct (prb_type prb) eqn:Ety |];
    unfold grid_probes, cube_probes; cbn [flat_map]; rewrite ?Ety; cbn [app length].
  - unfold bind, gets, of_option, modify_lbake, get_lcache, put_lcache,
      modify, bind, gets, of_option, ret, fatal. cbn.
    destruct_matches; intros Hrun; try discriminate Hrun.
    injection Hrun as <- <-. cbn. split; [| reflexivity].
    eexists. apply pair_equal_spec.
    split; [apply pair_equal_spec; split; lia | reflexivity].
  - intros H. injection H as <- <-. split; [| reflexivity].
    eexists. apply pair_equal_spec.
    split; [apply pair_equal_spec; split; lia | reflexivity].
  - unfold bind, gets, of_option, modify_lbake, get_lcache, put_lcache,
      modify, bind, gets, of_option, ret, fatal. cbn.
    destruct (array_store (lb_grid_prb (lbake s)) gc (Some prb)) as [gp |] eqn:Est;
      cbn; [| discriminate].
    apply array_store_inv in Est. destruct Est as [Hrange ->].
    destruct_matches; intros Hrun; try discriminate Hrun.
    injection Hrun as <- <-. cbn. split; [| split; [exact Hrange | reflexivity]].
    eexists. apply pair_equal_spec.
    split; [apply pair_equal_spec; split; lia | reflexivity].
  - intros H. injection H as <- <-. split; [| reflexivity].
    eexists. apply pair_equal_spec.
    split; [apply pair_equal_spec; split; lia | reflexivity].
Qed.

(** A completed object loop has stored the grid probes, in iteration order,
    from index [grid_count] on, and has left the entries below alone. *)
Lemma gather_probes_loop_ok env obs :
  forall gc cc tot s c1 s1,
    0 <= gc ->
    gather_probes_loop env obs (gc, cc, tot) s = (Ok c1, s1) ->
    (forall q, (q < Z.to_nat gc)%nat ->
               lb_grid_prb (lbake s1) !! q = lb_grid_prb (lbake s) !! q) /\
    (forall j prb, grid_probes obs !! j = Some prb ->
                   lb_grid_prb (lbake s1) !! (Z.to_nat gc + j)%nat = Some (Some prb)).
Proof.
  induction obs as [| ob obs IH]; intros gc cc tot s c1 s1 Hgc H;
    cbn [gather_probes_loop] in H.
  - injection H as <- <-. split; [reflexivity |].
    intros j prb Hj. cbn in Hj. discriminate.
  - apply bind_ok_inv in H. destruct H as (c0 & s0 & Hstep & Hrest).
    apply gather_probes_step_ok in Hstep. destruct Hstep as [(tot0 & ->) Hprb].
    apply IH in Hrest; [| lia]. destruct Hrest as [Hlow Hnew].
    rewrite grid_probes_cons.
    destruct (grid_probes [ob]) as [| prb0 rest] eqn:Eob.
    + cbn [length app] in *. rewrite Z.add_0_r in Hlow, Hnew.
      rewrite Hprb in Hlow. split; assumption.
    + assert (Hrest : rest = []).
      { unfold grid_probes in Eob. cbn [flat_map] in Eob. rewrite app_nil_r in Eob.
        destruct ob as [id prb | id]; [destruct (prb_type prb) |];
          try discriminate. injection Eob as _ <-. reflexivity. }
      subst rest. cbn [length app] in *. destruct Hprb as [Hrange Hins].
      replace (Z.to_nat (gc + Z.of_nat 1)) with (S (Z.to_nat gc)) in Hlow, Hnew by lia.
      split.
      * intros q Hq. rewrite Hlow by lia. rewrite Hins.
        apply list_lookup_insert_ne. lia.
      * intros [| j] prb Hj; cbn in Hj.
        -- injection Hj as <-. rewrite Nat.add_0_r, Hlow by lia.
           rewrite Hins. apply list_lookup_insert_eq. lia.
        -- replace (Z.to_nat gc + S j)%nat with (S (Z.to_nat gc) + j)%nat by lia.
           apply Hnew. exact Hj.
Qed.

(** What the gathering pass does when it completes, and what it leaves
    alone when it does not. *)
Lemma eevee_lightbake_gather_probes_run env s :
  match eevee_lightbake_gather_probes env s with
  | (Ok _, s') =>
    polls s' = polls s /\ events s' = events s /\
    option_map lc_flag (light_cache (scene s')) =
      option_map lc_flag (light_cache (scene s)) /\
    lb_depsgraph (lbake s') = lb_depsgraph (lbake s) /\
    lb_grid_count (lbake s') = lb_grid_count (lbake s) /\
    lb_cube_count (lbake s') = lb_cube_count (lbake s) /\
    lb_total_irr_samples (lbake s') = lb_total_irr_samples (lbake s) /\
    lb_bounce_count (lbake s') = lb_bounce_count (lbake s) /\
    lb_total (lbake s') =
      lb_total_irr_samples (lbake s) * lb_bounce_count (lbake s) +
      lb_cube_count (lbake s) /\
    lb_done (lbake s') = 0 /\
    (forall j prb,
       grid_probes (lb_depsgraph (lbake s)) !! j = Some prb ->
       lb_grid_prb (lbake s') !! S j = Some (Some prb))
  | (Fatal, s') => gather_frame s s'
  end.
Proof.
  unfold eevee_lightbake_gather_probes. rewrite bind_run. cbn [gets].
  rewrite bind_run.
  pose proof (gather_probes_loop_frame env (lb_depsgraph (lbake s)) (1, 1, 1) s) as HF.
  destruct (gather_probes_loop env (lb_depsgraph (lbake s)) (1, 1, 1) s)
    as [[c1 |] s1] eqn:E; cbn [snd] in HF; [| exact HF].
  apply gather_probes_loop_ok in E; [| lia]. destruct E as [_ Hnew].
  destruct HF as (F & P & Ev & L). unfold gather_fixed in F.
  injection F as HD HG HC HT HB HTT HDD.
  cbn. repeat split; try assumption; try congruence.
Qed.



(** ** Allocation of the job *)

Ltac cbn_resources := cbn -[irradiance_pool_size_get EEVEE_lightcache_validate].

Lemma eevee_lightbake_create_resources_run env s :
  match eevee_lightbake_create_resources env s with
  | (r, s1) =>
    polls s1 = polls s /\
    (exists new, events s1 = events s ++ new /\ forallb is_quiet new = true) /\
    lb_done (lbake s1) = lb_done (lbake s) /\
    lb_total (lbake s1) = lb_total (lbake s) /\
    lb_depsgraph (lbake s1) = lb_depsgraph (lbake s) /\
    lb_grid_count (lbake s1) = lb_grid_count (lbake s) /\
    lb_cube_count (lbake s1) = lb_cube_count (lbake s) /\
    lb_total_irr_samples (lbake s1) = lb_total_irr_samples (lbake s) /\
    (r = Ok tt -> lb_bounce_count (lbake s1) = gi_diffuse_bounces (scene s))
  end.
Proof.
  destruct s as [lb [bounces vis cube lc] cd p nt ev].
  unfold eevee_lightbake_create_resources, EEVEE_lightcache_create,
    EEVEE_lightcache_free, texture_create_2D_array, modify_lcache, get_lcache,
    put_lcache, emit, modify_lbake, bind, gets, of_option, modify, ret, fatal.
  cbn -[irradiance_pool_size_get EEVEE_lightcache_validate].
  destruct_matches_with cbn_resources.
  all: repeat split; try discriminate.
  all: try (eexists; split; [rewrite <- ?app_assoc; reflexivity | reflexivity]).
  all: try (exists []; split; [symmetry; apply app_nil_r | reflexivity]).
Qed.

Lemma EEVEE_lightbake_job_data_alloc_run env dg run_as_job s0 :
  match EEVEE_lightbake_job_data_alloc env dg run_as_job s0 with
  | (r, s1) =>
    polls s1 = polls s0 /\
    (exists new, events s1 = events s0 ++ new /\ forallb is_quiet new = true) /\
    lb_done (lbake s1) = 0 /\ lb_total (lbake s1) = 0 /\
    (r = Ok tt ->
     lb_depsgraph (lbake s1) = dg /\
     lb_grid_count (lbake s1) = 1 + Z.of_nat (length (grid_probes dg)) /\
     lb_cube_count (lbake s1) = 1 + Z.of_nat (length (cube_probes dg)) /\
     lb_total_irr_samples (lbake s1) = 1 + grid_samples_sum dg /\
     lb_bounce_count (lbake s1) = gi_diffuse_bounces (scene s0))
  end.
Proof.
  set (lb0 := if run_as_job then set_lb_gl_context true (calloc_LightBake dg)
              else calloc_LightBake dg).
  pose proof (eevee_lightbake_count_probes_spec lb0) as Hcount.
  cbn zeta in Hcount.
  assert (Hlb0 : lb_depsgraph lb0 = dg /\ lb_total lb0 = 0 /\ lb_done lb0 = 0)
    by (subst lb0; destruct run_as_job; repeat split).
  destruct Hlb0 as (Hdg & Hz1 & Hz2). rewrite Hdg, Hz1, Hz2 in Hcount.
  destruct Hcount as (G & C & T & D & TT & DD & _ & _).
  set (s_pre := set_events (events s0 ++ [DRW_opengl_context_enable])
                  (set_lbake (eevee_lightbake_count_probes lb0) s0)).
  assert (Hpre :
    EEVEE_lightbake_job_data_alloc env dg run_as_job s0 =
    (eevee_lightbake_create_resources env >> emit DRW_opengl_context_disable) s_pre).
  { unfold EEVEE_lightbake_job_data_alloc, s_pre, lb0.
    destruct s0; destruct run_as_job; reflexivity. }
  rewrite Hpre, bind_run.
  pose proof (eevee_lightbake_create_resources_run env s_pre) as Hres.
  destruct (eevee_lightbake_create_resources env s_pre) as [[[] |] s1].
  - destruct Hres as (P & (new & E & Q) & HD & HT & HDG & HG & HC & HTI & HB).
    cbn in P, E, HD, HT, HDG, HG, HC, HTI, HB |- *.
    rewrite HD, HT, HDG, HG, HC, HTI, HB by reflexivity.
    repeat split; try assumption.
    exists ([DRW_opengl_context_enable] ++ new ++ [DRW_opengl_context_disable]).
    split.
    + rewrite E, <- !app_assoc. reflexivity.
    + rewrite !forallb_app, Q. reflexivity.
  - destruct Hres as (P & (new & E & Q) & HD & HT & _).
    cbn in P, E, HD, HT |- *. rewrite HD, HT.
    repeat split; try assumption; try discriminate.
    exists ([DRW_opengl_context_enable] ++ new). split.
    + rewrite E, <- !app_assoc. reflexivity.
    + rewrite !forallb_app, Q. reflexivity.
Qed.

(** ** The world pass and the cache flag *)

#[export] Instance no_world_pass_preorder : PreOrder no_world_pass.
Proof.
  split.
  - intros s. unfold no_world_pass. split; [reflexivity |].
    exists []. split; [symmetry; apply app_nil_r | reflexivity].
  - intros s1 s2 s3 (F1 & n1 & E1 & K1) (F2 & n2 & E2 & K2).
    unfold no_world_pass. split; [congruence |].
    exists (n1 ++ n2). split.
    + rewrite E2, E1, app_assoc. reflexivity.
    + rewrite count_events_app, K1, K2. reflexivity.
Qed.

Lemma modify_lcache_no_world f :
  (forall c, lc_flag (f c) = lc_flag c) ->
  respects no_world_pass (modify_lcache f).
Proof.
  intros Hf s. unfold modify_lcache, get_lcache, put_lcache, bind, gets,
    of_option, modify, ret, fatal.
  destruct (light_cache (scene s)) as [c |] eqn:E; cbn.
  - unfold no_world_pass. cbn. rewrite E. cbn. rewrite Hf. split; [reflexivity |].
    exists []. split; [symmetry; apply app_nil_r | reflexivity].
  - reflexivity.
Qed.

Lemma store_level_bias_no_world i v :
  respects no_world_pass (store_level_bias i v).
Proof.
  intros s. unfold store_level_bias, get_lcache, put_lcache, bind, gets,
    of_option, modify, ret, fatal.
  destruct (light_cache (scene s)) as [c |] eqn:E; cbn; [| reflexivity].
  destruct (lc_grid_data c !! i); cbn; [| reflexivity].
  unfold no_world_pass. cbn. rewrite E. split; [reflexivity |].
  exists []. split; [symmetry; apply app_nil_r | reflexivity].
Qed.

Ltac no_world_leaf :=
  unfold no_world_pass; cbn; split; [reflexivity |];
  first [ exists []; split; [symmetry; apply app_nil_r | reflexivity]
        | eexists [_]; split; reflexivity ].

Ltac no_world_atom :=
  first [ apply store_level_bias_no_world
        | apply modify_lcache_no_world; intros ?; reflexivity ].

Lemma render_grid_sample_no_world :
  respects no_world_pass eevee_lightbake_render_grid_sample.
Proof.
  unfold eevee_lightbake_render_grid_sample.
  respects_with no_world_atom no_world_leaf.
Qed.

Lemma render_probe_sample_no_world :
  respects no_world_pass eevee_lightbake_render_probe_sample.
Proof.
  unfold eevee_lightbake_render_probe_sample.
  respects_with no_world_atom no_world_leaf.
Qed.

Lemma lightbake_do_sample_no_world env cb :
  respects no_world_pass cb ->
  respects no_world_pass (lightbake_do_sample env cb).
Proof.
  intros Hcb. unfold lightbake_do_sample.
  respects_with ltac:(first [apply Hcb | no_world_atom]) no_world_leaf.
Qed.

Ltac no_world_job_atom :=
  first [ apply lightbake_do_sample_no_world;
          first [ apply render_grid_sample_no_world
                | apply render_probe_sample_no_world ]
        | no_world_atom ].

Lemma lightbake_job_grids_no_world env :
  respects no_world_pass (lightbake_job_grids env).
Proof.
  unfold lightbake_job_grids. respects_with no_world_job_atom no_world_leaf.
Qed.

Lemma lightbake_job_cubes_no_world env :
  respects no_world_pass (lightbake_job_cubes env).
Proof.
  unfold lightbake_job_cubes. respects_with no_world_job_atom no_world_leaf.
Qed.

Lemma delete_resources_no_world :
  respects no_world_pass eevee_lightbake_delete_resources.
Proof. respects_with no_world_job_atom no_world_leaf. Qed.

Lemma gather_frame_no_world s s' : gather_frame s s' -> no_world_pass s s'.
Proof.
  intros (_ & _ & E & L). split; [exact L |].
  exists []. rewrite E, app_nil_r. split; reflexivity.
Qed.

(** The world sample renders the world once; when it completes, CubeReady
    and GridReady are set in the cache flag and NeedsWorldUpdate is
    cleared. *)
Lemma render_world_sample_run s :
  lb_probe (lbake s) = PROBE_NULL ->
  match eevee_lightbake_render_world_sample s with
  | (r, s1) =>
    (exists new, events s1 = events s ++ new /\
                 count_events is_render_world new = 1) /\
    (r = Ok tt ->
     exists c c1,
       light_cache (scene s) = Some c /\ light_cache (scene s1) = Some c1 /\
       lc_flag c1 =
         Z.land (Z.lor (lc_flag c)
                       (Z.lor LIGHTCACHE_CUBE_READY LIGHTCACHE_GRID_READY))
                (Z.lnot LIGHTCACHE_UPDATE_WORLD))
  end.
Proof.
  intros Hp. destruct s as [lb [bounces vis cube lc] cd p nt ev]. cbn in Hp.
  unfold eevee_lightbake_render_world_sample, eevee_lightbake_cache_create,
    swap_grid_prev_grid_tx, eevee_lightbake_copy_irradiance,
    texture_create_2D_array, modify_lcache, get_lcache,
    put_lcache, emit, modify_lbake, bind, gets, of_option, modify, ret, fatal.
  cbn. rewrite Hp. cbn.
  destruct_matches.
  all: split;
    [ eexists; split; [rewrite <- ?app_assoc; reflexivity | reflexivity]
    | try discriminate ].
  all: intros _; do 2 eexists; split; [reflexivity | split; reflexivity].
Qed.

Lemma context_enable_no_world :
  respects no_world_pass eevee_lightbake_context_enable.
Proof. respects_with no_world_atom no_world_leaf. Qed.

Lemma context_disable_no_world :
  respects no_world_pass eevee_lightbake_context_disable.
Proof. respects_with no_world_atom no_world_leaf. Qed.

Lemma no_world_pass_inv s s' :
  no_world_pass s s' ->
  option_map lc_flag (light_cache (scene s')) =
  option_map lc_flag (light_cache (scene s)) /\
  forall new, events s' = events s ++ new -> count_events is_render_world new = 0.
Proof.
  intros (F & n & E & K). split; [exact F |].
  intros new E'. rewrite E in E'. apply app_inv_head in E'. subst. exact K.
Qed.

(** The world pass as one scheduling step. *)
Lemma lightbake_do_sample_world_run env s f :
  lb_probe (lbake s) = PROBE_NULL ->
  option_map lc_flag (light_cache (scene s)) = Some f ->
  match lightbake_do_sample env eevee_lightbake_render_world_sample s with
  | (r, s') =>
    polls s' = S (polls s) /\
    (exists new,
       events s' = events s ++ new /\
       count_events is_render_world new =
         if G_is_break env (polls s) then 0 else 1) /\
    (forall b, r = Ok b ->
       option_map lc_flag (light_cache (scene s')) =
       Some (if G_is_break env (polls s) then f
             else Z.land (Z.lor f (Z.lor LIGHTCACHE_CUBE_READY LIGHTCACHE_GRID_READY))
                         (Z.lnot LIGHTCACHE_UPDATE_WORLD)))
  end.
Proof.
  intros Hp Hf. destruct (G_is_break env (polls s)) eqn:Hb.
  - rewrite lightbake_do_sample_cancelled by exact Hb. cbn.
    split; [reflexivity |]. split; [| intros _ _; exact Hf].
    exists []. split; [symmetry; apply app_nil_r | reflexivity].
  - destruct (lightbake_do_sample_clear env eevee_lightbake_render_world_sample s Hb)
      as (s1 & pre & Eon & F1 & Epre & Qpre & H).
    cbn zeta in H.
    pose proof (context_enable_no_world (set_polls (S (polls s)) s)) as N1.
    rewrite Eon in N1. cbn [snd] in N1.
    apply no_world_pass_inv in N1. destruct N1 as [L1 K1].
    cbn in L1, K1. specialize (K1 pre Epre).
    apply callback_frame_inv in F1.
    destruct F1 as (_ & _ & _ & _ & P1 & Po1 & _). cbn in P1, Po1.
    set (s2 := set_events (events s1 ++ [DRW_custom_pipeline]) s1) in *.
    pose proof (render_world_sample_run s2 ltac:(cbn; congruence)) as W.
    pose proof (render_world_sample_frame s2) as F3.
    destruct (eevee_lightbake_render_world_sample s2) as [[[] |] s3];
      cbn [snd] in F3; apply callback_frame_inv in F3;
      destruct F3 as (_ & _ & _ & _ & _ & Po3 & _); cbn in Po3;
      destruct W as [(new3 & E3 & K3) W]; cbn in E3.
    + destruct H as (s6 & E6 & F6 & ->).
      match type of E6 with
      | eevee_lightbake_context_disable ?x = _ =>
        pose proof (context_disable_no_world x) as N6
      end.
      rewrite E6 in N6. cbn [snd] in N6.
      destruct N6 as (L6 & n6 & En6 & K6). cbn in L6, En6.
      apply callback_frame_inv in F6.
      destruct F6 as (_ & _ & _ & _ & _ & Po6 & _). cbn in Po6.
      split; [congruence |]. split.
      * eexists. split.
        { rewrite En6, E3, Epre, <- !app_assoc. reflexivity. }
        rewrite !count_events_app, K1, K3, K6. reflexivity.
      * intros b _. rewrite L6.
        destruct (W eq_refl) as (c & c1 & Hc & Hc1 & Hfl).
        rewrite Hc1. cbn. rewrite Hfl. do 2 f_equal.
        cbn in Hc. rewrite Hc in L1. rewrite Hf in L1. cbn in L1. congruence.
    + rewrite H. split; [congruence |]. split; [| discriminate].
      eexists. split.
      { rewrite E3, Epre, <- !app_assoc. reflexivity. }
      rewrite !count_events_app, K1, K3. reflexivity.
Qed.

(** The block of the world pass: one sample is scheduled exactly when the
    flag asks for it; the world is rendered exactly when, in addition, the
    stop flag is clear at that poll. *)
Lemma lightbake_job_world_run env s c :
  light_cache (scene s) = Some c ->
  let wanted := flag_test (lc_flag c) LIGHTCACHE_UPDATE_WORLD in
  let runs := wanted && negb (G_is_break env (polls s)) in
  match lightbake_job_world env s with
  | (r, s') =>
    polls s' = (polls s + (if wanted then 1 else 0))%nat /\
    (exists new,
       events s' = events s ++ new /\
       count_events is_render_world new = if runs then 1 else 0) /\
    (r = Ok tt ->
     option_map lc_flag (light_cache (scene s')) =
     Some (if runs
           then Z.land (Z.lor (lc_flag c)
                              (Z.lor LIGHTCACHE_CUBE_READY LIGHTCACHE_GRID_READY))
                       (Z.lnot LIGHTCACHE_UPDATE_WORLD)
           else lc_flag c))
  end.
Proof.
  intros Hc. cbn zeta.
  unfold lightbake_job_world. rewrite bind_run.
  unfold get_lcache at 1. rewrite bind_run. cbn [gets]. rewrite Hc. cbn [of_option ret].
  destruct (flag_test (lc_flag c) LIGHTCACHE_UPDATE_WORLD); cbn [andb].
  - rewrite bind_run. cbn [modify_lbake modify]. rewrite bind_run.
    set (s0 := set_lbake (set_lb_probe PROBE_NULL (lbake s)) s).
    assert (Hf0 : option_map lc_flag (light_cache (scene s0)) = Some (lc_flag c))
      by (cbn; rewrite Hc; reflexivity).
    pose proof (lightbake_do_sample_world_run env s0 (lc_flag c) eq_refl Hf0) as H.
    change (polls s0) with (polls s) in H. change (events s0) with (events s) in H.
    destruct (lightbake_do_sample env eevee_lightbake_render_world_sample s0)
      as [[b |] s1].
    + cbn. destruct H as (P & N & L). split; [lia |].
      specialize (L b eq_refl).
      destruct (G_is_break env (polls s)); cbn [negb];
        (split; [exact N | intros _; exact L]).
    + destruct H as (P & N & L). split; [lia |].
      destruct (G_is_break env (polls s)); cbn [negb];
        (split; [exact N | discriminate]).
  - cbn. split; [lia |]. split; [| intros _; rewrite Hc; reflexivity].
    exists []. split; [symmetry; apply app_nil_r | reflexivity].
Qed.

Lemma EEVEE_lightbake_job_setup env s :
  exists s1,
    callback_frame s s1 /\ no_world_pass s s1 /\
    EEVEE_lightbake_job env s =
    (eevee_lightbake_gather_probes env >> lightbake_job_samples env) s1.
Proof.
  unfold EEVEE_lightbake_job.
  destruct (context_enable_ok s) as (sa & Ea & Fa).
  pose proof (context_enable_no_world s) as Na. rewrite Ea in Na. cbn [snd] in Na.
  rewrite bind_run, Ea.
  assert (Hrt : exists sb,
            (let* lb := gets lbake in
             eevee_lightbake_create_render_target (lb_rt_res lb)) sa = (Ok tt, sb) /\
            callback_frame sa sb /\ no_world_pass sa sb).
  { eexists. split; [reflexivity |]. split.
    - unfold callback_frame, job_counters. cbn.
      repeat split. eexists. split; [rewrite <- app_assoc; reflexivity | reflexivity].
    - unfold no_world_pass. cbn. split; [reflexivity |].
      eexists. split; [rewrite <- app_assoc; reflexivity | reflexivity]. }
  destruct Hrt as (sb & Eb & Fb & Nb).
  rewrite bind_run, Eb.
  destruct (context_disable_ok sb) as (sc & Ec & Fc).
  pose proof (context_disable_no_world sb) as Nc. rewrite Ec in Nc. cbn [snd] in Nc.
  rewrite bind_run, Ec.
  exists sc. split; [| split].
  - etransitivity; [exact Fa |]. etransitivity; [exact Fb | exact Fc].
  - etransitivity; [exact Na |]. etransitivity; [exact Nb | exact Nc].
  - reflexivity.
Qed.

Lemma modify_lcache_ok f s u s' :
  modify_lcache f s = (Ok u, s') ->
  exists c, light_cache (scene s) = Some c /\
            s' = set_scene (set_light_cache (Some (f c)) (scene s)) s.
Proof.
  unfold modify_lcache, get_lcache, put_lcache, bind, gets, of_option, modify,
    ret, fatal.
  destruct (light_cache (scene s)) as [c |]; cbn; [| discriminate].
  intros H. injection H as _ <-. exists c. split; reflexivity.
Qed.

(** A job that runs to its end: how often the world was rendered, and the
    cache flag it leaves. *)
Lemma EEVEE_lightbake_job_flags env s s' :
  EEVEE_lightbake_job env s = (Ok tt, s') ->
  exists c,
  light_cache (scene s) = Some c /\
  let runs := flag_test (lc_flag c) LIGHTCACHE_UPDATE_WORLD &&
              negb (G_is_break env (polls s)) in
  (exists new,
     events s' = events s ++ new /\
     count_events is_render_world new = if runs then 1 else 0) /\
  exists c',
    light_cache (scene s') = Some c' /\
    lc_flag c' =
      Z.lor (if runs
             then Z.land (Z.lor (lc_flag c)
                                (Z.lor LIGHTCACHE_CUBE_READY LIGHTCACHE_GRID_READY))
                         (Z.lnot LIGHTCACHE_UPDATE_WORLD)
             else lc_flag c)
            LIGHTCACHE_BAKED.
Proof.
  intros Hjob.
  destruct (EEVEE_lightbake_job_setup env s) as (s1 & F1 & N1 & Ejob).
  rewrite Ejob in Hjob. clear Ejob.
  apply bind_ok_inv in Hjob. destruct Hjob as ([] & s2 & Hg & Hjob).
  pose proof (eevee_lightbake_gather_probes_run env s1) as G. rewrite Hg in G.
  destruct G as (P2 & E2 & L2 & _).
  apply callback_frame_inv in F1. destruct F1 as (_ & _ & _ & _ & _ & P1 & _).
  destruct N1 as (L1 & n1 & E1 & K1).
  unfold lightbake_job_samples in Hjob.
  apply bind_ok_inv in Hjob. destruct Hjob as ([] & s3 & Hw & Hjob).
  assert (Hc2 : exists c2, light_cache (scene s2) = Some c2).
  { revert Hw. unfold lightbake_job_world, get_lcache, bind, gets, of_option, fatal.
    destruct (light_cache (scene s2)) as [c2 |]; [eauto | discriminate]. }
  destruct Hc2 as (c2 & Hc2).
  assert (Hc : exists c, light_cache (scene s) = Some c /\ lc_flag c2 = lc_flag c).
  { rewrite L1, Hc2 in L2. cbn in L2.
    destruct (light_cache (scene s)) as [c |]; [| discriminate].
    exists c. split; [reflexivity |]. cbn in L2. congruence. }
  destruct Hc as (c & Hc & Hfl2).
  exists c. split; [exact Hc |]. cbn zeta.
  apply bind_ok_inv in Hjob. destruct Hjob as ([] & s4 & Hgr & Hjob).
  apply bind_ok_inv in Hjob. destruct Hjob as ([] & s5 & Hcu & Hjob).
  apply bind_ok_inv in Hjob. destruct Hjob as ([] & s6 & Hb & Hdel).
  pose proof (lightbake_job_world_run env s2 c2 Hc2) as W. cbn zeta in W.
  rewrite Hw, Hfl2, P2, P1 in W. destruct W as (_ & (nw & Ew & Kw) & Lw).
  specialize (Lw eq_refl).
  pose proof (lightbake_job_grids_no_world env s3) as Ng. rewrite Hgr in Ng.
  destruct Ng as (Lg & ng & Eg & Kg). cbn [snd] in Lg, Eg.
  pose proof (lightbake_job_cubes_no_world env s4) as Ncu. rewrite Hcu in Ncu.
  destruct Ncu as (Lcu & ncu & Ecu & Kcu). cbn [snd] in Lcu, Ecu.
  apply modify_lcache_ok in Hb. destruct Hb as (c5 & Hc5 & ->).
  pose proof (delete_resources_no_world
                (set_scene
                   (set_light_cache
                      (Some (set_lc_flag (Z.lor (lc_flag c5) LIGHTCACHE_BAKED) c5))
                      (scene s5)) s5)) as Nd.
  rewrite Hdel in Nd. destruct Nd as (Ld & nd & Ed & Kd). cbn in Ld, Ed.
  split.
  - exists (n1 ++ nw ++ ng ++ ncu ++ nd). split.
    + rewrite Ed, Ecu, Eg, Ew, E2, E1, <- !app_assoc. reflexivity.
    + rewrite !count_events_app, K1, Kw, Kg, Kcu, Kd. lia.
  - destruct (light_cache (scene s')) as [c' |]; [| discriminate].
    exists c'. split; [reflexivity |].
    cbn in Ld. injection Ld as ->. f_equal.
    rewrite Hc5 in Lcu. rewrite Lg, Lw in Lcu. cbn in Lcu. congruence.
Qed.

(** ** The job as a whole *)






(** C7, as stated, fails: in the example the cache asks for the world
    update when the job starts, but with the stop flag set the job ends
    without rendering the world. *)
Lemma lightbake_world_pass_skipped_when_stopped :
  exists c s',
    light_cache (scene (example_allocated always_stop)) = Some c /\
    flag_test (lc_flag c) LIGHTCACHE_UPDATE_WORLD = true /\
    EEVEE_lightbake_job (example_env always_stop) (example_allocated always_stop) =
      (Ok tt, s') /\
    count_events is_render_world (events s') = 0.
Proof.
  do 2 eexists. split; [vm_compute; reflexivity |].
  split; [reflexivity |]. split; [vm_compute; reflexivity | reflexivity].
Qed.

(** C7 (amended): the world pass is scheduled as one sample exactly when
    [LIGHTCACHE_UPDATE_WORLD] is set in the cache when the job starts, and
    the world is rendered - once - exactly when, in addition, the stop flag
    is clear at that poll.  When that sample completes, the cache flag has
    CubeReady and GridReady set and NeedsWorldUpdate cleared, and a job that
    runs to its end leaves them so. *)
Theorem lightbake_world_pass env s s' c :
  light_cache (scene s) = Some c ->
  EEVEE_lightbake_job env s = (Ok tt, s') ->
  let wanted := flag_test (lc_flag c) LIGHTCACHE_UPDATE_WORLD in
  let runs := wanted && negb (G_is_break env (polls s)) in
  (exists new,
     events s' = events s ++ new /\
     count_events is_render_world new = if runs then 1 else 0) /\
  (runs = true ->
   exists c',
     light_cache (scene s') = Some c' /\
     flag_test (lc_flag c') LIGHTCACHE_CUBE_READY = true /\
     flag_test (lc_flag c') LIGHTCACHE_GRID_READY = true /\
     flag_test (lc_flag c') LIGHTCACHE_UPDATE_WORLD = false) /\
  (forall s2 c2,
     light_cache (scene s2) = Some c2 ->
     let wanted2 := flag_test (lc_flag c2) LIGHTCACHE_UPDATE_WORLD in
     let runs2 := wanted2 && negb (G_is_break env (polls s2)) in
     polls (snd (lightbake_job_world env s2)) =
       (polls s2 + (if wanted2 then 1 else 0))%nat /\
     (exists new,
        events (snd (lightbake_job_world env s2)) = events s2 ++ new /\
        count_events is_render_world new = if runs2 then 1 else 0) /\
     (fst (lightbake_job_world env s2) = Ok tt -> runs2 = true ->
      exists c3,
        light_cache (scene (snd (lightbake_job_world env s2))) = Some c3 /\
        flag_test (lc_flag c3) LIGHTCACHE_CUBE_READY = true /\
        flag_test (lc_flag c3) LIGHTCACHE_GRID_READY = true /\
        flag_test (lc_flag c3) LIGHTCACHE_UPDATE_WORLD = false)).
Proof.
  intros Hc Hjob. cbn zeta.
  destruct (EEVEE_lightbake_job_flags env s s' Hjob) as (c0 & Hc0 & Hcount & c' & Hc' & Hfl).
  rewrite Hc in Hc0. injection Hc0 as <-.
  split; [exact Hcount |]. split.
  - intros Hruns. rewrite Hruns in Hfl. exists c'. split; [exact Hc' |].
    rewrite flag_test_CUBE_READY, flag_test_GRID_READY, flag_test_UPDATE_WORLD, Hfl.
    rewrite !Z.lor_spec, !world_done_flag_bits by lia. cbn.
    rewrite !orb_true_r, !andb_false_r. repeat split; reflexivity.
  - intros s2 c2 Hc2. cbn zeta.
    pose proof (lightbake_job_world_run env s2 c2 Hc2) as W. cbn zeta in W.
    destruct (lightbake_job_world env s2) as [r s3]. cbn [fst snd].
    destruct W as (P & N & L). split; [exact P |]. split; [exact N |].
    intros -> Hruns. specialize (L eq_refl). rewrite Hruns in L.
    destruct (light_cache (scene s3)) as [c3 |]; [| discriminate].
    cbn in L. injection L as L. exists c3. split; [reflexivity |].
    rewrite flag_test_CUBE_READY, flag_test_GRID_READY, flag_test_UPDATE_WORLD, L.
    rewrite !world_done_flag_bits by lia. cbn.
    rewrite !orb_true_r. repeat split; try reflexivity. apply andb_false_r.
Qed.

Lemma lightbake_world_pass_witness :
  exists c s',
    light_cache (scene (example_allocated never_stop)) = Some c /\
    EEVEE_lightbake_job (example_env never_stop) (example_allocated never_stop) =
      (Ok tt, s') /\
    (exists new,
       events s' = events (example_allocated never_stop) ++ new /\
       count_events is_render_world new = 1) /\
    exists c',
      light_cache (scene s') = Some c' /\
      flag_test (lc_flag c') LIGHTCACHE_CUBE_READY = true /\
      flag_test (lc_flag c') LIGHTCACHE_GRID_READY = true /\
      flag_test (lc_flag c') LIGHTCACHE_UPDATE_WORLD = false.
Proof.
  eexists. eexists.
  split; [vm_compute; reflexivity |].
  split; [vm_compute; reflexivity |].
  match goal with
  | |- (exists new, events ?s' = _ /\ _) /\ _ =>
    pose proof (lightbake_world_pass (example_env never_stop)
                  (example_allocated never_stop) s' _
                  ltac:(vm_compute; reflexivity) ltac:(vm_compute; reflexivity)) as W
  end.
  cbn zeta in W. destruct W as (W1 & W2 & _).
  split; [exact W1 | exact (W2 eq_refl)].
Defined.

(** ** The total of the progress counter *)



(** ** Progress *)







(** ** The passes of a grid sample *)

Lemma passes_app l1 l2 : passes (l1 ++ l2) = passes l1 ++ passes l2.
Proof. unfold passes. apply omap_app. Qed.

Ltac run_bake :=
  unfold store_level_bias, swap_grid_prev_grid_tx, eevee_lightbake_cache_create,
    eevee_lightbake_copy_irradiance, deref_probe, modify_lcache, get_lcache,
    put_lcache, emit, modify_lbake;
  unfold bind, gets, of_option, modify, ret, fatal.

(** C8: the passes a grid sample asks of the renderer are, in order, one
    scene render, one diffuse filter and - exactly when the current bounce
    is bounce 0 - one visibility filter; a sample that aborts before its
    render asks for none; the glossy filter is never asked for, whatever
    the bounce and the sample index. *)
Theorem render_grid_sample_passes s :
  exists new,
    events (snd (eevee_lightbake_render_grid_sample s)) = events s ++ new /\
    (passes new = [] \/
     passes new =
       [PassRenderScene; PassFilterDiffuse] ++
       (if lb_bounce_curr (lbake s) =? 0 then [PassFilterVisibility] else [])) /\
    (fst (eevee_lightbake_render_grid_sample s) = Ok tt ->
     passes new =
       [PassRenderScene; PassFilterDiffuse] ++
       (if lb_bounce_curr (lbake s) =? 0 then [PassFilterVisibility] else [])) /\
    ~ In PassFilterGlossy (passes new).
Proof.
  unfold eevee_lightbake_render_grid_sample. run_bake. cbn.
  destruct_matches.
  all: try (eexists; split; [rewrite <- ?app_assoc; try apply eq_sym, app_nil_r; reflexivity|]).
  all: unfold passes; cbn.
  all: split; [first [left; reflexivity | right; reflexivity] |].
  all: split; [first [intros _; reflexivity | intros; discriminate] |].
  all: intros Hin; cbn in Hin; intuition discriminate.
Qed.

Lemma render_grid_sample_passes_witness :
  fst (eevee_lightbake_render_grid_sample example_grid_sample_state) = Ok tt /\
  exists new,
    events (snd (eevee_lightbake_render_grid_sample example_grid_sample_state)) =
      events example_grid_sample_state ++ new /\
    passes new = [PassRenderScene; PassFilterDiffuse; PassFilterVisibility].
Proof.
  assert (Hok : fst (eevee_lightbake_render_grid_sample example_grid_sample_state) =
                Ok tt) by (vm_compute; reflexivity).
  split; [exact Hok |].
  destruct (render_grid_sample_passes example_grid_sample_state)
    as (new & E & _ & P & _).
  exists new. split; [exact E | exact (P Hok)].
Defined.

(** ** Cell indexing: the linear index and the local cell *)





(** ** Cell indexing: the domain and the order of the sweep *)












(** ** The room in the irradiance pool *)



(** ** A new cache and its shape *)

Lemma texture_create_2D_array_run w h d s :
  texture_create_2D_array w h d s =
  (Ok (mkTexture (next_tex s) w h d),
   set_events (events s ++ [DRW_texture_create_2D_array (mkTexture (next_tex s) w h d)])
     (set_next_tex (S (next_tex s)) s)).
Proof. reflexivity. Qed.

Lemma EEVEE_lightcache_create_run grid_count cube_count cube_size irr0 irr1 irr2 s :
  EEVEE_lightcache_create grid_count cube_count cube_size (irr0, irr1, irr2) s =
  (Ok (mkCache (Z.lor (Z.lor LIGHTCACHE_UPDATE_WORLD LIGHTCACHE_UPDATE_CUBE)
                      LIGHTCACHE_UPDATE_GRID)
               0 0 0
               (mkTexture (next_tex s) irr0 irr1 irr2)
               (mkTexture (S (next_tex s)) cube_size cube_size cube_count)
               (replicate (Z.to_nat cube_count) calloc_LightProbe)
               (replicate (Z.to_nat grid_count) calloc_LightGrid)),
   set_events
     (events s ++
      [DRW_texture_create_2D_array (mkTexture (next_tex s) irr0 irr1 irr2);
       DRW_texture_create_2D_array
         (mkTexture (S (next_tex s)) cube_size cube_size cube_count)])
     (set_next_tex (S (S (next_tex s))) s)).
Proof.
  unfold EEVEE_lightcache_create. rewrite bind_run, texture_create_2D_array_run.
  rewrite bind_run, texture_create_2D_array_run. cbn.
  rewrite <- app_assoc. reflexivity.
Qed.

(** X5: [EEVEE_lightcache_create] always completes.  The cache it returns
    passes [EEVEE_lightcache_validate] for exactly the cube count, cube size
    and irradiance size it was created with; its two metadata arrays are
    zero-filled, of [cube_count] and [grid_count] records; its two textures
    are distinct and new; the three update flags are set, the Baked, Baking
    and Ready flags are clear, and the visible probe counts are zero. *)
Theorem EEVEE_lightcache_create_validate grid_count cube_count cube_size
    irr0 irr1 irr2 s :
  exists c s',
    EEVEE_lightcache_create grid_count cube_count cube_size (irr0, irr1, irr2) s =
      (Ok c, s') /\
    (forall cube_count' cube_res' i0 i1 i2,
       EEVEE_lightcache_validate (Some c) cube_count' cube_res' (i0, i1, i2) = true <->
       cube_count' = cube_count /\ cube_res' = cube_size /\
       i0 = irr0 /\ i1 = irr1 /\ i2 = irr2) /\
    lc_cube_data c = replicate (Z.to_nat cube_count) calloc_LightProbe /\
    lc_grid_data c = replicate (Z.to_nat grid_count) calloc_LightGrid /\
    lc_cube_count c = 0 /\ lc_grid_count c = 0 /\
    tex_id (lc_grid_tx c) = next_tex s /\
    tex_id (lc_cube_tx c) = S (next_tex s) /\
    next_tex s' = S (S (next_tex s)) /\
    events s' =
      events s ++ [DRW_texture_create_2D_array (lc_grid_tx c);
                   DRW_texture_create_2D_array (lc_cube_tx c)] /\
    (forall mask,
       In mask [LIGHTCACHE_UPDATE_WORLD; LIGHTCACHE_UPDATE_CUBE;
                LIGHTCACHE_UPDATE_GRID] ->
       flag_test (lc_flag c) mask = true) /\
    (forall mask,
       In mask [LIGHTCACHE_BAKED; LIGHTCACHE_BAKING;
                LIGHTCACHE_CUBE_READY; LIGHTCACHE_GRID_READY] ->
       flag_test (lc_flag c) mask = false).
Proof.
  eexists. eexists. split; [apply EEVEE_lightcache_create_run |].
  split.
  { intros cc cr i0 i1 i2. rewrite EEVEE_lightcache_validate_spec. cbn. split.
    - intros (c & Hc & -> & -> & -> & -> & ->). injection Hc as <-.
      cbn. repeat split.
    - intros (-> & -> & -> & -> & ->). eexists. split; [reflexivity |].
      cbn. repeat split. }
  cbn. repeat split.
  - intros mask Hm. cbn in Hm.
    destruct Hm as [<- | [<- | [<- | []]]]; reflexivity.
  - intros mask Hm. cbn in Hm.
    destruct Hm as [<- | [<- | [<- | [<- | []]]]]; reflexivity.
Qed.

(** ** Allocation: the resources and the cache *)

Ltac unfold_resources :=
  unfold eevee_lightbake_create_resources, EEVEE_lightcache_create,
    EEVEE_lightcache_free, texture_create_2D_array, modify_lcache, get_lcache,
    put_lcache, emit, modify_lbake, bind, gets, of_option, modify, ret, fatal.

Lemma create_resources_undefined env s :
  irradiance_pool_size_get (encoding env) (gi_visibility_resolution (scene s))
    (lb_total_irr_samples (lbake s)) = None ->
  match eevee_lightbake_create_resources env s with
  | (r, s1) =>
    r = Fatal /\
    scene s1 = scene s /\ events s1 = events s /\ next_tex s1 = next_tex s
  end.
Proof.
  intros Hpool.
  destruct s as [lb [bounces v cube lc] cd p nt ev].
  cbn -[irradiance_pool_size_get] in Hpool.
  unfold_resources. cbn_resources. rewrite Hpool.
  cbn. repeat split.
Qed.

Lemma create_resources_fresh env s irr :
  irradiance_pool_size_get (encoding env) (gi_visibility_resolution (scene s))
    (lb_total_irr_samples (lbake s)) = Some irr ->
  light_cache (scene s) = None ->
  match eevee_lightbake_create_resources env s with
  | (r, s1) =>
    r = Ok tt /\
    lb_bounce_count (lbake s1) = gi_diffuse_bounces (scene s) /\
    lb_vis_res (lbake s1) = gi_visibility_resolution (scene s) /\
    lb_rt_res (lbake s1) = gi_cubemap_resolution (scene s) /\
    lb_irr_size (lbake s1) = irr /\
    lb_ref_cube_res (lbake s1) =
      OCTAHEDRAL_SIZE_FROM_CUBESIZE env (gi_cubemap_resolution (scene s)) /\
    lb_cube_prb (lbake s1) = replicate (Z.to_nat (lb_cube_count (lbake s))) None /\
    lb_grid_prb (lbake s1) = replicate (Z.to_nat (lb_grid_count (lbake s))) None /\
    lb_grid_prev (lbake s1) =
      Some (mkTexture (next_tex s) (irr.1.1) (irr.1.2) (irr.2)) /\
    lb_cube_count (lbake s1) = lb_cube_count (lbake s) /\
    lb_grid_count (lbake s1) = lb_grid_count (lbake s) /\
    light_cache (scene s1) =
      Some (mkCache 114 0 0 (gi_visibility_resolution (scene s))
              (mkTexture (S (next_tex s)) (irr.1.1) (irr.1.2) (irr.2))
              (mkTexture (S (S (next_tex s)))
                 (OCTAHEDRAL_SIZE_FROM_CUBESIZE env (gi_cubemap_resolution (scene s)))
                 (OCTAHEDRAL_SIZE_FROM_CUBESIZE env (gi_cubemap_resolution (scene s)))
                 (lb_cube_count (lbake s)))
              (replicate (Z.to_nat (lb_cube_count (lbake s))) calloc_LightProbe)
              (replicate (Z.to_nat (lb_grid_count (lbake s))) calloc_LightGrid)) /\
    events s1 =
      events s ++
      [DRW_texture_create_2D_array
         (mkTexture (next_tex s) (irr.1.1) (irr.1.2) (irr.2));
       DRW_texture_create_2D_array
         (mkTexture (S (next_tex s)) (irr.1.1) (irr.1.2) (irr.2));
       DRW_texture_create_2D_array
         (mkTexture (S (S (next_tex s)))
            (OCTAHEDRAL_SIZE_FROM_CUBESIZE env (gi_cubemap_resolution (scene s)))
            (OCTAHEDRAL_SIZE_FROM_CUBESIZE env (gi_cubemap_resolution (scene s)))
            (lb_cube_count (lbake s)));
       DEG_id_tag_update]
  end.
Proof.
  intros Hpool Hnone.
  destruct s as [lb [bounces v cube lc] cd p nt ev].
  cbn -[irradiance_pool_size_get] in Hpool. cbn in Hnone. subst lc.
  destruct irr as [[i0 i1] i2].
  unfold_resources. cbn_resources. rewrite Hpool. cbn_resources.
  cbn.
  repeat split. rewrite <- !app_assoc. reflexivity.
Qed.

Lemma create_resources_reuse env s irr c0 :
  irradiance_pool_size_get (encoding env) (gi_visibility_resolution (scene s))
    (lb_total_irr_samples (lbake s)) = Some irr ->
  light_cache (scene s) = Some c0 ->
  EEVEE_lightcache_validate (Some c0) (lb_cube_count (lbake s))
    (OCTAHEDRAL_SIZE_FROM_CUBESIZE env (gi_cubemap_resolution (scene s))) irr = true ->
  match eevee_lightbake_create_resources env s with
  | (r, s1) =>
    r = Ok tt /\
    lb_bounce_count (lbake s1) = gi_diffuse_bounces (scene s) /\
    lb_vis_res (lbake s1) = gi_visibility_resolution (scene s) /\
    lb_rt_res (lbake s1) = gi_cubemap_resolution (scene s) /\
    lb_irr_size (lbake s1) = irr /\
    lb_ref_cube_res (lbake s1) =
      OCTAHEDRAL_SIZE_FROM_CUBESIZE env (gi_cubemap_resolution (scene s)) /\
    lb_cube_prb (lbake s1) = replicate (Z.to_nat (lb_cube_count (lbake s))) None /\
    lb_grid_prb (lbake s1) = replicate (Z.to_nat (lb_grid_count (lbake s))) None /\
    lb_grid_prev (lbake s1) =
      Some (mkTexture (next_tex s) (irr.1.1) (irr.1.2) (irr.2)) /\
    lb_cube_count (lbake s1) = lb_cube_count (lbake s) /\
    lb_grid_count (lbake s1) = lb_grid_count (lbake s) /\
    light_cache (scene s1) =
      Some (mkCache 114 (lc_cube_count c0) (lc_grid_count c0)
              (gi_visibility_resolution (scene s))
              (lc_grid_tx c0) (lc_cube_tx c0) (lc_cube_data c0) (lc_grid_data c0)) /\
    events s1 =
      events s ++
      [DRW_texture_create_2D_array
         (mkTexture (next_tex s) (irr.1.1) (irr.1.2) (irr.2))]
  end.
Proof.
  intros Hpool Hsome Hvalid.
  destruct s as [lb [bounces v cube lc] cd p nt ev].
  cbn -[irradiance_pool_size_get] in Hpool. cbn in Hsome. subst lc.
  destruct irr as [[i0 i1] i2].
  cbn -[EEVEE_lightcache_validate] in Hvalid.
  unfold_resources. cbn_resources. rewrite Hpool. cbn_resources.
  rewrite Hvalid. cbn.
  repeat split.
Qed.

Lemma create_resources_replace env s irr c0 :
  irradiance_pool_size_get (encoding env) (gi_visibility_resolution (scene s))
    (lb_total_irr_samples (lbake s)) = Some irr ->
  light_cache (scene s) = Some c0 ->
  EEVEE_lightcache_validate (Some c0) (lb_cube_count (lbake s))
    (OCTAHEDRAL_SIZE_FROM_CUBESIZE env (gi_cubemap_resolution (scene s))) irr = false ->
  match eevee_lightbake_create_resources env s with
  | (r, s1) =>
    r = Ok tt /\
    lb_bounce_count (lbake s1) = gi_diffuse_bounces (scene s) /\
    lb_vis_res (lbake s1) = gi_visibility_resolution (scene s) /\
    lb_rt_res (lbake s1) = gi_cubemap_resolution (scene s) /\
    lb_irr_size (lbake s1) = irr /\
    lb_ref_cube_res (lbake s1) =
      OCTAHEDRAL_SIZE_FROM_CUBESIZE env (gi_cubemap_resolution (scene s)) /\
    lb_cube_prb (lbake s1) = replicate (Z.to_nat (lb_cube_count (lbake s))) None /\
    lb_grid_prb (lbake s1) = replicate (Z.to_nat (lb_grid_count (lbake s))) None /\
    lb_grid_prev (lbake s1) =
      Some (mkTexture (next_tex s) (irr.1.1) (irr.1.2) (irr.2)) /\
    lb_cube_count (lbake s1) = lb_cube_count (lbake s) /\
    lb_grid_count (lbake s1) = lb_grid_count (lbake s) /\
    light_cache (scene s1) =
      Some (mkCache 114 0 0 (gi_visibility_resolution (scene s))
              (mkTexture (S (next_tex s)) (irr.1.1) (irr.1.2) (irr.2))
              (mkTexture (S (S (next_tex s)))
                 (OCTAHEDRAL_SIZE_FROM_CUBESIZE env (gi_cubemap_resolution (scene s)))
                 (OCTAHEDRAL_SIZE_FROM_CUBESIZE env (gi_cubemap_resolution (scene s)))
                 (lb_cube_count (lbake s)))
              (replicate (Z.to_nat (lb_cube_count (lbake s))) calloc_LightProbe)
              (replicate (Z.to_nat (lb_grid_count (lbake s))) calloc_LightGrid)) /\
    events s1 =
      events s ++
      [DRW_texture_create_2D_array
         (mkTexture (next_tex s) (irr.1.1) (irr.1.2) (irr.2));
       DRW_texture_free (lc_cube_tx c0);
       DRW_texture_free (lc_grid_tx c0);
       DRW_texture_create_2D_array
         (mkTexture (S (next_tex s)) (irr.1.1) (irr.1.2) (irr.2));
       DRW_texture_create_2D_array
         (mkTexture (S (S (next_tex s)))
            (OCTAHEDRAL_SIZE_FROM_CUBESIZE env (gi_cubemap_resolution (scene s)))
            (OCTAHEDRAL_SIZE_FROM_CUBESIZE env (gi_cubemap_resolution (scene s)))
            (lb_cube_count (lbake s)));
       DEG_id_tag_update]
  end.
Proof.
  intros Hpool Hsome Hvalid.
  destruct s as [lb [bounces v cube lc] cd p nt ev].
  cbn -[irradiance_pool_size_get] in Hpool. cbn in Hsome. subst lc.
  destruct irr as [[i0 i1] i2].
  cbn -[EEVEE_lightcache_validate] in Hvalid.
  unfold_resources. cbn_resources. rewrite Hpool. cbn_resources.
  rewrite Hvalid. cbn.
  repeat split. rewrite <- !app_assoc. reflexivity.
Qed.

Lemma EEVEE_lightbake_job_data_alloc_unfold env dg run_as_job s0 :
  EEVEE_lightbake_job_data_alloc env dg run_as_job s0 =
  (eevee_lightbake_create_resources env >> emit DRW_opengl_context_disable)
    (set_events (events s0 ++ [DRW_opengl_context_enable])
       (set_lbake (counted_LightBake dg run_as_job) s0)).
Proof.
  unfold EEVEE_lightbake_job_data_alloc, counted_LightBake.
  destruct s0; destruct run_as_job; reflexivity.
Qed.

Lemma counted_LightBake_spec dg run_as_job :
  lb_grid_count (counted_LightBake dg run_as_job) =
    1 + Z.of_nat (length (grid_probes dg)) /\
  lb_cube_count (counted_LightBake dg run_as_job) =
    1 + Z.of_nat (length (cube_probes dg)) /\
  lb_total_irr_samples (counted_LightBake dg run_as_job) = 1 + grid_samples_sum dg /\
  lb_gl_context (counted_LightBake dg run_as_job) = run_as_job.
Proof.
  unfold counted_LightBake.
  pose proof (eevee_lightbake_count_probes_spec
                (if run_as_job then set_lb_gl_context true (calloc_LightBake dg)
                 else calloc_LightBake dg)) as H.
  cbn zeta in H. destruct H as (G & C & T & _ & _ & _ & _ & GL).
  rewrite G, C, T, GL. destruct run_as_job; repeat split.
Qed.

(** What the allocation does, case by case: the pool size has no value; the
    scene has no cache; its cache has the wanted shape; its cache has
    another shape. *)
Lemma EEVEE_lightbake_job_data_alloc_cases env dg run_as_job s0 :
  let vis := gi_visibility_resolution (scene s0) in
  let cube_res :=
    OCTAHEDRAL_SIZE_FROM_CUBESIZE env (gi_cubemap_resolution (scene s0)) in
  let grid_count := 1 + Z.of_nat (length (grid_probes dg)) in
  let cube_count := 1 + Z.of_nat (length (cube_probes dg)) in
  match EEVEE_lightbake_job_data_alloc env dg run_as_job s0 with
  | (r, s1) =>
    match irradiance_pool_size_get (encoding env) vis (1 + grid_samples_sum dg) with
    | None =>
      r = Fatal /\ scene s1 = scene s0 /\ next_tex s1 = next_tex s0 /\
      events s1 = events s0 ++ [DRW_opengl_context_enable]
    | Some irr =>
      r = Ok tt /\
      lb_irr_size (lbake s1) = irr /\
      lb_vis_res (lbake s1) = vis /\
      lb_ref_cube_res (lbake s1) = cube_res /\
      lb_grid_count (lbake s1) = grid_count /\
      lb_cube_count (lbake s1) = cube_count /\
      lb_grid_prb (lbake s1) = replicate (Z.to_nat grid_count) None /\
      lb_cube_prb (lbake s1) = replicate (Z.to_nat cube_count) None /\
      lb_grid_prev (lbake s1) =
        Some (mkTexture (next_tex s0) (irr.1.1) (irr.1.2) (irr.2)) /\
      match light_cache (scene s0) with
      | Some c0 =>
        if EEVEE_lightcache_validate (Some c0) cube_count cube_res irr
        then
          light_cache (scene s1) =
            Some (mkCache LIGHTCACHE_allocated_flag (lc_cube_count c0)
                    (lc_grid_count c0) vis (lc_grid_tx c0) (lc_cube_tx c0)
                    (lc_cube_data c0) (lc_grid_data c0)) /\
          events s1 =
            events s0 ++
            [DRW_opengl_context_enable;
             DRW_texture_create_2D_array
               (mkTexture (next_tex s0) (irr.1.1) (irr.1.2) (irr.2));
             DRW_opengl_context_disable]
        else
          light_cache (scene s1) =
            Some (new_allocated_cache vis irr cube_res grid_count cube_count
                    (S (next_tex s0))) /\
          events s1 =
            events s0 ++
            [DRW_opengl_context_enable;
             DRW_texture_create_2D_array
               (mkTexture (next_tex s0) (irr.1.1) (irr.1.2) (irr.2));
             DRW_texture_free (lc_cube_tx c0);
             DRW_texture_free (lc_grid_tx c0);
             DRW_texture_create_2D_array
               (mkTexture (S (next_tex s0)) (irr.1.1) (irr.1.2) (irr.2));
             DRW_texture_create_2D_array
               (mkTexture (S (S (next_tex s0))) cube_res cube_res cube_count);
             DEG_id_tag_update;
             DRW_opengl_context_disable]
      | None =>
        light_cache (scene s1) =
          Some (new_allocated_cache vis irr cube_res grid_count cube_count
                  (S (next_tex s0))) /\
        events s1 =
          events s0 ++
          [DRW_opengl_context_enable;
           DRW_texture_create_2D_array
             (mkTexture (next_tex s0) (irr.1.1) (irr.1.2) (irr.2));
           DRW_texture_create_2D_array
             (mkTexture (S (next_tex s0)) (irr.1.1) (irr.1.2) (irr.2));
           DRW_texture_create_2D_array
             (mkTexture (S (S (next_tex s0))) cube_res cube_res cube_count);
           DEG_id_tag_update;
           DRW_opengl_context_disable]
      end
    end
  end.
Proof.
  cbn zeta.
  rewrite EEVEE_lightbake_job_data_alloc_unfold, bind_run.
  destruct (counted_LightBake_spec dg run_as_job) as (G & C & T & _).
  set (s_pre := set_events (events s0 ++ [DRW_opengl_context_enable])
                  (set_lbake (counted_LightBake dg run_as_job) s0)).
  assert (Epool :
    irradiance_pool_size_get (encoding env) (gi_visibility_resolution (scene s_pre))
      (lb_total_irr_samples (lbake s_pre)) =
    irradiance_pool_size_get (encoding env) (gi_visibility_resolution (scene s0))
      (1 + grid_samples_sum dg)).
  { cbn [s_pre scene lbake set_events set_lbake]. rewrite T. reflexivity. }
  assert (Ecube : lb_cube_count (lbake s_pre) = 1 + Z.of_nat (length (cube_probes dg)))
    by exact C.
  assert (Egrid : lb_grid_count (lbake s_pre) = 1 + Z.of_nat (length (grid_probes dg)))
    by exact G.
  assert (Escene : scene s_pre = scene s0) by reflexivity.
  assert (Etex : next_tex s_pre = next_tex s0) by reflexivity.
  assert (Eev : events s_pre = events s0 ++ [DRW_opengl_context_enable])
    by reflexivity.
  destruct (irradiance_pool_size_get (encoding env)
              (gi_visibility_resolution (scene s0)) (1 + grid_samples_sum dg))
    as [irr |] eqn:Hpool.
  - destruct (light_cache (scene s0)) as [c0 |] eqn:Hc.
    + destruct (EEVEE_lightcache_validate (Some c0)
                  (1 + Z.of_nat (length (cube_probes dg)))
                  (OCTAHEDRAL_SIZE_FROM_CUBESIZE env (gi_cubemap_resolution (scene s0)))
                  irr) eqn:Hv.
      * pose proof (create_resources_reuse env s_pre irr c0 Epool) as R.
        rewrite Escene, Ecube, Etex, Eev, Egrid in R. specialize (R Hc Hv).
        destruct (eevee_lightbake_create_resources env s_pre) as [r s1].
        destruct R as (-> & _ & V & _ & I & RC & CP & GP & PV & CC & GC & LC & EV).
        cbn. rewrite EV, <- !app_assoc. repeat split; assumption.
      * pose proof (create_resources_replace env s_pre irr c0 Epool) as R.
        rewrite Escene, Ecube, Etex, Eev, Egrid in R. specialize (R Hc Hv).
        destruct (eevee_lightbake_create_resources env s_pre) as [r s1].
        destruct R as (-> & _ & V & _ & I & RC & CP & GP & PV & CC & GC & LC & EV).
        cbn. rewrite EV, <- !app_assoc. repeat split; assumption.
    + pose proof (create_resources_fresh env s_pre irr Epool) as R.
      rewrite Escene, Ecube, Etex, Eev, Egrid in R. specialize (R Hc).
      destruct (eevee_lightbake_create_resources env s_pre) as [r s1].
      destruct R as (-> & _ & V & _ & I & RC & CP & GP & PV & CC & GC & LC & EV).
      cbn. rewrite EV, <- !app_assoc. repeat split; assumption.
  - pose proof (create_resources_undefined env s_pre Epool) as R.
    rewrite Escene, Etex, Eev in R.
    destruct (eevee_lightbake_create_resources env s_pre) as [r s1].
    destruct R as (-> & S1 & E1 & N1). cbn. repeat split; assumption.
Qed.








(** X8: allocation on a scene that already has a cache.  When the cache
    passes [EEVEE_lightcache_validate] for the cube count, cube resolution
    and irradiance size of the new job it is kept: its two textures, its two
    metadata arrays and its probe counts are the old ones, whatever the grid
    count of the new job, and no texture is freed.  Otherwise both textures
    of the old cache are freed and the scene gets a new cache with two new
    textures, zero-filled metadata arrays of one record per counted probe,
    and probe counts of zero. *)
Theorem EEVEE_lightbake_job_data_alloc_reuse env dg run_as_job s0 s1 c0 :
  light_cache (scene s0) = Some c0 ->
  EEVEE_lightbake_job_data_alloc env dg run_as_job s0 = (Ok tt, s1) ->
  exists c1 new,
    light_cache (scene s1) = Some c1 /\
    events s1 = events s0 ++ new /\
    if EEVEE_lightcache_validate (Some c0)
         (1 + Z.of_nat (length (cube_probes dg)))
         (OCTAHEDRAL_SIZE_FROM_CUBESIZE env (gi_cubemap_resolution (scene s0)))
         (lb_irr_size (lbake s1))
    then
      lc_grid_tx c1 = lc_grid_tx c0 /\ lc_cube_tx c1 = lc_cube_tx c0 /\
      lc_grid_data c1 = lc_grid_data c0 /\ lc_cube_data c1 = lc_cube_data c0 /\
      lc_grid_count c1 = lc_grid_count c0 /\ lc_cube_count c1 = lc_cube_count c0 /\
      forall tex, ~ In (DRW_texture_free tex) new
    else
      In (DRW_texture_free (lc_grid_tx c0)) new /\
      In (DRW_texture_free (lc_cube_tx c0)) new /\
      lc_grid_data c1 = replicate (S (length (grid_probes dg))) calloc_LightGrid /\
      lc_cube_data c1 = replicate (S (length (cube_probes dg))) calloc_LightProbe /\
      lc_grid_count c1 = 0 /\ lc_cube_count c1 = 0 /\
      tex_id (lc_grid_tx c1) = S (next_tex s0) /\
      tex_id (lc_cube_tx c1) = S (S (next_tex s0)).
Proof.
  intros Hc Hrun.
  pose proof (EEVEE_lightbake_job_data_alloc_cases env dg run_as_job s0) as A.
  cbn zeta in A. rewrite Hrun, Hc in A.
  destruct (irradiance_pool_size_get (encoding env)
              (gi_visibility_resolution (scene s0)) (1 + grid_samples_sum dg))
    as [irr |]; [| destruct A as (A & _); discriminate].
  destruct A as (_ & I & _ & _ & _ & _ & _ & _ & _ & LC).
  rewrite I.
  destruct (EEVEE_lightcache_validate (Some c0) _ _ irr).
  - destruct LC as (LC & EV). eexists. eexists.
    split; [exact LC |]. split; [exact EV |]. cbn. repeat split.
    intros tex [H | [H | [H | []]]]; discriminate.
  - destruct LC as (LC & EV). eexists. eexists.
    split; [exact LC |]. split; [exact EV |]. cbn.
    replace (Z.to_nat (1 + Z.of_nat (length (grid_probes dg))))
      with (S (length (grid_probes dg))) by lia.
    replace (Z.to_nat (1 + Z.of_nat (length (cube_probes dg))))
      with (S (length (cube_probes dg))) by lia.
    repeat split; tauto.
Qed.

Lemma EEVEE_lightbake_job_data_alloc_reuse_witness :
  exists c0 s1,
    light_cache (scene example_baked) = Some c0 /\
    EEVEE_lightbake_job_data_alloc (example_env never_stop)
      example_depsgraph_two_grids false example_baked = (Ok tt, s1) /\
    EEVEE_lightcache_validate (Some c0)
      (1 + Z.of_nat (length (cube_probes example_depsgraph_two_grids)))
      (OCTAHEDRAL_SIZE_FROM_CUBESIZE (example_env never_stop)
         (gi_cubemap_resolution (scene example_baked)))
      (lb_irr_size (lbake s1)) = true /\
    exists c1 new,
      light_cache (scene s1) = Some c1 /\
      events s1 = events example_baked ++ new /\
      lc_grid_tx c1 = lc_grid_tx c0 /\ lc_cube_tx c1 = lc_cube_tx c0 /\
      lc_grid_data c1 = lc_grid_data c0 /\ lc_cube_data c1 = lc_cube_data c0 /\
      lc_grid_count c1 = lc_grid_count c0 /\ lc_cube_count c1 = lc_cube_count c0 /\
      forall tex, ~ In (DRW_texture_free tex) new.
Proof.
  eexists. eexists.
  split; [vm_compute; reflexivity |].
  split; [vm_compute; reflexivity |].
  split; [vm_compute; reflexivity |].
  match goal with
  | |- exists c1 new, light_cache (scene ?s1) = _ /\ _ =>
    pose proof (EEVEE_lightbake_job_data_alloc_reuse (example_env never_stop)
                  example_depsgraph_two_grids false example_baked s1 _
                  ltac:(vm_compute; reflexivity) ltac:(vm_compute; reflexivity)) as W
  end.
  destruct W as (c1 & new & Hc1 & Hev & W).
  exists c1, new. split; [exact Hc1 |]. split; [exact Hev |].
  exact W.
Defined.

(** ** The gathering pass and the arrays it fills *)

Ltac unfold_gather :=
  unfold bind, gets, of_option, modify_lbake, get_lcache, put_lcache,
    modify, bind, gets, of_option, ret, fatal.

Lemma array_store_in_range {A : Type} (a : list A) (i : nat) (x : A) :
  (i < length a)%nat ->
  array_store a (Z.of_nat i) x = Some (<[i := x]> a).
Proof.
  intros Hi. unfold array_store.
  destruct (Z.leb_spec 0 (Z.of_nat i)); [| lia].
  destruct (Z.ltb_spec (Z.of_nat i) (Z.of_nat (length a))); [| lia].
  cbn. rewrite Nat2Z.id. reflexivity.
Qed.

Lemma array_load_in_range {A : Type} (a : list A) (i : nat) :
  array_load a (Z.of_nat i) = a !! i.
Proof.
  unfold array_load. destruct (Z.leb_spec 0 (Z.of_nat i)); [| lia].
  rewrite Nat2Z.id. reflexivity.
Qed.

Lemma array_store_out_of_range {A : Type} (a : list A) (i : Z) (x : A) :
  Z.of_nat (length a) <= i -> array_store a i x = None.
Proof.
  intros Hi. unfold array_store.
  destruct (Z.ltb_spec i (Z.of_nat (length a))); [lia |].
  rewrite andb_false_r. reflexivity.
Qed.

(** A grid probe is gathered into entry [gc] of [grid_prb] and of
    [grid_data] when both arrays have it. *)
Lemma gather_probes_step_grid env (gc : nat) cc tot id prb s c egrid :
  prb_type prb = LIGHTPROBE_TYPE_GRID ->
  light_cache (scene s) = Some c ->
  (gc < length (lb_grid_prb (lbake s)))%nat ->
  lc_grid_data c !! gc = Some egrid ->
  match gather_probes_step env (Z.of_nat gc, cc, tot) (OB_LIGHTPROBE id prb) s with
  | (r, s1) =>
    r = Ok (Z.of_nat gc + 1, cc,
            snd (EEVEE_lightprobes_grid_data_from_object env (OB_LIGHTPROBE id prb)
                   egrid tot)) /\
    lb_grid_prb (lbake s1) = <[gc := Some prb]> (lb_grid_prb (lbake s)) /\
    lb_cube_prb (lbake s1) = lb_cube_prb (lbake s) /\
    light_cache (scene s1) =
      Some (set_lc_grid_data
              (<[gc := fst (EEVEE_lightprobes_grid_data_from_object env
                              (OB_LIGHTPROBE id prb) egrid tot)]> (lc_grid_data c)) c)
  end.
Proof.
  intros Hty Hc Hprb Hgrid.
  pose proof (lookup_lt_Some _ _ _ Hgrid) as Hlen.
  cbn [gather_probes_step]. rewrite Hty. unfold_gather.
  cbn [lbake]. rewrite (array_store_in_range _ gc (Some prb) Hprb).
  destruct s as [lb sc cd p nt ev]. cbn in Hc, Hprb |- *. rewrite Hc.
  rewrite array_load_in_range, Hgrid.
  destruct (EEVEE_lightprobes_grid_data_from_object env (OB_LIGHTPROBE id prb)
              egrid tot) as [egrid' tot'].
  rewrite (array_store_in_range _ gc egrid' Hlen). cbn. repeat split.
Qed.

Lemma gather_probes_step_cube env gc (cc : nat) tot id prb s c eprobe :
  prb_type prb = LIGHTPROBE_TYPE_CUBE ->
  light_cache (scene s) = Some c ->
  (cc < length (lb_cube_prb (lbake s)))%nat ->
  lc_cube_data c !! cc = Some eprobe ->
  match gather_probes_step env (gc, Z.of_nat cc, tot) (OB_LIGHTPROBE id prb) s with
  | (r, s1) =>
    r = Ok (gc, Z.of_nat cc + 1, tot) /\
    lb_grid_prb (lbake s1) = lb_grid_prb (lbake s) /\
    lb_cube_prb (lbake s1) = <[cc := Some prb]> (lb_cube_prb (lbake s)) /\
    light_cache (scene s1) =
      Some (set_lc_cube_data
              (<[cc := EEVEE_lightprobes_cube_data_from_object env
                         (OB_LIGHTPROBE id prb) eprobe]> (lc_cube_data c)) c)
  end.
Proof.
  intros Hty Hc Hprb Hcube.
  pose proof (lookup_lt_Some _ _ _ Hcube) as Hlen.
  cbn [gather_probes_step]. rewrite Hty. unfold_gather.
  cbn [lbake]. rewrite (array_store_in_range _ cc (Some prb) Hprb).
  destruct s as [lb sc cd p nt ev]. cbn in Hc, Hprb |- *. rewrite Hc.
  rewrite array_load_in_range, Hcube.
  rewrite (array_store_in_range _ cc _ Hlen). cbn. repeat split.
Qed.

Lemma gather_probes_step_skip env counts ob s :
  grid_probes [ob] = [] -> cube_probes [ob] = [] ->
  gather_probes_step env counts ob s = (Ok counts, s).
Proof.
  intros Hg Hc. destruct counts as [[gc cc] tot].
  destruct ob as [id prb | id]; [| reflexivity].
  unfold grid_probes, cube_probes in Hg, Hc. cbn in Hg, Hc.
  cbn [gather_probes_step]. destruct (prb_type prb); try discriminate. reflexivity.
Qed.

(** The object loop fills the next free entries of the four arrays, one per
    probe, when the arrays are long enough. *)
Lemma gather_probes_loop_fills env obs :
  forall (gc cc : nat) tot s c,
    light_cache (scene s) = Some c ->
    (gc + length (grid_probes obs) <= length (lb_grid_prb (lbake s)))%nat ->
    (gc + length (grid_probes obs) <= length (lc_grid_data c))%nat ->
    (cc + length (cube_probes obs) <= length (lb_cube_prb (lbake s)))%nat ->
    (cc + length (cube_probes obs) <= length (lc_cube_data c))%nat ->
    exists tot1 s1 c1,
      gather_probes_loop env obs (Z.of_nat gc, Z.of_nat cc, tot) s =
        (Ok (Z.of_nat (gc + length (grid_probes obs)),
             Z.of_nat (cc + length (cube_probes obs)), tot1), s1) /\
      light_cache (scene s1) = Some c1 /\
      length (lb_grid_prb (lbake s1)) = length (lb_grid_prb (lbake s)) /\
      length (lb_cube_prb (lbake s1)) = length (lb_cube_prb (lbake s)) /\
      length (lc_grid_data c1) = length (lc_grid_data c) /\
      length (lc_cube_data c1) = length (lc_cube_data c) /\
      (forall q, (q < gc)%nat ->
         lb_grid_prb (lbake s1) !! q = lb_grid_prb (lbake s) !! q /\
         lc_grid_data c1 !! q = lc_grid_data c !! q) /\
      (forall q, (q < cc)%nat ->
         lb_cube_prb (lbake s1) !! q = lb_cube_prb (lbake s) !! q /\
         lc_cube_data c1 !! q = lc_cube_data c !! q) /\
      (forall j prb, grid_probes obs !! j = Some prb ->
         lb_grid_prb (lbake s1) !! (gc + j)%nat = Some (Some prb)) /\
      (forall j prb, cube_probes obs !! j = Some prb ->
         lb_cube_prb (lbake s1) !! (cc + j)%nat = Some (Some prb)).
Proof.
  induction obs as [| ob obs IH]; intros gc cc tot s c Hc Hg1 Hg2 Hc1 Hc2.
  - cbn [gather_probes_loop]. exists tot, s, c. cbn. rewrite !Nat.add_0_r.
    repeat split; try assumption; intros; discriminate.
  - cbn [gather_probes_loop]. rewrite bind_run.
    rewrite grid_probes_cons, cube_probes_cons, !length_app in *.
    destruct ob as [id prb | id]; [destruct (prb_type prb) eqn:Ety |].
    + (* a reflection cube *)
      assert (Eg : grid_probes [OB_LIGHTPROBE id prb] = [])
        by (unfold grid_probes; cbn; rewrite Ety; reflexivity).
      assert (Ec : cube_probes [OB_LIGHTPROBE id prb] = [prb])
        by (unfold cube_probes; cbn; rewrite Ety; reflexivity).
      rewrite Eg, Ec in *. cbn [length app] in *.
      destruct (lookup_lt_is_Some_2 (lc_cube_data c) cc ltac:(lia)) as [eprobe Heprobe].
      pose proof (gather_probes_step_cube env (Z.of_nat gc) cc tot id prb s c eprobe
                    Ety Hc ltac:(lia) Heprobe) as Hstep.
      destruct (gather_probes_step env (Z.of_nat gc, Z.of_nat cc, tot)
                  (OB_LIGHTPROBE id prb) s) as [r s0].
      destruct Hstep as (-> & Gp & Cp & Lc).
      replace (Z.of_nat cc + 1) with (Z.of_nat (S cc)) by lia.
      destruct (IH gc (S cc) tot s0 _ Lc) as
        (tot1 & s1 & c1 & Hrun & Hc1' & L1 & L2 & L3 & L4 & Hlow & Hlowc & Hnew & Hnewc).
      { rewrite Gp. lia. }
      { cbn. lia. }
      { rewrite Cp, length_insert. lia. }
      { cbn. rewrite length_insert. lia. }
      exists tot1, s1, c1. rewrite Hrun.
      rewrite Gp in L1. rewrite Cp, length_insert in L2.
      cbn [lc_grid_data lc_cube_data set_lc_cube_data] in L3, L4.
      rewrite length_insert in L4.
      replace (S cc + length (cube_probes obs))%nat
        with (cc + S (length (cube_probes obs)))%nat by lia.
      cbn [Nat.add]. repeat split; try assumption.
      * destruct (Hlow q ltac:(lia)) as [H1 _]. rewrite H1, Gp. reflexivity.
      * destruct (Hlow q ltac:(lia)) as [_ H2]. rewrite H2. reflexivity.
      * destruct (Hlowc q ltac:(lia)) as [H1 _]. rewrite H1, Cp.
        apply list_lookup_insert_ne. lia.
      * destruct (Hlowc q ltac:(lia)) as [_ H2]. rewrite H2. cbn.
        apply list_lookup_insert_ne. lia.
      * intros [| j] prb' Hj; cbn in Hj.
        -- injection Hj as <-. rewrite Nat.add_0_r.
           destruct (Hlowc cc ltac:(lia)) as [H1 _]. rewrite H1, Cp.
           apply list_lookup_insert_eq. lia.
        -- replace (cc + S j)%nat with (S cc + j)%nat by lia. apply Hnewc. exact Hj.
    + (* a planar probe *)
      assert (Eg : grid_probes [OB_LIGHTPROBE id prb] = [])
        by (unfold grid_probes; cbn; rewrite Ety; reflexivity).
      assert (Ec : cube_probes [OB_LIGHTPROBE id prb] = [])
        by (unfold cube_probes; cbn; rewrite Ety; reflexivity).
      rewrite (gather_probes_step_skip env _ _ s Eg Ec).
      rewrite Eg, Ec in *. cbn [length app Nat.add] in *.
      apply (IH gc cc tot s c Hc); assumption.
    + (* a grid probe *)
      assert (Eg : grid_probes [OB_LIGHTPROBE id prb] = [prb])
        by (unfold grid_probes; cbn; rewrite Ety; reflexivity).
      assert (Ec : cube_probes [OB_LIGHTPROBE id prb] = [])
        by (unfold cube_probes; cbn; rewrite Ety; reflexivity).
      rewrite Eg, Ec in *. cbn [length app] in *.
      destruct (lookup_lt_is_Some_2 (lc_grid_data c) gc ltac:(lia)) as [egrid Hegrid].
      pose proof (gather_probes_step_grid env gc (Z.of_nat cc) tot id prb s c egrid
                    Ety Hc ltac:(lia) Hegrid) as Hstep.
      destruct (gather_probes_step env (Z.of_nat gc, Z.of_nat cc, tot)
                  (OB_LIGHTPROBE id prb) s) as [r s0].
      destruct Hstep as (-> & Gp & Cp & Lc).
      replace (Z.of_nat gc + 1) with (Z.of_nat (S gc)) by lia.
      destruct (IH (S gc) cc
                  (snd (EEVEE_lightprobes_grid_data_from_object env
                          (OB_LIGHTPROBE id prb) egrid tot)) s0 _ Lc) as
        (tot1 & s1 & c1 & Hrun & Hc1' & L1 & L2 & L3 & L4 & Hlow & Hlowc & Hnew & Hnewc).
      { rewrite Gp, length_insert. lia. }
      { cbn. rewrite length_insert. lia. }
      { rewrite Cp. lia. }
      { cbn. lia. }
      exists tot1, s1, c1. rewrite Hrun.
      rewrite Gp, length_insert in L1. rewrite Cp in L2.
      cbn [lc_grid_data lc_cube_data set_lc_grid_data] in L3, L4.
      rewrite length_insert in L3.
      replace (S gc + length (grid_probes obs))%nat
        with (gc + S (length (grid_probes obs)))%nat by lia.
      cbn [Nat.add]. repeat split; try assumption.
      * destruct (Hlow q ltac:(lia)) as [H1 _]. rewrite H1, Gp.
        apply list_lookup_insert_ne. lia.
      * destruct (Hlow q ltac:(lia)) as [_ H2]. rewrite H2. cbn.
        apply list_lookup_insert_ne. lia.
      * destruct (Hlowc q ltac:(lia)) as [H1 _]. rewrite H1, Cp. reflexivity.
      * destruct (Hlowc q ltac:(lia)) as [_ H2]. rewrite H2. reflexivity.
      * intros [| j] prb' Hj; cbn in Hj.
        -- injection Hj as <-. rewrite Nat.add_0_r.
           destruct (Hlow gc ltac:(lia)) as [H1 _]. rewrite H1, Gp.
           apply list_lookup_insert_eq. lia.
        -- replace (gc + S j)%nat with (S gc + j)%nat by lia. apply Hnew. exact Hj.
    + rewrite (gather_probes_step_skip env _ (OB_OTHER id) s eq_refl eq_refl).
      change (grid_probes [OB_OTHER id]) with (@nil LightProbe) in *.
      change (cube_probes [OB_OTHER id]) with (@nil LightProbe) in *.
      cbn [length app Nat.add] in *.
      apply (IH gc cc tot s c Hc); assumption.
Qed.

(** A completed step has kept the length of [grid_data], and a grid probe
    was stored inside it. *)
Lemma gather_probes_step_cache_ok env gc cc tot ob s c c1 s1 :
  light_cache (scene s) = Some c ->
  gather_probes_step env (gc, cc, tot) ob s = (Ok c1, s1) ->
  exists c',
    light_cache (scene s1) = Some c' /\
    length (lc_grid_data c') = length (lc_grid_data c) /\
    (grid_probes [ob] <> [] -> 0 <= gc < Z.of_nat (length (lc_grid_data c))).
Proof.
  intros Hc.
  destruct ob as [id prb | id]; cbn [gather_probes_step];
    [destruct (prb_type prb) eqn:Ety |];
    unfold grid_probes; cbn [flat_map]; rewrite ?Ety; cbn [app].
  - unfold_gather. destruct s as [lb sc cd p nt ev]. cbn in Hc |- *.
    destruct (array_store (lb_cube_prb lb) cc (Some prb)); cbn; [| discriminate].
    rewrite Hc. cbn.
    destruct (array_load (lc_cube_data c) cc); cbn; [| discriminate].
    destruct (array_store (lc_cube_data c) cc _) as [cd' |]; cbn; [| discriminate].
    intros H. injection H as <- <-. cbn. exists (set_lc_cube_data cd' c).
    split; [reflexivity |]. split; [reflexivity |]. intros Hne. contradiction.
  - intros H. injection H as <- <-. exists c.
    split; [exact Hc |]. split; [reflexivity |]. intros Hne. contradiction.
  - unfold_gather. destruct s as [lb sc cd p nt ev]. cbn in Hc |- *.
    destruct (array_store (lb_grid_prb lb) gc (Some prb)); cbn; [| discriminate].
    rewrite Hc. cbn.
    destruct (array_load (lc_grid_data c) gc); cbn; [| discriminate].
    destruct (EEVEE_lightprobes_grid_data_from_object env _ _ _) as [egrid' tot'].
    destruct (array_store (lc_grid_data c) gc egrid') as [gd |] eqn:Est; cbn;
      [| discriminate].
    apply array_store_inv in Est. destruct Est as [Hrange ->].
    intros H. injection H as <- <-. cbn. eexists. split; [reflexivity |].
    cbn. rewrite length_insert. split; [reflexivity | intros _; exact Hrange].
  - intros H. injection H as <- <-. exists c.
    split; [exact Hc |]. split; [reflexivity |]. intros Hne. contradiction.
Qed.

(** When [grid_data] is shorter than the entries the grid probes still to
    come need, the loop does not complete. *)
Lemma gather_probes_loop_overrun env obs :
  forall gc cc tot s c,
    0 <= gc ->
    light_cache (scene s) = Some c ->
    Z.of_nat (length (lc_grid_data c)) < gc + Z.of_nat (length (grid_probes obs)) ->
    grid_probes obs <> [] ->
    fst (gather_probes_loop env obs (gc, cc, tot) s) = Fatal.
Proof.
  induction obs as [| ob obs IH]; intros gc cc tot s c Hgc Hc Hlen Hne.
  - contradiction.
  - cbn [gather_probes_loop]. rewrite bind_run.
    destruct (gather_probes_step env (gc, cc, tot) ob s) as [[c1 |] s1] eqn:Hstep;
      [| reflexivity].
    destruct (gather_probes_step_cache_ok env gc cc tot ob s c c1 s1 Hc Hstep)
      as (c' & Hc' & Hlen' & Hin).
    apply gather_probes_step_ok in Hstep. destruct Hstep as [(tot1 & ->) _].
    rewrite grid_probes_cons, length_app in Hlen.
    destruct (grid_probes obs) as [| p0 rest] eqn:Erest.
    + exfalso. rewrite grid_probes_cons, Erest, app_nil_r in Hne.
      specialize (Hin Hne). cbn [length] in Hlen.
      assert (Hone : (length (grid_probes [ob]) <= 1)%nat).
      { destruct ob as [id prb | id]; [destruct (prb_type prb) eqn:Ety |];
          unfold grid_probes; cbn; rewrite ?Ety; cbn; lia. }
      lia.
    + apply (IH _ _ _ s1 c'); [lia | exact Hc' | | discriminate].
      rewrite Hlen'. lia.
Qed.

(** ** The set-up of the job *)

#[export] Instance context_frame_preorder : PreOrder context_frame.
Proof.
  split.
  - intros s. split; [reflexivity | repeat split].
  - intros s1 s2 s3 (F1 & S1 & C1 & N1) (F2 & S2 & C2 & N2).
    split; [etransitivity; eassumption |]. repeat split; congruence.
Qed.

Lemma context_enable_context_frame s :
  exists s', eevee_lightbake_context_enable s = (Ok tt, s') /\ context_frame s s'.
Proof.
  destruct (context_enable_ok s) as (s' & E & F). exists s'. split; [exact E |].
  split; [exact F |]. revert E.
  unfold eevee_lightbake_context_enable, bind, gets, emit, modify_lbake, modify, ret.
  destruct (lb_gl_context (lbake s)); [destruct (lb_gwn_context (lbake s)) |];
    intros E; injection E as <-; repeat split.
Qed.

Lemma context_disable_context_frame s :
  exists s', eevee_lightbake_context_disable s = (Ok tt, s') /\ context_frame s s'.
Proof.
  destruct (context_disable_ok s) as (s' & E & F). exists s'. split; [exact E |].
  split; [exact F |]. revert E.
  unfold eevee_lightbake_context_disable, bind, gets, emit, modify, ret.
  destruct (lb_gl_context (lbake s)); intros E; injection E as <-; repeat split.
Qed.

(** The job reaches its gathering pass with the scene, the cache and the
    counters of the job as they were. *)
Lemma EEVEE_lightbake_job_setup_frame env s :
  exists s1,
    context_frame s s1 /\
    EEVEE_lightbake_job env s =
    (eevee_lightbake_gather_probes env >> lightbake_job_samples env) s1.
Proof.
  unfold EEVEE_lightbake_job.
  destruct (context_enable_context_frame s) as (sa & Ea & Fa).
  rewrite bind_run, Ea.
  assert (Hrt : exists sb,
            (let* lb := gets lbake in
             eevee_lightbake_create_render_target (lb_rt_res lb)) sa = (Ok tt, sb) /\
            context_frame sa sb).
  { eexists. split; [reflexivity |]. split; [| repeat split].
    unfold callback_frame, job_counters. cbn.
    repeat split. eexists. split; [rewrite <- app_assoc; reflexivity | reflexivity]. }
  destruct Hrt as (sb & Eb & Fb).
  rewrite bind_run, Eb.
  destruct (context_disable_context_frame sb) as (sc & Ec & Fc).
  rewrite bind_run, Ec.
  exists sc. split; [| reflexivity].
  etransitivity; [exact Fa |]. etransitivity; [exact Fb | exact Fc].
Qed.

(** X9: the gathering pass indexes the metadata of the cache by its own
    count of the grid probes, which [EEVEE_lightcache_validate] does not
    compare.  On a cache whose [grid_data] has no more records than the
    depsgraph has grid probes - a cache kept from a bake with fewer grids -
    [eevee_lightbake_gather_probes] does not complete: it runs past the end
    of [grid_data]; and so the job does not complete either. *)
Theorem eevee_lightbake_gather_probes_overrun env s c :
  light_cache (scene s) = Some c ->
  (length (lc_grid_data c) <= length (grid_probes (lb_depsgraph (lbake s))))%nat ->
  grid_probes (lb_depsgraph (lbake s)) <> [] ->
  fst (eevee_lightbake_gather_probes env s) = Fatal /\
  fst (EEVEE_lightbake_job env s) = Fatal.
Proof.
  intros Hc Hlen Hpos.
  assert (Hgather : forall s1,
            scene s1 = scene s -> lb_depsgraph (lbake s1) = lb_depsgraph (lbake s) ->
            fst (eevee_lightbake_gather_probes env s1) = Fatal).
  { intros s1 Hs Hd. unfold eevee_lightbake_gather_probes.
    rewrite bind_run. cbn [gets]. rewrite bind_run.
    pose proof (gather_probes_loop_overrun env (lb_depsgraph (lbake s1)) 1 1 1 s1 c
                  ltac:(lia) ltac:(rewrite Hs; exact Hc)) as L.
    rewrite Hd in L |- *.
    specialize (L ltac:(lia) Hpos).
    destruct (gather_probes_loop env (lb_depsgraph (lbake s)) (1, 1, 1) s1)
      as [[c1 |] s2]; [discriminate L | reflexivity]. }
  split; [apply Hgather; reflexivity |].
  destruct (EEVEE_lightbake_job_setup_frame env s) as (s1 & (F & S1 & _) & ->).
  rewrite bind_run.
  specialize (Hgather s1 S1).
  destruct F as (J & _). unfold job_counters in J.
  specialize (Hgather ltac:(congruence)).
  destruct (eevee_lightbake_gather_probes env s1) as [[[] |] s2];
    [discriminate Hgather | reflexivity].
Qed.

Lemma eevee_lightbake_gather_probes_overrun_witness :
  exists c,
    fst (EEVEE_lightbake_job_data_alloc (example_env never_stop)
           example_depsgraph_two_grids false example_baked) = Ok tt /\
    light_cache (scene example_rebake_allocated) = Some c /\
    length (lc_grid_data c) = 2%nat /\
    length (grid_probes (lb_depsgraph (lbake example_rebake_allocated))) = 2%nat /\
    fst (eevee_lightbake_gather_probes (example_env never_stop)
           example_rebake_allocated) = Fatal /\
    fst (EEVEE_lightbake_job (example_env never_stop) example_rebake_allocated) = Fatal.
Proof.
  eexists.
  split; [vm_compute; reflexivity |].
  split; [vm_compute; reflexivity |].
  split; [reflexivity |]. split; [reflexivity |].
  apply (eevee_lightbake_gather_probes_overrun (example_env never_stop)
           example_rebake_allocated _ ltac:(vm_compute; reflexivity)).
  - vm_compute. lia.
  - vm_compute. discriminate.
Defined.

Lemma list_eq_cons_map {A : Type} (l : list (option A)) (x : option A) (ps : list A) :
  length l = S (length ps) ->
  l !! 0%nat = Some x ->
  (forall j p, ps !! j = Some p -> l !! S j = Some (Some p)) ->
  l = x :: map Some ps.
Proof.
  intros Hlen H0 Hs. destruct l as [| y l]; [discriminate |].
  cbn in H0. injection H0 as ->. f_equal.
  cbn in Hlen. injection Hlen as Hlen.
  apply list_eq. intros j. change (map Some ps) with (Some <$> ps).
  rewrite list_lookup_fmap.
  destruct (ps !! j) as [p |] eqn:E.
  - exact (Hs j p E).
  - cbn. apply lookup_ge_None_2. apply lookup_ge_None_1 in E. lia.
Qed.

(** X10: the counting pass and the gathering pass agree.  On a cache that
    has a record for every counted probe, with the two probe arrays as the
    allocation leaves them, [eevee_lightbake_gather_probes] completes: entry
    0 of [grid_prb] and of [cube_prb] - the world - stays null, entries 1,
    2, ... are the grid probes and the cube probes of the depsgraph in
    iteration order, nothing is stored past the arrays, and record 0 of
    [grid_data] and of [cube_data] is not written. *)
Theorem eevee_lightbake_gather_probes_fills env s c :
  light_cache (scene s) = Some c ->
  lb_grid_prb (lbake s) =
    replicate (S (length (grid_probes (lb_depsgraph (lbake s))))) None ->
  lb_cube_prb (lbake s) =
    replicate (S (length (cube_probes (lb_depsgraph (lbake s))))) None ->
  (length (grid_probes (lb_depsgraph (lbake s))) < length (lc_grid_data c))%nat ->
  (length (cube_probes (lb_depsgraph (lbake s))) < length (lc_cube_data c))%nat ->
  exists s' c',
    eevee_lightbake_gather_probes env s = (Ok tt, s') /\
    light_cache (scene s') = Some c' /\
    lb_grid_prb (lbake s') = None :: map Some (grid_probes (lb_depsgraph (lbake s))) /\
    lb_cube_prb (lbake s') = None :: map Some (cube_probes (lb_depsgraph (lbake s))) /\
    length (lc_grid_data c') = length (lc_grid_data c) /\
    length (lc_cube_data c') = length (lc_cube_data c) /\
    lc_grid_data c' !! 0%nat = lc_grid_data c !! 0%nat /\
    lc_cube_data c' !! 0%nat = lc_cube_data c !! 0%nat.
Proof.
  intros Hc Hgp Hcp Hgd Hcd.
  destruct (gather_probes_loop_fills env (lb_depsgraph (lbake s)) 1 1 1 s c Hc)
    as (tot1 & s1 & c1 & Hrun & Hc1 & L1 & L2 & L3 & L4 & Hlow & Hlowc & Hnew & Hnewc).
  { rewrite Hgp, length_replicate. lia. }
  { lia. }
  { rewrite Hcp, length_replicate. lia. }
  { lia. }
  unfold eevee_lightbake_gather_probes. rewrite bind_run. cbn [gets].
  rewrite bind_run. change (Z.of_nat 1) with 1 in Hrun. rewrite Hrun.
  eexists. exists c1. split; [reflexivity |]. cbn.
  destruct (Hlow 0%nat ltac:(lia)) as [G0 D0].
  destruct (Hlowc 0%nat ltac:(lia)) as [C0 E0].
  split; [exact Hc1 |]. split; [| split]; [| | repeat split; assumption].
  - apply list_eq_cons_map.
    + rewrite L1, Hgp, length_replicate. reflexivity.
    + rewrite G0, Hgp. reflexivity.
    + intros j p Hj. exact (Hnew j p Hj).
  - apply list_eq_cons_map.
    + rewrite L2, Hcp, length_replicate. reflexivity.
    + rewrite C0, Hcp. reflexivity.
    + intros j p Hj. exact (Hnewc j p Hj).
Qed.

Lemma eevee_lightbake_gather_probes_fills_witness :
  exists c s' c',
    light_cache (scene (example_allocated never_stop)) = Some c /\
    eevee_lightbake_gather_probes (example_env never_stop)
      (example_allocated never_stop) = (Ok tt, s') /\
    light_cache (scene s') = Some c' /\
    lb_grid_prb (lbake s') =
      None :: map Some (grid_probes (lb_depsgraph (lbake (example_allocated never_stop)))) /\
    lb_cube_prb (lbake s') =
      None :: map Some (cube_probes (lb_depsgraph (lbake (example_allocated never_stop)))) /\
    length (lc_grid_data c') = length (lc_grid_data c) /\
    length (lc_cube_data c') = length (lc_cube_data c) /\
    lc_grid_data c' !! 0%nat = lc_grid_data c !! 0%nat /\
    lc_cube_data c' !! 0%nat = lc_cube_data c !! 0%nat.
Proof.
  eexists.
  pose proof (eevee_lightbake_gather_probes_fills (example_env never_stop)
                (example_allocated never_stop) _
                ltac:(vm_compute; reflexivity) ltac:(vm_compute; reflexivity)
                ltac:(vm_compute; reflexivity) ltac:(vm_compute; lia)
                ltac:(vm_compute; lia)) as (s' & c' & W).
  exists s', c'. split; [vm_compute; reflexivity | exact W].
Defined.

(** ** What a sample leaves in the cache *)

Ltac lookup_inserted :=
  cbn;
  repeat match goal with
         | H : ?l !! ?i = Some _ |- context [<[?i := ?x]> ?l !! ?i] =>
           rewrite (list_lookup_insert_eq l i x) by (eapply lookup_lt_Some; exact H)
         end;
  cbn.

Ltac same_cache :=
  repeat match goal with
         | H : Some _ = Some _ |- _ => injection H as H; subst
         | H : PROBE_NULL = _ |- _ => discriminate H
         | H : GRID_PRB _ = _ |- _ => first [discriminate H | injection H as H; subst]
         | H : CUBE_PRB _ = _ |- _ => first [discriminate H | injection H as H; subst]
         | H1 : ?a = Some ?x, H2 : ?a = Some ?y |- _ =>
           rewrite H1 in H2; injection H2 as H2; subst
         end.

(** A grid sample that completes leaves the textures of the cache as
    they were: the two swaps of [grid_prev] and [grid_tx] cancel.  Flag,
    probe counts, visibility resolution and the cube records are untouched,
    and of the grid records only the level bias of the current grid
    changes: it is 1 after the last sample of a bounce and after any sample
    of a later bounce, and twice the stride of the cell after another sample
    of bounce 0.  [grid_prev] is replaced, by a new texture of the
    irradiance size, only by the last sample of a bounce. *)
Lemma render_grid_sample_run s :
  match eevee_lightbake_render_grid_sample s with
  | (Ok _, s') =>
    exists c c' idx egrid,
      light_cache (scene s) = Some c /\
      light_cache (scene s') = Some c' /\
      lb_grid (lbake s) = Some idx /\
      lc_grid_data c !! idx = Some egrid /\
      lc_grid_tx c' = lc_grid_tx c /\
      lc_cube_tx c' = lc_cube_tx c /\
      lc_flag c' = lc_flag c /\
      lc_cube_count c' = lc_cube_count c /\
      lc_grid_count c' = lc_grid_count c /\
      lc_vis_res c' = lc_vis_res c /\
      lc_cube_data c' = lc_cube_data c /\
      (exists bias,
         lc_grid_data c' = <[idx := set_level_bias bias egrid]> (lc_grid_data c) /\
         if offset egrid + lb_grid_sample (lbake s) =? lb_total_irr_samples (lbake s) - 1
         then bias = 1%Q
         else if lb_bounce_curr (lbake s) =? 0
              then exists prb cell,
                     compute_cell_id egrid prb (lb_grid_sample (lbake s)) = Some cell /\
                     bias = inject_Z (Z.shiftl (r_stride cell) 1)
              else bias = 1%Q) /\
      lb_grid_prev (lbake s') =
        (if offset egrid + lb_grid_sample (lbake s) =? lb_total_irr_samples (lbake s) - 1
         then Some (mkTexture (next_tex s) (lb_irr_size (lbake s)).1.1
                      (lb_irr_size (lbake s)).1.2 (lb_irr_size (lbake s)).2)
         else lb_grid_prev (lbake s))
  | (Fatal, _) => True
  end.
Proof.
  unfold eevee_lightbake_render_grid_sample. run_bake. cbn.
  destruct_matches_with lookup_inserted.
  all: try exact I.
  all: same_cache.
  all: do 4 eexists.
  all: split; [reflexivity |]; split; [reflexivity |]; split; [reflexivity |].
  all: split; [eassumption |].
  all: cbn.
  all: do 7 (split; [reflexivity |]).
  all: split;
    [eexists; split; [rewrite ?list_insert_insert_eq; reflexivity |] |].
  all: repeat match goal with
              | H : (_ =? _) = _ |- _ => rewrite H
              end.
  all: try reflexivity.
  all: try (do 2 eexists; split; [eassumption | reflexivity]).
  all: try (match goal with H : lb_irr_size _ = _ |- _ => rewrite H end; reflexivity).
  all: try assumption.
Qed.



(** A reflection cube sample that completes asks the renderer for
    one scene render at the position of the current cube record and one
    glossy filter into the slot [cube_offset], in this order, and for no
    diffuse or visibility filter; it makes one more cube visible
    ([cube_count + 1]) and leaves everything else of the cache, and
    [grid_prev], as they were.  Specular lighting and the planar and cube
    probes are switched off for the render. *)
Lemma render_probe_sample_run s :
  match eevee_lightbake_render_probe_sample s with
  | (Ok _, s') =>
    exists c idx eprobe prb,
      light_cache (scene s) = Some c /\
      lb_cube (lbake s) = Some idx /\
      lc_cube_data c !! idx = Some eprobe /\
      light_cache (scene s') = Some (set_lc_cube_count (lc_cube_count c + 1) c) /\
      lb_grid_prev (lbake s') = lb_grid_prev (lbake s) /\
      common_data s' =
        mkCommon false 0 0 (prb_num_render_grid (common_data s)) /\
      events s' =
        events s ++
        [lightbake_cache_create (Some prb);
         DRW_uniformbuffer_update (common_data s');
         EEVEE_lightbake_render_scene (position eprobe) (clipsta prb) (clipend prb);
         EEVEE_lightbake_filter_glossy (lb_cube_offset (lbake s)) (intensity prb)]
  | (Fatal, _) => True
  end.
Proof.
  unfold eevee_lightbake_render_probe_sample. run_bake. cbn.
  destruct_matches.
  all: try exact I.
  all: same_cache.
  all: do 4 eexists.
  all: split; [reflexivity |]; split; [reflexivity |]; split; [eassumption |].
  all: cbn.
  all: repeat split.
  all: rewrite <- ?app_assoc; reflexivity.
Qed.

(** A world sample that completes asks for the world render, the
    glossy filter and the diffuse filter of slot 0, then clears [grid_prev]
    and swaps it into the cache: the irradiance texture of the cache is
    from then on the cleared texture, the texture the cache had is freed,
    and [grid_prev] is a new copy.  One cube - the world - and all
    [grid_count] grids are made visible; the cube texture and the two
    metadata arrays are untouched. *)
Lemma render_world_sample_passes_run s :
  match eevee_lightbake_render_world_sample s with
  | (Ok _, s') =>
    exists c c' prev vis_probe,
      light_cache (scene s) = Some c /\
      light_cache (scene s') = Some c' /\
      lb_grid_prev (lbake s) = Some prev /\
      lc_grid_tx c' = prev /\
      lb_grid_prev (lbake s') =
        Some (mkTexture (next_tex s) (lb_irr_size (lbake s)).1.1
                (lb_irr_size (lbake s)).1.2 (lb_irr_size (lbake s)).2) /\
      lc_cube_tx c' = lc_cube_tx c /\
      lc_cube_count c' = 1 /\
      lc_grid_count c' = lb_grid_count (lbake s) /\
      lc_cube_data c' = lc_cube_data c /\
      lc_grid_data c' = lc_grid_data c /\
      lc_vis_res c' = lc_vis_res c /\
      events s' =
        events s ++
        [lightbake_cache_create vis_probe;
         EEVEE_lightbake_render_world;
         EEVEE_lightbake_filter_glossy 0 1%Q;
         EEVEE_lightbake_filter_diffuse 0 1%Q;
         probe_grid_fill prev;
         DRW_texture_free (lc_grid_tx c);
         GPU_texture_read prev;
         DRW_texture_create_2D_array
           (mkTexture (next_tex s) (lb_irr_size (lbake s)).1.1
              (lb_irr_size (lbake s)).1.2 (lb_irr_size (lbake s)).2)]
  | (Fatal, _) => True
  end.
Proof.
  unfold eevee_lightbake_render_world_sample, texture_create_2D_array. run_bake. cbn.
  destruct_matches.
  all: try exact I.
  all: same_cache.
  all: do 4 eexists.
  all: split; [reflexivity |]; split; [reflexivity |]; split; [reflexivity |].
  all: cbn.
  all: repeat match goal with H : lb_irr_size _ = _ |- _ => rewrite H end.
  all: cbn.
  all: repeat split.
  all: rewrite <- ?app_assoc; reflexivity.
Qed.

(** X12: a reflection cube sample that completes asks the renderer for
    one scene render at the position of the current cube record and one
    glossy filter into the slot [cube_offset], in this order, and for no
    diffuse or visibility filter; it makes one more cube visible
    ([cube_count + 1]) and leaves everything else of the cache, and
    [grid_prev], as they were.  Specular lighting and the planar and cube
    probes are switched off for the render. *)
Theorem render_probe_sample_effect s s' :
  eevee_lightbake_render_probe_sample s = (Ok tt, s') ->
  exists c idx eprobe prb,
    light_cache (scene s) = Some c /\
    lb_cube (lbake s) = Some idx /\
    lc_cube_data c !! idx = Some eprobe /\
    light_cache (scene s') = Some (set_lc_cube_count (lc_cube_count c + 1) c) /\
    lb_grid_prev (lbake s') = lb_grid_prev (lbake s) /\
    common_data s' = mkCommon false 0 0 (prb_num_render_grid (common_data s)) /\
    events s' =
      events s ++
      [lightbake_cache_create (Some prb);
       DRW_uniformbuffer_update (common_data s');
       EEVEE_lightbake_render_scene (position eprobe) (clipsta prb) (clipend prb);
       EEVEE_lightbake_filter_glossy (lb_cube_offset (lbake s)) (intensity prb)].
Proof.
  intros Hrun. pose proof (render_probe_sample_run s) as R.
  rewrite Hrun in R. exact R.
Qed.

Lemma render_probe_sample_effect_witness :
  exists s' c,
    eevee_lightbake_render_probe_sample example_cube_sample_state = (Ok tt, s') /\
    light_cache (scene example_cube_sample_state) = Some c /\
    light_cache (scene s') = Some (set_lc_cube_count (lc_cube_count c + 1) c) /\
    passes (drop (length (events example_cube_sample_state)) (events s')) =
      [PassRenderScene; PassFilterGlossy].
Proof.
  eexists.
  destruct (render_probe_sample_effect example_cube_sample_state _
              ltac:(vm_compute; reflexivity))
    as (c & idx & eprobe & prb & Hc & _ & _ & Hc' & _ & _ & Hev).
  exists c. split; [vm_compute; reflexivity |].
  split; [exact Hc |]. split; [exact Hc' |].
  rewrite Hev, drop_app_length. reflexivity.
Defined.

(** X13: a world sample that completes asks for the world render, the
    glossy filter and the diffuse filter of slot 0, then clears [grid_prev]
    and swaps it into the cache: the irradiance texture of the cache is
    from then on the cleared texture, the texture the cache had is freed,
    and [grid_prev] is a new copy.  One cube - the world - and all
    [grid_count] grids are made visible; the cube texture and the two
    metadata arrays are untouched. *)
Theorem render_world_sample_effect s s' :
  eevee_lightbake_render_world_sample s = (Ok tt, s') ->
  exists c c' prev vis_probe,
    light_cache (scene s) = Some c /\
    light_cache (scene s') = Some c' /\
    lb_grid_prev (lbake s) = Some prev /\
    lc_grid_tx c' = prev /\
    lb_grid_prev (lbake s') =
      Some (mkTexture (next_tex s) (lb_irr_size (lbake s)).1.1
              (lb_irr_size (lbake s)).1.2 (lb_irr_size (lbake s)).2) /\
    lc_cube_tx c' = lc_cube_tx c /\
    lc_cube_count c' = 1 /\
    lc_grid_count c' = lb_grid_count (lbake s) /\
    lc_cube_data c' = lc_cube_data c /\
    lc_grid_data c' = lc_grid_data c /\
    lc_vis_res c' = lc_vis_res c /\
    events s' =
      events s ++
      [lightbake_cache_create vis_probe;
       EEVEE_lightbake_render_world;
       EEVEE_lightbake_filter_glossy 0 1%Q;
       EEVEE_lightbake_filter_diffuse 0 1%Q;
       probe_grid_fill prev;
       DRW_texture_free (lc_grid_tx c);
       GPU_texture_read prev;
       DRW_texture_create_2D_array
         (mkTexture (next_tex s) (lb_irr_size (lbake s)).1.1
            (lb_irr_size (lbake s)).1.2 (lb_irr_size (lbake s)).2)].
Proof.
  intros Hrun. pose proof (render_world_sample_passes_run s) as R.
  rewrite Hrun in R. exact R.
Qed.

Lemma render_world_sample_effect_witness :
  exists s' c c' prev,
    eevee_lightbake_render_world_sample (example_allocated never_stop) = (Ok tt, s') /\
    light_cache (scene (example_allocated never_stop)) = Some c /\
    light_cache (scene s') = Some c' /\
    lb_grid_prev (lbake (example_allocated never_stop)) = Some prev /\
    lc_grid_tx c' = prev /\
    lc_cube_count c' = 1 /\
    lc_grid_count c' = 2 /\
    In (DRW_texture_free (lc_grid_tx c)) (events s').
Proof.
  eexists.
  destruct (render_world_sample_effect (example_allocated never_stop) _
              ltac:(vm_compute; reflexivity))
    as (c & c' & prev & vis & Hc & Hc' & Hprev & Htx & _ & _ & Hcc & Hgc & _ & _ & _ & Hev).
  exists c, c', prev. split; [vm_compute; reflexivity |].
  split; [exact Hc |]. split; [exact Hc' |]. split; [exact Hprev |].
  split; [exact Htx |]. split; [exact Hcc |]. split; [exact Hgc |].
  rewrite Hev. apply in_or_app. right. cbn. tauto.
Defined.

(** ** The OpenGL context is switched in nested pairs *)

Lemma context_run_app st l1 l2 :
  context_run st (l1 ++ l2) =
  match context_run st l1 with
  | Some st' => context_run st' l2
  | None => None
  end.
Proof.
  revert st. induction l1 as [| e l1 IH]; intros st; cbn [context_run app];
    [reflexivity |].
  destruct (context_step st e) as [st' |]; [apply IH | reflexivity].
Qed.

(** With a context current, calls that do not switch it are in place. *)
Lemma context_run_in_context cur gwn l :
  cur = ContextGL \/ cur = ContextGawain ->
  forallb (fun e => negb (switches_context e)) l = true ->
  context_run (cur, gwn) l = Some (cur, gwn).
Proof.
  intros Hst. induction l as [| e l IH]; cbn [context_run forallb];
    [reflexivity |].
  intros H. apply andb_prop in H. destruct H as [He Hl].
  assert (Hstep : context_step (cur, gwn) e = Some (cur, gwn)).
  { destruct Hst as [-> | ->]; destruct e; cbn in He |- *;
      first [reflexivity | discriminate]. }
  rewrite Hstep. apply IH. exact Hl.
Qed.

Lemma sample_context_current gl :
  sample_context gl = ContextGL \/ sample_context gl = ContextGawain.
Proof. destruct gl; [right | left]; reflexivity. Qed.

#[export] Instance in_context_preorder : PreOrder in_context.
Proof.
  split.
  - intros s. unfold in_context. repeat split.
    exists []. split; [symmetry; apply app_nil_r | reflexivity].
  - intros s1 s2 s3 (G1 & W1 & R1 & n1 & E1 & Q1) (G2 & W2 & R2 & n2 & E2 & Q2).
    unfold in_context. split; [congruence |]. split; [congruence |].
    split; [congruence |].
    exists (n1 ++ n2). split.
    + rewrite E2, E1, app_assoc. reflexivity.
    + rewrite forallb_app, Q1, Q2. reflexivity.
Qed.

#[export] Instance no_event_preorder : PreOrder no_event.
Proof.
  split.
  - intros s. unfold no_event. repeat split.
  - intros s1 s2 s3 (G1 & W1 & R1 & E1) (G2 & W2 & R2 & E2).
    unfold no_event. repeat split; congruence.
Qed.

Ltac in_context_leaf :=
  unfold in_context; cbn; split; [reflexivity |]; split; [reflexivity |];
  split; [reflexivity |];
  first [ exists []; split; [symmetry; apply app_nil_r | reflexivity]
        | eexists [_]; split; reflexivity ].

Ltac no_event_leaf := solve [unfold no_event; cbn; repeat split].

Lemma render_world_sample_in_context :
  respects in_context eevee_lightbake_render_world_sample.
Proof.
  unfold eevee_lightbake_render_world_sample.
  respects_with fail in_context_leaf.
Qed.

Lemma render_grid_sample_in_context :
  respects in_context eevee_lightbake_render_grid_sample.
Proof.
  unfold eevee_lightbake_render_grid_sample.
  respects_with fail in_context_leaf.
Qed.

Lemma render_probe_sample_in_context :
  respects in_context eevee_lightbake_render_probe_sample.
Proof.
  unfold eevee_lightbake_render_probe_sample.
  respects_with fail in_context_leaf.
Qed.

Lemma gather_probes_step_no_event env counts ob :
  respects no_event (gather_probes_step env counts ob).
Proof.
  destruct counts as [[gc cc] tot].
  destruct ob as [id prb | id]; cbn [gather_probes_step];
    [destruct (prb_type prb) |].
  all: respects_with
         ltac:(idtac; match goal with
               | |- respects _ (let (_, _) := ?x in _) => destruct x
               end)
         no_event_leaf.
Qed.

Lemma gather_probes_no_event env :
  respects no_event (eevee_lightbake_gather_probes env).
Proof.
  unfold eevee_lightbake_gather_probes.
  apply respects_bind; [typeclasses eauto | apply respects_gets; typeclasses eauto |].
  intros lb. apply respects_bind; [typeclasses eauto | |].
  - generalize (1, 1, 1). induction (lb_depsgraph lb) as [| ob obs IH]; intros counts;
      cbn [gather_probes_loop].
    + apply respects_ret. typeclasses eauto.
    + apply respects_bind;
        [typeclasses eauto | apply gather_probes_step_no_event | intros ?; apply IH].
  - intros tot. respects_with fail no_event_leaf.
Qed.

(** *** Rules for bracketed commands *)

Lemma bracketed_of_no_event {A : Type} (c : bake A) :
  respects no_event c -> bracketed c.
Proof.
  intros H s _. destruct (H s) as (G & W & R & E).
  split; [exact G |]. split; [exact W |]. split; [exact R |].
  exists []. split; [rewrite E, app_nil_r; reflexivity |].
  cbn zeta. destruct (fst (c s)); cbn; [reflexivity | discriminate].
Qed.

Lemma context_ready_flags s s' :
  lb_gl_context (lbake s') = lb_gl_context (lbake s) ->
  lb_gwn_context (lbake s') = lb_gwn_context (lbake s) ->
  lb_resource_only (lbake s') = lb_resource_only (lbake s) ->
  context_ready s -> context_ready s'.
Proof.
  intros G W R [H1 H2]. split; [congruence |]. rewrite G, W. exact H2.
Qed.

Lemma bracketed_bind {A B : Type} (c : bake A) (k : A -> bake B) :
  bracketed c -> (forall a, bracketed (k a)) -> bracketed (bind c k).
Proof.
  intros Hc Hk s Hs.
  destruct (Hc s Hs) as (G1 & W1 & R1 & n1 & E1 & M1).
  unfold bind. destruct (c s) as [[a |] s1]; cbn [fst snd] in *.
  - pose proof (context_ready_flags s s1 G1 W1 R1 Hs) as Hs1.
    destruct (Hk a s1 Hs1) as (G2 & W2 & R2 & n2 & E2 & M2).
    split; [congruence |]. split; [congruence |]. split; [congruence |].
    exists (n1 ++ n2). split; [rewrite E2, E1, app_assoc; reflexivity |].
    cbn zeta in *. rewrite context_run_app, M1, <- W1.
    exact M2.
  - split; [exact G1 |]. split; [exact W1 |]. split; [exact R1 |].
    exists n1. split; [exact E1 | exact M1].
Qed.

Lemma bracketed_for_range (n : nat) (i : Z) (body : Z -> bake unit) :
  (forall j, bracketed (body j)) -> bracketed (for_range n i body).
Proof.
  intros Hb. revert i. induction n as [| n IH]; intros i; cbn [for_range].
  - apply bracketed_of_no_event, respects_ret. typeclasses eauto.
  - apply bracketed_bind; [apply Hb | intros _; apply IH].
Qed.

(** *** Enabling and releasing the context of a sample *)

Lemma context_enable_trace s :
  exists s1 pre,
    eevee_lightbake_context_enable s = (Ok tt, s1) /\
    events s1 = events s ++ pre /\
    lb_gl_context (lbake s1) = lb_gl_context (lbake s) /\
    lb_resource_only (lbake s1) = lb_resource_only (lbake s) /\
    lb_gwn_context (lbake s1) =
      orb (lb_gl_context (lbake s)) (lb_gwn_context (lbake s)) /\
    context_run (ContextOff, lb_gwn_context (lbake s)) pre =
      Some (sample_context (lb_gl_context (lbake s)), lb_gwn_context (lbake s1)).
Proof.
  unfold eevee_lightbake_context_enable, bind, gets, emit, modify_lbake, modify, ret.
  destruct (lb_gl_context (lbake s)) eqn:G;
    [destruct (lb_gwn_context (lbake s)) eqn:W |];
    eexists; eexists; (split; [reflexivity |]); cbn;
    rewrite <- ?app_assoc; (split; [reflexivity |]); rewrite ?G, ?W;
    repeat split.
Qed.

Lemma context_disable_trace s :
  exists s1 post,
    eevee_lightbake_context_disable s = (Ok tt, s1) /\
    events s1 = events s ++ post /\
    lbake s1 = lbake s /\
    context_run (sample_context (lb_gl_context (lbake s)), lb_gwn_context (lbake s))
                post =
      Some (ContextOff, lb_gwn_context (lbake s)).
Proof.
  unfold eevee_lightbake_context_disable, bind, gets, emit, modify, ret.
  destruct (lb_gl_context (lbake s)) eqn:G;
    eexists; eexists; (split; [reflexivity |]); cbn;
    rewrite <- ?app_assoc; (split; [reflexivity |]); repeat split.
Qed.

(** One sample: the context is taken, the callback runs inside it, and the
    context is released. *)
Lemma lightbake_do_sample_bracketed env cb :
  respects in_context cb -> bracketed (lightbake_do_sample env cb).
Proof.
  intros Hcb s [Hres Hgwn].
  unfold lightbake_do_sample, bind, gets, modify, ret.
  destruct (G_is_break env (polls s)).
  { cbn. repeat split. exists []. rewrite app_nil_r. split; reflexivity. }
  destruct (context_enable_trace (set_polls (S (polls s)) s))
    as (s1 & pre & E1 & Ev1 & G1 & R1 & W1 & M1).
  rewrite E1. cbn in Ev1, G1, R1, W1, M1.
  assert (W1' : lb_gwn_context (lbake s1) = lb_gwn_context (lbake s)).
  { rewrite W1. destruct (lb_gl_context (lbake s)); [rewrite Hgwn |]; reflexivity. }
  rewrite W1' in M1.
  unfold emit, modify_lbake, modify. cbv beta iota.
  match goal with |- context [cb ?x] => pose proof (Hcb x) as Fcb; set (s2 := x) in * end.
  destruct Fcb as (G3 & W3 & R3 & n3 & Ev3 & Q3).
  cbn in G3, W3, R3, Ev3.
  assert (Hp : context_run
            (sample_context (lb_gl_context (lbake s)), lb_gwn_context (lbake s))
            ([DRW_custom_pipeline] ++ n3) =
          Some (sample_context (lb_gl_context (lbake s)),
                lb_gwn_context (lbake s))).
  { apply context_run_in_context; [apply sample_context_current |].
    cbn. exact Q3. }
  destruct (cb s2) as [[[] |] s3]; cbn [fst snd] in *.
  - match goal with
    | |- context [eevee_lightbake_context_disable ?x] =>
      destruct (context_disable_trace x) as (s6 & post & E6 & Ev6 & L6 & M6);
      rewrite E6
    end.
    cbn in Ev6, L6, M6. cbn [fst snd].
    rewrite L6. cbn.
    split; [congruence |]. split; [congruence |]. split; [congruence |].
    exists (pre ++ ([DRW_custom_pipeline] ++ n3) ++
            [store_progress
               (float_div (lb_done (lbake s3) + 1) (lb_total (lbake s3)));
             store_do_update] ++ post).
    split.
    + rewrite Ev6, Ev3, Ev1, <- !app_assoc. reflexivity.
    + rewrite G3, G1, W3, W1' in M6.
      rewrite context_run_app, M1, context_run_app, Hp.
      destruct (sample_context_current (lb_gl_context (lbake s))) as [Hc | Hc];
        rewrite Hc in *; exact M6.
  - split; [congruence |]. split; [congruence |]. split; [congruence |].
    exists (pre ++ [DRW_custom_pipeline] ++ n3).
    split.
    + rewrite Ev3, Ev1, <- !app_assoc. reflexivity.
    + cbn zeta. rewrite context_run_app, M1, Hp. discriminate.
Qed.

(** *** The passes of the job *)

Ltac bracket :=
  repeat first
    [ apply lightbake_do_sample_bracketed
    | apply render_world_sample_in_context
    | apply render_grid_sample_in_context
    | apply render_probe_sample_in_context
    | match goal with
      | |- bracketed (bind _ _) => apply bracketed_bind; [| intros ?]
      | |- bracketed (for_range _ _ _) => apply bracketed_for_range; intros ?
      | |- bracketed (if ?b then _ else _) => destruct b
      end
    | progress unfold for_counter, bake_grid_probe
    | solve [apply bracketed_of_no_event; respects_with fail no_event_leaf] ].

Lemma lightbake_job_world_bracketed env : bracketed (lightbake_job_world env).
Proof. unfold lightbake_job_world. bracket. Qed.

Lemma lightbake_job_grids_bracketed env : bracketed (lightbake_job_grids env).
Proof. unfold lightbake_job_grids. bracket. Qed.

Lemma lightbake_job_cubes_bracketed env : bracketed (lightbake_job_cubes env).
Proof. unfold lightbake_job_cubes. bracket. Qed.

Lemma gather_probes_bracketed env : bracketed (eevee_lightbake_gather_probes env).
Proof. apply bracketed_of_no_event, gather_probes_no_event. Qed.

(** *** The job as a whole *)

Lemma bind_ok {A B : Type} (c : bake A) (k : A -> bake B) s a s1 :
  c s = (Ok a, s1) -> bind c k s = k a s1.
Proof. intros E. unfold bind. rewrite E. reflexivity. Qed.

Lemma bracketed_then {A B : Type} (c : bake A) (k : A -> bake B) s g' :
  bracketed c ->
  context_ready s ->
  (forall a s1,
     context_ready s1 ->
     lb_gl_context (lbake s1) = lb_gl_context (lbake s) ->
     lb_gwn_context (lbake s1) = lb_gwn_context (lbake s) ->
     exists new,
       events (snd (k a s1)) = events s1 ++ new /\
       match fst (k a s1) with
       | Ok _ => context_run (ContextOff, lb_gwn_context (lbake s)) new =
                 Some (ContextOff, g')
       | Fatal => context_run (ContextOff, lb_gwn_context (lbake s)) new <> None
       end) ->
  exists new,
    events (snd (bind c k s)) = events s ++ new /\
    match fst (bind c k s) with
    | Ok _ => context_run (ContextOff, lb_gwn_context (lbake s)) new =
              Some (ContextOff, g')
    | Fatal => context_run (ContextOff, lb_gwn_context (lbake s)) new <> None
    end.
Proof.
  intros Hc Hs Hk.
  destruct (Hc s Hs) as (G1 & W1 & R1 & n1 & E1 & M1).
  unfold bind. destruct (c s) as [[a |] s1]; cbn [fst snd] in *.
  - destruct (Hk a s1 (context_ready_flags s s1 G1 W1 R1 Hs) G1 W1)
      as (n2 & E2 & M2).
    exists (n1 ++ n2). split; [rewrite E2, E1, app_assoc; reflexivity |].
    rewrite context_run_app, M1. exact M2.
  - exists n1. split; [exact E1 | exact M1].
Qed.

(** Releasing the resources of a job that has sampled: the context is
    taken and released, and the render context of a job that has one is
    discarded with its Gawain context. *)
Lemma delete_resources_trace s :
  context_ready s ->
  exists s' new,
    eevee_lightbake_delete_resources s = (Ok tt, s') /\
    events s' = events s ++ new /\
    lb_gl_context (lbake s') = false /\
    lb_gwn_context (lbake s') =
      (if lb_gl_context (lbake s) then false else lb_gwn_context (lbake s)) /\
    context_run (ContextOff, lb_gwn_context (lbake s)) new =
      Some (ContextOff, lb_gwn_context (lbake s')).
Proof.
  intros [Hres Hgwn].
  unfold eevee_lightbake_delete_resources, bind, gets, emit, modify_lbake, modify, ret.
  rewrite Hres.
  destruct (lb_gl_context (lbake s)) eqn:G; [rewrite (Hgwn eq_refl) |];
    destruct (lb_grid_prev (lbake s)) eqn:P;
    cbn; rewrite ?P; cbn;
    eexists; eexists; (split; [reflexivity |]); cbn;
    rewrite <- ?app_assoc; (split; [reflexivity |]); rewrite ?G;
    repeat split.
Qed.

(** X14: in a run of [EEVEE_lightbake_job] that starts with no context
    current and no Gawain context, every call is in place: a context is
    enabled only when none is current and disabled only when it is the
    current one, drawing and resource calls happen inside the draw manager's
    context or an active Gawain context, and the Gawain context is created
    once, inside the render context, before it is activated.  When the job
    completes no context is current and the Gawain context is discarded;
    when it stops on a fatal access, the calls made up to there were in
    place. *)
Theorem EEVEE_lightbake_job_contexts env s :
  lb_resource_only (lbake s) = false ->
  lb_gwn_context (lbake s) = false ->
  exists new,
    events (snd (EEVEE_lightbake_job env s)) = events s ++ new /\
    match fst (EEVEE_lightbake_job env s) with
    | Ok _ => context_run (ContextOff, false) new = Some (ContextOff, false)
    | Fatal => context_run (ContextOff, false) new <> None
    end.
Proof.
  intros Hres Hgwn.
  destruct (context_enable_trace s) as (s1 & pre & E1 & Ev1 & G1 & R1 & W1 & M1).
  rewrite Hgwn, orb_false_r in W1. rewrite Hgwn in M1.
  unfold EEVEE_lightbake_job. rewrite (bind_ok _ _ _ _ _ E1).
  set (s2 := set_events
               (events s1 ++
                [DRW_texture_create_cube (lb_rt_res (lbake s1));
                 DRW_texture_create_cube (lb_rt_res (lbake s1))]) s1).
  assert (E2 : (let* lb := gets lbake in
                eevee_lightbake_create_render_target (lb_rt_res lb)) s1 =
               (Ok tt, s2)).
  { unfold eevee_lightbake_create_render_target, bind, gets, emit, modify, s2.
    cbn. rewrite <- app_assoc. reflexivity. }
  rewrite (bind_ok _ _ _ _ _ E2).
  destruct (context_disable_trace s2) as (s3 & post & E3 & Ev3 & L3 & M3).
  rewrite (bind_ok _ _ _ _ _ E3).
  unfold s2 in Ev3, M3. cbn in Ev3, M3.
  assert (Hs3 : context_ready s3).
  { split; rewrite L3; unfold s2; cbn; [rewrite R1; exact Hres |].
    intros H. rewrite W1, <- G1. exact H. }
  assert (Hrun :
    context_run (ContextOff, false)
      (pre ++ [DRW_texture_create_cube (lb_rt_res (lbake s1));
               DRW_texture_create_cube (lb_rt_res (lbake s1))] ++ post) =
    Some (ContextOff, lb_gwn_context (lbake s3))).
  { rewrite context_run_app, M1, L3. unfold s2; cbn [lbake set_events].
    rewrite G1 in M3.
    destruct (sample_context_current (lb_gl_context (lbake s))) as [Hc | Hc];
      rewrite Hc in *; exact M3. }
  assert (Htail : exists new,
    events (snd ((eevee_lightbake_gather_probes env >>
                  lightbake_job_world env >> lightbake_job_grids env >>
                  lightbake_job_cubes env >>
                  modify_lcache (fun lcache =>
                    set_lc_flag (Z.lor (lc_flag lcache) LIGHTCACHE_BAKED) lcache) >>
                  eevee_lightbake_delete_resources) s3)) = events s3 ++ new /\
    match fst ((eevee_lightbake_gather_probes env >>
                lightbake_job_world env >> lightbake_job_grids env >>
                lightbake_job_cubes env >>
                modify_lcache (fun lcache =>
                  set_lc_flag (Z.lor (lc_flag lcache) LIGHTCACHE_BAKED) lcache) >>
                eevee_lightbake_delete_resources) s3) with
    | Ok _ => context_run (ContextOff, lb_gwn_context (lbake s3)) new =
              Some (ContextOff, false)
    | Fatal => context_run (ContextOff, lb_gwn_context (lbake s3)) new <> None
    end).
  { apply bracketed_then; [apply gather_probes_bracketed | exact Hs3 |].
    intros _ s4 Hs4 G4 W4.
    rewrite <- W4.
    apply bracketed_then; [apply lightbake_job_world_bracketed | exact Hs4 |].
    intros _ s5 Hs5 G5 W5.
    rewrite <- W5.
    apply bracketed_then; [apply lightbake_job_grids_bracketed | exact Hs5 |].
    intros _ s6 Hs6 G6 W6.
    rewrite <- W6.
    apply bracketed_then; [apply lightbake_job_cubes_bracketed | exact Hs6 |].
    intros _ s7 Hs7 G7 W7.
    rewrite <- W7.
    apply bracketed_then; [bracket | exact Hs7 |].
    intros _ s8 Hs8 G8 W8.
    destruct (delete_resources_trace s8 Hs8) as (s9 & fin & E9 & Ev9 & G9 & W9 & M9).
    rewrite E9. cbn [fst snd].
    exists fin. split; [exact Ev9 |].
    rewrite <- W8. rewrite M9, W9.
    assert (Hgl : lb_gl_context (lbake s8) = false -> lb_gwn_context (lbake s8) = false).
    { intros F. rewrite W8, W7, W6, W5, W4, L3. unfold s2; cbn [lbake set_events].
      rewrite W1, <- G1.
      assert (lb_gl_context (lbake s3) = false) by congruence.
      rewrite L3 in H. exact H. }
    destruct (lb_gl_context (lbake s8)); [reflexivity | rewrite Hgl; reflexivity]. }
  destruct Htail as (tail & Et & Mt).
  exists ((pre ++ [DRW_texture_create_cube (lb_rt_res (lbake s1));
                   DRW_texture_create_cube (lb_rt_res (lbake s1))] ++ post) ++ tail).
  split.
  - rewrite Et, Ev3. unfold s2; cbn [events set_events]. rewrite Ev1, <- !app_assoc.
    reflexivity.
  - rewrite context_run_app, Hrun. exact Mt.
Qed.

(** *** Allocation *)




Lemma EEVEE_lightbake_job_contexts_witness :
  lb_resource_only (lbake example_allocated_as_job) = false /\
  lb_gwn_context (lbake example_allocated_as_job) = false /\
  exists new,
    events (snd (EEVEE_lightbake_job (example_env never_stop)
                   example_allocated_as_job)) =
      events example_allocated_as_job ++ new /\
    context_run (ContextOff, false) new = Some (ContextOff, false).
Proof.
  split; [reflexivity |]. split; [reflexivity |].
  destruct (EEVEE_lightbake_job_contexts (example_env never_stop)
              example_allocated_as_job eq_refl eq_refl) as (new & E & M).
  exists new. split; [exact E |].
  assert (R : fst (EEVEE_lightbake_job (example_env never_stop)
                     example_allocated_as_job) = Ok tt)
    by (vm_compute; reflexivity).
  rewrite R in M. exact M.
Defined.

(** *** The quick world update *)

(** X16: [EEVEE_lightbake_update_world_quick] makes no context call: run
    from the viewport with the draw manager's context current, all its
    calls are in place and that context is still current afterwards,
    whether the scene has a cache or not. *)
Theorem EEVEE_lightbake_update_world_quick_contexts s gwn :
  exists new,
    events (snd (EEVEE_lightbake_update_world_quick s)) = events s ++ new /\
    forallb (fun e => negb (switches_context e)) new = true /\
    context_run (ContextGL, gwn) new = Some (ContextGL, gwn).
Proof.
  assert (H : exists new,
    events (snd (EEVEE_lightbake_update_world_quick s)) = events s ++ new /\
    forallb (fun e => negb (switches_context e)) new = true).
  { destruct s as [lb [bounces vis cube [c |]] cd p nt ev].
    - eexists. split; [cbn; rewrite <- !app_assoc; reflexivity | reflexivity].
    - eexists. split; [cbn; rewrite <- !app_assoc; reflexivity | reflexivity]. }
  destruct H as (new & E & Q). exists new.
  split; [exact E |]. split; [exact Q |].
  apply context_run_in_context; [left; reflexivity | exact Q].
Qed.

(** ** The cache flag after a whole bake *)

Lemma EEVEE_lightbake_job_data_alloc_flag env dg run_as_job s0 s1 :
  EEVEE_lightbake_job_data_alloc env dg run_as_job s0 = (Ok tt, s1) ->
  polls s1 = polls s0 /\
  exists c, light_cache (scene s1) = Some c /\ lc_flag c = LIGHTCACHE_allocated_flag.
Proof.
  intros E.
  pose proof (EEVEE_lightbake_job_data_alloc_run env dg run_as_job s0) as R.
  pose proof (EEVEE_lightbake_job_data_alloc_cases env dg run_as_job s0) as C.
  cbn zeta in C. rewrite E in R, C.
  destruct R as (P & _). split; [exact P |].
  destruct (irradiance_pool_size_get _ _ _) as [irr |].
  2:{ destruct C as (F & _). discriminate. }
  destruct C as (_ & _ & _ & _ & _ & _ & _ & _ & _ & C).
  destruct (light_cache (scene s0)) as [c0 |].
  - destruct (EEVEE_lightcache_validate _ _ _ _); destruct C as (C & _);
      eexists; (split; [exact C | reflexivity]).
  - destruct C as (C & _). eexists. split; [exact C | reflexivity].
Qed.

(** X17: a whole bake - allocation, then the job - that runs to its end
    leaves the cache flag with Baked set and with Baking, NeedsCubeUpdate
    and NeedsGridUpdate still set: the job clears none of them.  CubeReady
    and GridReady are set and NeedsWorldUpdate is cleared exactly when the
    stop flag was clear at the first poll, so that the world was rendered. *)
Theorem bake_run_flag env dg run_as_job s0 s' :
  bake_run env dg run_as_job s0 = (Ok tt, s') ->
  exists c',
    light_cache (scene s') = Some c' /\
    lc_flag c' =
      (if G_is_break env (polls s0)
       then Z.lor LIGHTCACHE_allocated_flag LIGHTCACHE_BAKED
       else Z.lor (Z.lor (Z.lor (Z.lor (Z.lor LIGHTCACHE_BAKED LIGHTCACHE_BAKING)
                                       LIGHTCACHE_CUBE_READY) LIGHTCACHE_GRID_READY)
                         LIGHTCACHE_UPDATE_CUBE) LIGHTCACHE_UPDATE_GRID) /\
    flag_test (lc_flag c') LIGHTCACHE_BAKED = true /\
    flag_test (lc_flag c') LIGHTCACHE_BAKING = true /\
    flag_test (lc_flag c') LIGHTCACHE_UPDATE_CUBE = true /\
    flag_test (lc_flag c') LIGHTCACHE_UPDATE_GRID = true /\
    flag_test (lc_flag c') LIGHTCACHE_CUBE_READY = negb (G_is_break env (polls s0)) /\
    flag_test (lc_flag c') LIGHTCACHE_GRID_READY = negb (G_is_break env (polls s0)) /\
    flag_test (lc_flag c') LIGHTCACHE_UPDATE_WORLD = G_is_break env (polls s0).
Proof.
  intros H. unfold bake_run in H.
  apply bind_ok_inv in H. destruct H as ([] & s1 & Ha & Hj).
  destruct (EEVEE_lightbake_job_data_alloc_flag env dg run_as_job s0 s1 Ha)
    as (P & c & Hc & Hf).
  destruct (EEVEE_lightbake_job_flags env s1 s' Hj) as (c1 & Hc1 & _ & c' & Hc' & Hf').
  rewrite Hc in Hc1. injection Hc1 as <-.
  rewrite Hf, P in Hf'. cbn zeta in Hf'.
  exists c'. split; [exact Hc' |].
  rewrite Hf'.
  destruct (G_is_break env (polls s0)); repeat split.
Qed.

Lemma bake_run_flag_witness :
  exists s' c',
    bake_run (example_env never_stop) example_depsgraph false
             (bake_start example_scene) = (Ok tt, s') /\
    light_cache (scene s') = Some c' /\
    lc_flag c' = 63 /\
    flag_test (lc_flag c') LIGHTCACHE_BAKING = true.
Proof.
  assert (R : exists s',
    bake_run (example_env never_stop) example_depsgraph false
             (bake_start example_scene) = (Ok tt, s')).
  { eexists. vm_compute. reflexivity. }
  destruct R as (s' & R).
  destruct (bake_run_flag _ _ _ _ _ R) as (c' & Hc & Hf & _ & Hb & _).
  exists s', c'. repeat split; assumption.
Defined.

(** ** The samples of a bake that is not cancelled *)

Lemma samples_exactly_refl s : samples_exactly 0 s s.
Proof. unfold samples_exactly. repeat split; lia. Qed.

Lemma samples_exactly_trans a b s1 s2 s3 :
  samples_exactly a s1 s2 -> samples_exactly b s2 s3 ->
  samples_exactly (a + b) s1 s3.
Proof.
  intros (P1 & D1 & G1 & B1 & N1 & C1) (P2 & D2 & G2 & B2 & N2 & C2).
  unfold samples_exactly. repeat split; try congruence; lia.
Qed.

Lemma callback_frame_samples s s' : callback_frame s s' -> samples_exactly 0 s s'.
Proof.
  intros F. pose proof (callback_frame_inv _ _ F) as (_ & D & G & _ & _ & P & _).
  destruct F as (J & _). unfold job_counters in J.
  inversion J.
  unfold samples_exactly. repeat split; try assumption; lia.
Qed.

Lemma completes_with_quiet {A : Type} (c : bake A) :
  respects callback_frame c -> completes_with 0 c.
Proof.
  intros H s a s' E. pose proof (H s) as F. rewrite E in F.
  apply callback_frame_samples. exact F.
Qed.

Lemma completes_with_bind {A B : Type} a b (c : bake A) (k : A -> bake B) :
  completes_with a c -> (forall x, completes_with b (k x)) ->
  completes_with (a + b) (bind c k).
Proof.
  intros Hc Hk s y s' E. apply bind_ok_inv in E. destruct E as (x & s1 & E1 & E2).
  eapply samples_exactly_trans; [exact (Hc _ _ _ E1) | exact (Hk _ _ _ _ E2)].
Qed.

Lemma completes_with_modify_lbake f :
  (forall lb, lb_done (f lb) = lb_done lb /\
              lb_grid_prb (f lb) = lb_grid_prb lb /\
              lb_bounce_count (f lb) = lb_bounce_count lb /\
              lb_grid_count (f lb) = lb_grid_count lb /\
              lb_cube_count (f lb) = lb_cube_count lb) ->
  completes_with 0 (modify_lbake f).
Proof.
  intros Hf s a s' E. injection E as _ <-.
  destruct (Hf (lbake s)) as (D & G & B & N & C).
  unfold samples_exactly. cbn. repeat split; try assumption; lia.
Qed.

Lemma completes_with_for_range m (n : nat) (i : Z) (body : Z -> bake unit) :
  (forall j, completes_with m (body j)) ->
  completes_with (Z.of_nat n * m) (for_range n i body).
Proof.
  intros Hb. revert i. induction n as [| n IH]; intros i; cbn [for_range].
  - intros s a s' E. injection E as _ <-. apply samples_exactly_refl.
  - replace (Z.of_nat (S n) * m) with (m + Z.of_nat n * m) by lia.
    apply completes_with_bind; [apply Hb | intros _; apply IH].
Qed.

Lemma completes_with_for_counter set m start stop body :
  (forall v lb, lb_done (set v lb) = lb_done lb /\
                lb_grid_prb (set v lb) = lb_grid_prb lb /\
                lb_bounce_count (set v lb) = lb_bounce_count lb /\
                lb_grid_count (set v lb) = lb_grid_count lb /\
                lb_cube_count (set v lb) = lb_cube_count lb) ->
  completes_with m body ->
  completes_with (Z.max 0 (stop - start) * m) (for_counter set start stop body).
Proof.
  intros Hset Hbody. unfold for_counter.
  replace (Z.max 0 (stop - start) * m)
    with (Z.of_nat (Z.to_nat (stop - start)) * m + 0) by lia.
  apply completes_with_bind.
  - apply completes_with_for_range.
    intros j. replace m with (0 + m) by lia.
    apply completes_with_bind; [| intros _; exact Hbody].
    apply completes_with_modify_lbake, Hset.
  - intros _. apply completes_with_modify_lbake, Hset.
Qed.

Section NotCancelled.

Variable env : surroundings.
Hypothesis not_cancelled : forall k, G_is_break env k = false.

(** A sample that completes was polled once and counted once. *)
Lemma lightbake_do_sample_completes cb :
  respects callback_frame cb ->
  completes_with 1 (lightbake_do_sample env cb).
Proof.
  intros Hcb s b s' E.
  destruct (lightbake_do_sample_clear env cb s (not_cancelled _))
    as (s1 & pre & _ & F1 & _ & _ & H).
  cbn zeta in H.
  apply callback_frame_samples in F1.
  pose proof (Hcb (set_events (events s1 ++ [DRW_custom_pipeline]) s1)) as F3.
  destruct (cb _) as [[[] |] s3]; cbn [snd] in F3;
    apply callback_frame_samples in F3.
  - destruct H as (s6 & _ & F6 & E'). rewrite E' in E. injection E as _ <-.
    apply callback_frame_samples in F6.
    destruct F1 as (P1 & D1 & G1 & B1 & N1 & C1). cbn in P1, D1, G1, B1, N1, C1.
    destruct F3 as (P3 & D3 & G3 & B3 & N3 & C3). cbn in P3, D3, G3, B3, N3, C3.
    destruct F6 as (P6 & D6 & G6 & B6 & N6 & C6). cbn in P6, D6, G6, B6, N6, C6.
    unfold samples_exactly. repeat split; try congruence; lia.
  - rewrite H in E. discriminate.
Qed.

Lemma bake_grid_probe_completes p s s' :
  lb_probe (lbake s) = GRID_PRB p ->
  bake_grid_probe env s = (Ok tt, s') ->
  samples_exactly (grid_prb_samples (lb_grid_prb (lbake s)) p) s s' /\
  lb_probe (lbake s') = GRID_PRB (S p).
Proof.
  intros Hp E.
  split; [| exact (proj2 (bake_grid_probe_polls env p s (Ok tt) s' Hp E) eq_refl)].
  unfold bake_grid_probe in E. rewrite bind_run in E.
  rewrite (deref_probe_grid p s Hp) in E.
  unfold grid_prb_samples.
  destruct (mjoin (lb_grid_prb (lbake s) !! p)) as [prb |];
    cbn [of_option ret fatal] in E; [| discriminate].
  revert E.
  match goal with
  | |- ?c s = _ -> _ =>
    assert (Hc : completes_with (Z.max 0 (grid_sample_count prb)) c);
    [| intros E; exact (Hc _ _ _ E)]
  end.
  replace (Z.max 0 (grid_sample_count prb))
    with (Z.max 0 (grid_sample_count prb - 0) * 1 + (0 + 0)) by lia.
  apply completes_with_bind; [| intros _; apply completes_with_bind].
  - apply completes_with_for_counter; [intros v lb; repeat split |].
    replace 1 with (1 + 0) by lia.
    apply completes_with_bind.
    + apply lightbake_do_sample_completes, render_grid_sample_frame.
    + intros _ s0 a s1 E. injection E as _ <-. apply samples_exactly_refl.
  - apply completes_with_modify_lbake. intros lb. repeat split.
  - intros _. apply completes_with_modify_lbake. intros lb. repeat split.
Qed.

Lemma grid_probes_loop_completes m :
  forall i p s s',
    lb_probe (lbake s) = GRID_PRB p ->
    for_range m i (fun _ => bake_grid_probe env) s = (Ok tt, s') ->
    samples_exactly (grid_prb_samples_from (lb_grid_prb (lbake s)) m p) s s'.
Proof.
  induction m as [| m IH]; intros i p s s' Hp E;
    cbn [for_range grid_prb_samples_from] in *.
  - injection E as <-. apply samples_exactly_refl.
  - apply bind_ok_inv in E. destruct E as ([] & s1 & E1 & E2).
    destruct (bake_grid_probe_completes p s s1 Hp E1) as [Hw Hnext].
    eapply samples_exactly_trans; [exact Hw |].
    replace (lb_grid_prb (lbake s)) with (lb_grid_prb (lbake s1))
      by (destruct Hw as (_ & _ & G & _); exact G).
    exact (IH _ _ _ _ Hnext E2).
Qed.

Lemma lightbake_job_grids_completes s s' :
  lightbake_job_grids env s = (Ok tt, s') ->
  samples_exactly
    (Z.max 0 (lb_bounce_count (lbake s)) *
     grid_prb_samples_from (lb_grid_prb (lbake s))
       (Z.to_nat (lb_grid_count (lbake s) - 1)) 1)
    s s'.
Proof.
  unfold lightbake_job_grids. rewrite bind_run. cbn [gets].
  set (G := lb_grid_prb (lbake s)).
  set (m := Z.to_nat (lb_grid_count (lbake s) - 1)).
  set (C := grid_prb_samples_from G m 1).
  unfold for_counter. intros E.
  apply bind_ok_inv in E. destruct E as ([] & s1 & E1 & E2).
  injection E2 as <-.
  revert E1. set (body := fun i : Z => _). intros E1.
  assert (Hbody : forall n i s0 s2,
            lb_grid_prb (lbake s0) = G ->
            for_range n i body s0 = (Ok tt, s2) ->
            samples_exactly (Z.of_nat n * C) s0 s2).
  { induction n as [| n IH]; intros i s0 s2 HG E; cbn [for_range] in E.
    - injection E as <-. apply samples_exactly_refl.
    - apply bind_ok_inv in E. destruct E as ([] & s3 & E3 & E4).
      subst body. cbn beta in E3.
      apply bind_ok_inv in E3. destruct E3 as ([] & sa & Ea & E3).
      injection Ea as <-.
      apply bind_ok_inv in E3. destruct E3 as ([] & sb & Eb & E3).
      injection Eb as <-.
      apply bind_ok_inv in E3. destruct E3 as ([] & sc & Ec & E3).
      injection Ec as <-.
      match type of E3 with
      | for_range _ _ _ ?x = _ =>
        pose proof (grid_probes_loop_completes m 1 1%nat x s3 eq_refl E3) as Hin
      end.
      cbn in Hin. rewrite HG in Hin. fold C in Hin.
      assert (Hstep : samples_exactly C s0 s3).
      { destruct Hin as (P & D & G1 & B & N & C1).
        unfold samples_exactly. repeat split; assumption. }
      replace (Z.of_nat (S n) * C) with (C + Z.of_nat n * C) by lia.
      eapply samples_exactly_trans; [exact Hstep |].
      apply (IH (i + 1) s3 s2); [| exact E4].
      destruct Hstep as (_ & _ & G1 & _). congruence. }
  specialize (Hbody _ _ _ _ eq_refl E1).
  replace (Z.of_nat (Z.to_nat (lb_bounce_count (lbake s) - 0)))
    with (Z.max 0 (lb_bounce_count (lbake s))) in Hbody by lia.
  destruct Hbody as (P & D & G1 & B & N & C1).
  unfold samples_exactly. cbn. repeat split; assumption.
Qed.

Lemma lightbake_job_world_completes s c s' :
  light_cache (scene s) = Some c ->
  lightbake_job_world env s = (Ok tt, s') ->
  samples_exactly (if flag_test (lc_flag c) LIGHTCACHE_UPDATE_WORLD then 1 else 0)
                  s s'.
Proof.
  intros Hc. unfold lightbake_job_world. rewrite bind_run.
  unfold get_lcache at 1. rewrite bind_run. cbn [gets]. rewrite Hc.
  cbn [of_option ret].
  destruct (flag_test (lc_flag c) LIGHTCACHE_UPDATE_WORLD).
  - revert s'.
    match goal with
    | |- forall s', ?c s = _ -> _ =>
      assert (H : completes_with 1 c); [| intros s' E; exact (H _ _ _ E)]
    end.
    replace 1 with (0 + (1 + 0)) by lia.
    apply completes_with_bind; [| intros _; apply completes_with_bind].
    + apply completes_with_modify_lbake. intros lb. repeat split.
    + apply lightbake_do_sample_completes, render_world_sample_frame.
    + intros _ s0 a s1 E. injection E as _ <-. apply samples_exactly_refl.
  - intros E. injection E as <-. apply samples_exactly_refl.
Qed.

Lemma lightbake_job_cubes_completes :
  forall s s',
    lightbake_job_cubes env s = (Ok tt, s') ->
    samples_exactly (Z.max 0 (lb_cube_count (lbake s) - 1)) s s'.
Proof.
  intros s s' E. unfold lightbake_job_cubes in E.
  apply bind_ok_inv in E. destruct E as ([] & s1 & E1 & E).
  assert (H1 : samples_exactly 0 s s1).
  { refine (completes_with_quiet _ _ _ _ _ E1). respects_with fail callback_leaf. }
  apply bind_ok_inv in E. destruct E as ([] & sa & Ea & E). injection Ea as <-.
  apply bind_ok_inv in E. destruct E as ([] & sb & Eb & E). injection Eb as <-.
  rewrite bind_run in E. cbn [gets] in E.
  revert E.
  match goal with
  | |- for_counter ?set ?a ?b ?body ?x = _ -> _ =>
    assert (Hloop : completes_with (Z.max 0 (b - a) * 1) (for_counter set a b body));
    [| intros E; pose proof (Hloop _ _ _ E) as H2 ]
  end.
  { apply completes_with_for_counter; [intros v lb; repeat split |].
    replace 1 with (1 + (0 + 0)) by lia.
    apply completes_with_bind; [| intros _; apply completes_with_bind].
    - apply lightbake_do_sample_completes, render_probe_sample_frame.
    - apply completes_with_modify_lbake. intros lb. repeat split.
    - intros _. apply completes_with_modify_lbake. intros lb. repeat split. }
  destruct H1 as (P1 & D1 & G1 & B1 & N1 & C1).
  destruct H2 as (P2 & D2 & G2 & B2 & N2 & C2). cbn in P2, D2, G2, B2, N2, C2.
  rewrite C1 in P2, D2.
  unfold samples_exactly. repeat split; try congruence; lia.
Qed.


End NotCancelled.




(** ** The cubes the cache shows during the reflection pass *)

#[export] Instance cubes_in_step_preorder : PreOrder cubes_in_step.
Proof.
  split.
  - intros s c Hc. exists c. repeat split. exact Hc.
  - intros s1 s2 s3 H1 H2 c Hc.
    destruct (H1 c Hc) as (c2 & Hc2 & D2 & G2).
    destruct (H2 c2 Hc2) as (c3 & Hc3 & D3 & G3).
    exists c3. split; [exact Hc3 |]. split; [lia | congruence].
Qed.

Section WhenComplete.

Context (R : bake_state -> bake_state -> Prop) `{!PreOrder R}.

Lemma when_complete_bind {A B : Type} (c : bake A) (k : A -> bake B) :
  when_complete R c -> (forall x, when_complete R (k x)) ->
  when_complete R (bind c k).
Proof.
  intros Hc Hk s y s' E. apply bind_ok_inv in E. destruct E as (x & s1 & E1 & E2).
  etransitivity; [exact (Hc _ _ _ E1) | exact (Hk _ _ _ _ E2)].
Qed.

Lemma when_complete_respects {A : Type} (c : bake A) :
  respects R c -> when_complete R c.
Proof. intros H s a s' E. pose proof (H s) as F. rewrite E in F. exact F. Qed.

Lemma when_complete_for_range (n : nat) (i : Z) (body : Z -> bake unit) :
  (forall j, when_complete R (body j)) -> when_complete R (for_range n i body).
Proof.
  intros Hb. revert i. induction n as [| n IH]; intros i; cbn [for_range].
  - intros s a s' E. injection E as _ <-. reflexivity.
  - apply when_complete_bind; [apply Hb | intros _; apply IH].
Qed.

End WhenComplete.

Lemma context_frame_cubes_in_step s s' : context_frame s s' -> cubes_in_step s s'.
Proof.
  intros (F & S & _) c Hc.
  pose proof (callback_frame_inv _ _ F) as (_ & D & _).
  exists c. rewrite S, D. repeat split. exact Hc.
Qed.

Ltac cubes_leaf :=
  let c := fresh "c" in
  let H := fresh "H" in
  solve [ intros c H; exists c; cbn; repeat split; exact H ].

(** A cube sample, cancelled or completed: the cache shows one more cube
    exactly when the sample was counted. *)
Lemma lightbake_do_sample_probe_in_step env :
  when_complete cubes_in_step
    (lightbake_do_sample env eevee_lightbake_render_probe_sample).
Proof.
  intros s b s' E.
  destruct (G_is_break env (polls s)) eqn:Hb.
  { rewrite lightbake_do_sample_cancelled in E by exact Hb. injection E as _ <-.
    cubes_leaf. }
  destruct (lightbake_do_sample_clear env eevee_lightbake_render_probe_sample s Hb)
    as (s1 & pre & E1 & _ & _ & _ & H).
  cbn zeta in H.
  destruct (context_enable_context_frame (set_polls (S (polls s)) s))
    as (s1' & E1' & C1).
  rewrite E1 in E1'. injection E1' as <-.
  apply context_frame_cubes_in_step in C1.
  pose proof (render_probe_sample_run
                (set_events (events s1 ++ [DRW_custom_pipeline]) s1)) as Rn.
  pose proof (render_probe_sample_frame
                (set_events (events s1 ++ [DRW_custom_pipeline]) s1)) as Fn.
  destruct (eevee_lightbake_render_probe_sample _) as [[[] |] s3];
    [| rewrite H in E; discriminate].
  cbn [snd] in Fn.
  pose proof (callback_frame_inv _ _ Fn) as (_ & D3 & _). cbn in D3.
  destruct Rn as (c2 & idx & eprobe & prb & Hc2 & _ & _ & Hc3 & _). cbn in Hc2.
  destruct H as (s6 & E6 & _ & E').
  rewrite E' in E. injection E as _ <-.
  match type of E6 with
  | eevee_lightbake_context_disable ?x = _ =>
    destruct (context_disable_context_frame x) as (s6' & E6' & C6)
  end.
  rewrite E6 in E6'. injection E6' as <-.
  apply context_frame_cubes_in_step in C6.
  intros c Hc.
  destruct (C1 c Hc) as (c1 & Hc1 & D1 & G1). cbn in D1.
  rewrite Hc1 in Hc2. injection Hc2 as <-.
  destruct (C6 _ Hc3) as (c6 & Hc6 & D6 & G6). cbn in D6, G6.
  exists c6. split; [exact Hc6 |]. split; [lia | congruence].
Qed.

Lemma lightbake_job_cubes_in_step env s s' :
  lightbake_job_cubes env s = (Ok tt, s') ->
  exists c c',
    light_cache (scene s) = Some c /\
    light_cache (scene s') = Some c' /\
    lc_cube_count c' = 1 + (lb_done (lbake s') - lb_done (lbake s)) /\
    lc_grid_count c' = lc_grid_count c.
Proof.
  intros E. unfold lightbake_job_cubes in E.
  apply bind_ok_inv in E. destruct E as ([] & s1 & E1 & E).
  apply modify_lcache_ok in E1. destruct E1 as (c & Hc & ->).
  exists c.
  revert E.
  match goal with
  | |- ?k ?x = _ -> _ =>
    assert (H : when_complete cubes_in_step k);
    [| intros E; pose proof (H _ _ _ E (set_lc_cube_count 1 c) eq_refl)
                   as (c' & Hc' & D & G) ]
  end.
  { apply when_complete_bind; [typeclasses eauto | |].
    { apply when_complete_respects. respects_with fail cubes_leaf. }
    intros _. apply when_complete_bind; [typeclasses eauto | |].
    { apply when_complete_respects. respects_with fail cubes_leaf. }
    intros _. apply when_complete_bind; [typeclasses eauto | |].
    { apply when_complete_respects. respects_with fail cubes_leaf. }
    intros lb. unfold for_counter.
    apply when_complete_bind; [typeclasses eauto | |].
    2:{ intros _. apply when_complete_respects. respects_with fail cubes_leaf. }
    apply when_complete_for_range; [typeclasses eauto |].
    intros j. apply when_complete_bind; [typeclasses eauto | |].
    { apply when_complete_respects. respects_with fail cubes_leaf. }
    intros _. apply when_complete_bind; [typeclasses eauto | |].
    { apply lightbake_do_sample_probe_in_step. }
    intros _. apply when_complete_respects. respects_with fail cubes_leaf. }
  exists c'. cbn in D, G. repeat split; try assumption. lia.
Qed.

(** ** Textures: created once, used while they exist, none left over *)

Lemma tex_run_app live l1 l2 :
  tex_run live (l1 ++ l2) =
  match tex_run live l1 with
  | Some live' => tex_run live' l2
  | None => None
  end.
Proof.
  revert live. induction l1 as [| e l1 IH]; intros live; cbn [tex_run app];
    [reflexivity |].
  destruct (tex_step live e) as [live' |]; [apply IH | reflexivity].
Qed.

Lemma tex_live_In i live : tex_live i live = true <-> In i live.
Proof.
  unfold tex_live. rewrite existsb_exists. split.
  - intros (x & Hx & E). apply Nat.eqb_eq in E. subst x. exact Hx.
  - intros H. exists i. split; [exact H | apply Nat.eqb_refl].
Qed.

Lemma tex_live_same_ids i l1 l2 :
  same_ids l1 l2 -> tex_live i l1 = tex_live i l2.
Proof.
  intros H. destruct (tex_live i l2) eqn:E.
  - apply tex_live_In. apply H. apply tex_live_In. exact E.
  - destruct (tex_live i l1) eqn:E1; [| reflexivity].
    apply tex_live_In in E1. apply H in E1. apply tex_live_In in E1. congruence.
Qed.

Lemma tex_step_same_ids l1 l2 e l1' :
  same_ids l1 l2 -> tex_step l1 e = Some l1' ->
  exists l2', tex_step l2 e = Some l2' /\ same_ids l1' l2'.
Proof.
  intros H. destruct e; cbn [tex_step];
    rewrite ?(tex_live_same_ids _ l1 l2 H);
    try (intros E; injection E as <-; exists l2; split; [reflexivity | exact H]).
  - destruct (tex_live (tex_id tex) l2); [discriminate |].
    intros E. injection E as <-. eexists. split; [reflexivity |].
    intros i. cbn. rewrite (H i). reflexivity.
  - destruct (tex_live (tex_id tex) l2); [| discriminate].
    intros E. injection E as <-. eexists. split; [reflexivity |].
    intros i. rewrite !filter_In, (H i). reflexivity.
  - destruct (tex_live (tex_id tex) l2); [| discriminate].
    intros E. injection E as <-. exists l2. split; [reflexivity | exact H].
  - destruct (tex_live (tex_id target) l2); [| discriminate].
    intros E. injection E as <-. exists l2. split; [reflexivity | exact H].
Qed.

Lemma tex_run_same_ids evs :
  forall l1 l2 l1',
    same_ids l1 l2 -> tex_run l1 evs = Some l1' ->
    exists l2', tex_run l2 evs = Some l2' /\ same_ids l1' l2'.
Proof.
  induction evs as [| e evs IH]; intros l1 l2 l1' H; cbn [tex_run].
  - intros E. injection E as <-. exists l2. split; [reflexivity | exact H].
  - destruct (tex_step l1 e) as [m1 |] eqn:E1; [| discriminate].
    destruct (tex_step_same_ids l1 l2 e m1 H E1) as (m2 & E2 & Hm).
    rewrite E2. apply IH. exact Hm.
Qed.

Lemma tex_run_quiet live evs :
  forallb (fun e => negb (is_tex_event e)) evs = true ->
  tex_run live evs = Some live.
Proof.
  induction evs as [| e evs IH]; cbn [tex_run forallb]; [reflexivity |].
  intros H. apply andb_prop in H. destruct H as [He Hl].
  assert (Hs : tex_step live e = Some live)
    by (destruct e; cbn in He |- *; first [reflexivity | discriminate]).
  rewrite Hs. apply IH. exact Hl.
Qed.

Lemma same_ids_refl l : same_ids l l.
Proof. intros i. reflexivity. Qed.

Lemma same_ids_trans l1 l2 l3 : same_ids l1 l2 -> same_ids l2 l3 -> same_ids l1 l3.
Proof. intros H1 H2 i. rewrite (H1 i). apply H2. Qed.

#[export] Instance textures_step_preorder : PreOrder textures_step.
Proof.
  split.
  - intros s H. split; [exact H |]. exists []. split; [symmetry; apply app_nil_r |].
    exists (owned_ids s). split; [reflexivity | apply same_ids_refl].
  - intros s1 s2 s3 H1 H2 I1.
    destruct (H1 I1) as (I2 & n1 & E1 & L1 & R1 & S1).
    destruct (H2 I2) as (I3 & n2 & E2 & L2 & R2 & S2).
    split; [exact I3 |]. exists (n1 ++ n2).
    split; [rewrite E2, E1, app_assoc; reflexivity |].
    rewrite tex_run_app, R1.
    destruct (tex_run_same_ids n2 _ _ _ (fun i => symmetry (S1 i)) R2)
      as (L3 & R3 & S3).
    exists L3. split; [exact R3 |].
    intros i. rewrite <- (S3 i). apply S2.
Qed.

#[export] Instance textures_kept_preorder : PreOrder textures_kept.
Proof.
  split.
  - intros s. unfold textures_kept. repeat split.
    exists []. split; [symmetry; apply app_nil_r | reflexivity].
  - intros s1 s2 s3 (O1 & N1 & n1 & E1 & Q1) (O2 & N2 & n2 & E2 & Q2).
    unfold textures_kept. split; [congruence |]. split; [congruence |].
    exists (n1 ++ n2). split.
    + rewrite E2, E1, app_assoc. reflexivity.
    + rewrite forallb_app, Q1, Q2. reflexivity.
Qed.

Lemma textures_kept_step s s' : textures_kept s s' -> textures_step s s'.
Proof.
  intros (O & N & new & E & Q) I.
  split; [rewrite O, N; exact I |].
  exists new. split; [exact E |].
  exists (owned_ids s). split; [apply tex_run_quiet; exact Q |].
  rewrite O. apply same_ids_refl.
Qed.

Ltac textures_kept_leaf :=
  solve [ unfold textures_kept, owned_ids; cbn; split; [reflexivity |];
          split; [reflexivity |];
          first [ exists []; split; [symmetry; apply app_nil_r | reflexivity]
                | eexists [_]; split; reflexivity ] ].

(** *** The sample callbacks *)

Ltac ids_facts :=
  repeat match goal with
         | H : ids_created _ _ |- _ => destruct H
         | H : _ /\ _ |- _ => destruct H
         | H : List.NoDup (_ :: _) |- _ =>
           apply List.NoDup_cons_iff in H; cbn [In] in H
         | H : Forall _ (_ :: _) |- _ =>
           apply List.Forall_cons_iff in H
         | H : List.NoDup [] |- _ => clear H
         | H : Forall _ [] |- _ => clear H
         end.

Ltac ids_created_solve :=
  split;
  [ repeat (apply List.NoDup_cons; [cbn [In]; intuition lia |]); apply List.NoDup_nil
  | repeat (apply List.Forall_cons; [lia |]); apply List.Forall_nil ].

Ltac tex_run_solve :=
  cbn [tex_run tex_step tex_live existsb tex_id List.filter negb orb app];
  repeat (match goal with
          | |- context [Nat.eqb ?a ?b] =>
            destruct (Nat.eqb_spec a b); [try (exfalso; intuition lia) | try (exfalso; intuition lia)]
          end;
          cbn [tex_run tex_step tex_live existsb tex_id List.filter negb orb app]);
  eexists; split; [reflexivity | intros ?; cbn [In]; intuition lia].

Ltac textures_pure :=
  unfold ids_created, owned_ids, cache_ids; cbn -[tex_run Nat.eqb];
  repeat match goal with H : _ = _ |- _ => rewrite H end; cbn -[tex_run Nat.eqb];
  repeat match goal with
         | |- context [match lb_grid_prev ?lb with _ => _ end] =>
           destruct (lb_grid_prev lb) eqn:?; cbn -[tex_run Nat.eqb]
         | |- context [match light_cache ?sc with _ => _ end] =>
           destruct (light_cache sc) eqn:?; cbn -[tex_run Nat.eqb]
         end;
  let I := fresh "I" in
  intros I; ids_facts;
  split; [ids_created_solve | tex_run_solve].

Ltac textures_solve :=
  do 3 eexists;
  split; [unfold owned_ids, cache_ids; cbn; reflexivity |];
  split; [cbn; reflexivity |];
  split; [cbn; first [rewrite <- ?app_assoc; reflexivity | symmetry; apply app_nil_r] |];
  textures_pure.

(** What a run says about the textures, with the new state taken apart:
    the textures it holds, its texture counter and the calls made. *)
Lemma when_complete_textures {A : Type} (c : bake A) :
  (forall s,
     match c s with
     | (Ok _, s') =>
       exists ids' next' new,
         owned_ids s' = ids' /\
         next_tex s' = next' /\
         events s' = events s ++ new /\
         (ids_created (owned_ids s) (next_tex s) ->
          ids_created ids' next' /\
          exists live, tex_run (owned_ids s) new = Some live /\ same_ids live ids')
     | (Fatal, _) => True
     end) ->
  when_complete textures_step c.
Proof.
  intros H s a s' E. specialize (H s). rewrite E in H.
  destruct H as (ids' & next' & new & <- & <- & Ev & H).
  intros I. destruct (H I) as (I' & live & R & S).
  split; [exact I' |]. exists new. split; [exact Ev |].
  exists live. split; assumption.
Qed.

Lemma render_world_sample_textures_run s :
  match eevee_lightbake_render_world_sample s with
  | (Ok _, s') =>
    exists ids' next' new,
      owned_ids s' = ids' /\
      next_tex s' = next' /\
      events s' = events s ++ new /\
      (ids_created (owned_ids s) (next_tex s) ->
       ids_created ids' next' /\
       exists live, tex_run (owned_ids s) new = Some live /\ same_ids live ids')
  | (Fatal, _) => True
  end.
Proof.
  unfold eevee_lightbake_render_world_sample, texture_create_2D_array. run_bake. cbn.
  destruct_matches.
  all: try exact I.
  all: same_cache.
  all: textures_solve.
Qed.

Lemma render_world_sample_textures :
  when_complete textures_step eevee_lightbake_render_world_sample.
Proof. apply when_complete_textures, render_world_sample_textures_run. Qed.

Lemma render_grid_sample_textures_run s :
  match eevee_lightbake_render_grid_sample s with
  | (Ok _, s') =>
    exists ids' next' new,
      owned_ids s' = ids' /\
      next_tex s' = next' /\
      events s' = events s ++ new /\
      (ids_created (owned_ids s) (next_tex s) ->
       ids_created ids' next' /\
       exists live, tex_run (owned_ids s) new = Some live /\ same_ids live ids')
  | (Fatal, _) => True
  end.
Proof.
  unfold eevee_lightbake_render_grid_sample, texture_create_2D_array. run_bake. cbn.
  destruct_matches_with lookup_inserted.
  all: try exact I.
  all: same_cache.
  all: textures_solve.
Qed.

Lemma render_grid_sample_textures :
  when_complete textures_step eevee_lightbake_render_grid_sample.
Proof. apply when_complete_textures, render_grid_sample_textures_run. Qed.

Lemma render_probe_sample_textures_run s :
  match eevee_lightbake_render_probe_sample s with
  | (Ok _, s') =>
    exists ids' next' new,
      owned_ids s' = ids' /\
      next_tex s' = next' /\
      events s' = events s ++ new /\
      (ids_created (owned_ids s) (next_tex s) ->
       ids_created ids' next' /\
       exists live, tex_run (owned_ids s) new = Some live /\ same_ids live ids')
  | (Fatal, _) => True
  end.
Proof.
  unfold eevee_lightbake_render_probe_sample. run_bake. cbn.
  destruct_matches.
  all: try exact I.
  all: same_cache.
  all: textures_solve.
Qed.

Lemma render_probe_sample_textures :
  when_complete textures_step eevee_lightbake_render_probe_sample.
Proof. apply when_complete_textures, render_probe_sample_textures_run. Qed.

(** *** The scheduler and the passes *)

Lemma when_complete_kept {A : Type} (c : bake A) :
  respects textures_kept c -> when_complete textures_step c.
Proof.
  intros H s a s' E. apply textures_kept_step.
  pose proof (H s) as F. rewrite E in F. exact F.
Qed.

Lemma modify_lcache_kept f :
  (forall c, lc_grid_tx (f c) = lc_grid_tx c /\ lc_cube_tx (f c) = lc_cube_tx c) ->
  respects textures_kept (modify_lcache f).
Proof.
  intros Hf s. unfold modify_lcache, get_lcache, put_lcache, bind, gets,
    of_option, modify, ret, fatal.
  destruct (light_cache (scene s)) as [c |] eqn:E; cbn; [| reflexivity].
  destruct (Hf c) as [G C].
  unfold textures_kept, owned_ids, cache_ids. cbn. rewrite E, G, C.
  split; [reflexivity |]. split; [reflexivity |].
  exists []. split; [symmetry; apply app_nil_r | reflexivity].
Qed.

Ltac textures_kept_atom :=
  apply modify_lcache_kept; intros ?; split; reflexivity.

Ltac textures_pass cb :=
  repeat first
    [ exact cb
    | match goal with
      | |- when_complete _ (bind _ _) =>
        apply when_complete_bind; [typeclasses eauto | | intros ?]
      | |- when_complete _ (for_range _ _ _) =>
        apply when_complete_for_range; [typeclasses eauto | intros ?]
      | |- when_complete _ (if ?b then _ else _) => destruct b
      end
    | progress unfold for_counter, bake_grid_probe
    | solve [ apply when_complete_kept;
              respects_with textures_kept_atom textures_kept_leaf ] ].

Lemma lightbake_do_sample_textures env cb :
  when_complete textures_step cb ->
  when_complete textures_step (lightbake_do_sample env cb).
Proof. intros Hcb. unfold lightbake_do_sample. textures_pass Hcb. Qed.

Lemma lightbake_job_world_textures env :
  when_complete textures_step (lightbake_job_world env).
Proof.
  unfold lightbake_job_world.
  textures_pass (lightbake_do_sample_textures env _ render_world_sample_textures).
Qed.

Lemma lightbake_job_grids_textures env :
  when_complete textures_step (lightbake_job_grids env).
Proof.
  unfold lightbake_job_grids.
  textures_pass (lightbake_do_sample_textures env _ render_grid_sample_textures).
Qed.

Lemma lightbake_job_cubes_textures env :
  when_complete textures_step (lightbake_job_cubes env).
Proof.
  unfold lightbake_job_cubes.
  textures_pass (lightbake_do_sample_textures env _ render_probe_sample_textures).
Qed.

Lemma gather_probes_step_textures_run env counts ob s :
  match gather_probes_step env counts ob s with
  | (Ok _, s') =>
    exists ids' next' new,
      owned_ids s' = ids' /\
      next_tex s' = next' /\
      events s' = events s ++ new /\
      (ids_created (owned_ids s) (next_tex s) ->
       ids_created ids' next' /\
       exists live, tex_run (owned_ids s) new = Some live /\ same_ids live ids')
  | (Fatal, _) => True
  end.
Proof.
  destruct counts as [[gc cc] tot].
  destruct ob as [id prb | id]; cbn [gather_probes_step];
    [destruct (prb_type prb) |].
  all: unfold bind, gets, of_option, modify_lbake, get_lcache, put_lcache,
         modify, bind, gets, of_option, ret, fatal; cbn.
  all: destruct_matches.
  all: try exact I.
  all: same_cache.
  all: textures_solve.
Qed.

Lemma gather_probes_step_textures env counts ob :
  when_complete textures_step (gather_probes_step env counts ob).
Proof.
  apply when_complete_textures. intros s. apply gather_probes_step_textures_run.
Qed.

Lemma gather_probes_textures env :
  when_complete textures_step (eevee_lightbake_gather_probes env).
Proof.
  unfold eevee_lightbake_gather_probes.
  apply when_complete_bind; [typeclasses eauto | |].
  { apply when_complete_kept. respects_with fail textures_kept_leaf. }
  intros lb. apply when_complete_bind; [typeclasses eauto | |].
  - generalize (1, 1, 1). induction (lb_depsgraph lb) as [| ob obs IH]; intros counts;
      cbn [gather_probes_loop].
    + intros s a s' E. injection E as _ <-. reflexivity.
    + apply when_complete_bind;
        [typeclasses eauto | apply gather_probes_step_textures | intros ?; apply IH].
  - intros ?. apply when_complete_kept. respects_with fail textures_kept_leaf.
Qed.

(** Releasing the resources frees [grid_prev], if there is one, and
    nothing else. *)
Lemma delete_resources_textures_run s :
  match eevee_lightbake_delete_resources s with
  | (Ok _, s') =>
    exists ids' next' new,
      owned_ids s' = ids' /\
      next_tex s' = next' /\
      events s' = events s ++ new /\
      (ids_created (owned_ids s) (next_tex s) ->
       ids_created ids' next' /\
       exists live, tex_run (owned_ids s) new = Some live /\ same_ids live ids')
  | (Fatal, _) => True
  end.
Proof.
  unfold eevee_lightbake_delete_resources. run_bake. cbn.
  destruct_matches.
  all: try exact I.
  all: textures_solve.
Qed.

Lemma delete_resources_textures :
  when_complete textures_step eevee_lightbake_delete_resources.
Proof. apply when_complete_textures, delete_resources_textures_run. Qed.

Lemma EEVEE_lightbake_job_textures env :
  when_complete textures_step (EEVEE_lightbake_job env).
Proof.
  unfold EEVEE_lightbake_job.
  apply when_complete_bind; [typeclasses eauto | |].
  { apply when_complete_kept. respects_with fail textures_kept_leaf. }
  intros _. apply when_complete_bind; [typeclasses eauto | |].
  { apply when_complete_kept. respects_with fail textures_kept_leaf. }
  intros _. apply when_complete_bind; [typeclasses eauto | |].
  { apply when_complete_kept. respects_with fail textures_kept_leaf. }
  intros _. apply when_complete_bind;
    [typeclasses eauto | apply gather_probes_textures |].
  intros _. apply when_complete_bind;
    [typeclasses eauto | apply lightbake_job_world_textures |].
  intros _. apply when_complete_bind;
    [typeclasses eauto | apply lightbake_job_grids_textures |].
  intros _. apply when_complete_bind;
    [typeclasses eauto | apply lightbake_job_cubes_textures |].
  intros _. apply when_complete_bind;
    [typeclasses eauto | | intros _; apply delete_resources_textures].
  apply when_complete_kept. respects_with textures_kept_atom textures_kept_leaf.
Qed.

(** *** Allocation and the whole bake *)

Lemma create_resources_textures_run env s :
  lb_grid_prev (lbake s) = None ->
  match eevee_lightbake_create_resources env s with
  | (Ok _, s') =>
    exists ids' next' new,
      owned_ids s' = ids' /\
      next_tex s' = next' /\
      events s' = events s ++ new /\
      (ids_created (owned_ids s) (next_tex s) ->
       ids_created ids' next' /\
       exists live, tex_run (owned_ids s) new = Some live /\ same_ids live ids')
  | (Fatal, _) => True
  end.
Proof.
  intros Hprev.
  destruct s as [lb [bounces v cube lc] cd p nt ev]. cbn in Hprev.
  unfold eevee_lightbake_create_resources, EEVEE_lightcache_create,
    EEVEE_lightcache_free, texture_create_2D_array, modify_lcache, get_lcache,
    put_lcache, emit, modify_lbake, bind, gets, of_option, modify, ret, fatal.
  cbn_resources.
  destruct_matches_with cbn_resources.
  all: try exact I.
  all: same_cache.
  all: textures_solve.
Qed.

Lemma create_resources_textures env s s' :
  lb_grid_prev (lbake s) = None ->
  eevee_lightbake_create_resources env s = (Ok tt, s') ->
  textures_step s s'.
Proof.
  intros Hprev E. pose proof (create_resources_textures_run env s Hprev) as H.
  rewrite E in H. destruct H as (ids' & next' & new & <- & <- & Ev & H).
  intros I. destruct (H I) as (I' & live & R & S).
  split; [exact I' |]. exists new. split; [exact Ev |].
  exists live. split; assumption.
Qed.

Lemma count_probes_grid_prev lb :
  lb_grid_prev (eevee_lightbake_count_probes lb) = lb_grid_prev lb.
Proof.
  unfold eevee_lightbake_count_probes. cbn zeta.
  match goal with
  | |- lb_grid_prev (fold_left _ ?obs ?x) = _ =>
    change (lb_grid_prev lb) with (lb_grid_prev x); generalize obs; generalize x
  end.
  intros x obs. revert x. induction obs as [| ob obs IH]; intros x; cbn [fold_left].
  - reflexivity.
  - rewrite IH. destruct ob as [id prb | id]; cbn [count_probes_step];
      [destruct (prb_type prb) |]; reflexivity.
Qed.

Lemma EEVEE_lightbake_job_data_alloc_textures env dg run_as_job s0 s1 :
  EEVEE_lightbake_job_data_alloc env dg run_as_job s0 = (Ok tt, s1) ->
  ids_created (cache_ids (scene s0)) (next_tex s0) ->
  ids_created (owned_ids s1) (next_tex s1) /\
  exists new,
    events s1 = events s0 ++ new /\
    exists live,
      tex_run (cache_ids (scene s0)) new = Some live /\
      same_ids live (owned_ids s1).
Proof.
  intros E I0. unfold EEVEE_lightbake_job_data_alloc in E.
  apply bind_ok_inv in E. destruct E as ([] & sa & Ea & E). injection Ea as <-.
  apply bind_ok_inv in E. destruct E as ([] & sb & Eb & E).
  apply bind_ok_inv in E. destruct E as ([] & sc & Ec & E). injection Ec as <-.
  apply bind_ok_inv in E. destruct E as ([] & sd & Ed & E). injection Ed as <-.
  apply bind_ok_inv in E. destruct E as ([] & se & Ee & E). injection E as <-.
  assert (Hb : lb_grid_prev (lbake sb) = None /\ scene sb = scene s0 /\
               next_tex sb = next_tex s0 /\ events sb = events s0).
  { destruct run_as_job; injection Eb as <-; repeat split. }
  destruct Hb as (Pb & Sb & Nb & Evb).
  match type of Ee with
  | eevee_lightbake_create_resources env ?x = _ =>
    assert (Px : lb_grid_prev (lbake x) = None);
      [| pose proof (create_resources_textures env x se Px Ee) as T;
         assert (Ox : owned_ids x = cache_ids (scene s0));
         [| assert (Nx : next_tex x = next_tex s0) by exact Nb;
            assert (Evx : events x = events s0 ++ [DRW_opengl_context_enable])
              by (cbn; rewrite Evb; reflexivity) ] ]
  end.
  { change (lb_grid_prev (eevee_lightbake_count_probes (lbake sb)) = None).
    rewrite count_probes_grid_prev. exact Pb. }
  { unfold owned_ids. rewrite Px. cbn. rewrite Sb. reflexivity. }
  unfold textures_step in T. rewrite Ox, Nx in T. destruct (T I0) as (I1 & new & E1 & live & R1 & S1).
  split; [exact I1 |].
  exists ([DRW_opengl_context_enable] ++ new ++ [DRW_opengl_context_disable]).
  split.
  - cbn [events set_events]. rewrite E1, Evx, <- !app_assoc. reflexivity.
  - exists live. split; [| exact S1].
    change ([DRW_opengl_context_enable] ++ new ++ [DRW_opengl_context_disable])
      with (DRW_opengl_context_enable :: (new ++ [DRW_opengl_context_disable])).
    cbn [tex_run tex_step]. rewrite tex_run_app, R1. reflexivity.
Qed.

Lemma delete_resources_grid_prev s s' :
  eevee_lightbake_delete_resources s = (Ok tt, s') ->
  lb_grid_prev (lbake s') = None.
Proof.
  unfold eevee_lightbake_delete_resources. run_bake. cbn.
  destruct_matches.
  all: try discriminate.
  all: intros E; injection E as <-; cbn; try reflexivity; assumption.
Qed.

Lemma EEVEE_lightbake_job_grid_prev env s s' :
  EEVEE_lightbake_job env s = (Ok tt, s') ->
  lb_grid_prev (lbake s') = None /\ exists c', light_cache (scene s') = Some c'.
Proof.
  intros E.
  destruct (EEVEE_lightbake_job_flags env s s' E) as (_ & _ & _ & c' & Hc' & _).
  split; [| exists c'; exact Hc'].
  unfold EEVEE_lightbake_job in E.
  do 8 (apply bind_ok_inv in E; destruct E as ([] & ? & _ & E)).
  exact (delete_resources_grid_prev _ _ E).
Qed.

(** X20: over a whole bake - allocation, then the job - that runs to its
    end, every texture array that is read, drawn into or freed exists at
    that point: none is used after it was freed, none is freed twice, and
    each is created under an identity not in use.  The textures left when
    the bake ends are exactly the two of the cache, distinct from each
    other: [grid_prev] is released, and so is every copy made on the way
    and, if the cache was replaced, the two textures of the old cache. *)
Theorem bake_run_textures env dg run_as_job s0 s' :
  ids_created (cache_ids (scene s0)) (next_tex s0) ->
  bake_run env dg run_as_job s0 = (Ok tt, s') ->
  lb_grid_prev (lbake s') = None /\
  exists c' new live,
    light_cache (scene s') = Some c' /\
    tex_id (lc_grid_tx c') <> tex_id (lc_cube_tx c') /\
    events s' = events s0 ++ new /\
    tex_run (cache_ids (scene s0)) new = Some live /\
    (forall i, In i live <->
               i = tex_id (lc_grid_tx c') \/ i = tex_id (lc_cube_tx c')).
Proof.
  intros I0 H. unfold bake_run in H.
  apply bind_ok_inv in H. destruct H as ([] & s1 & Ha & Hj).
  destruct (EEVEE_lightbake_job_data_alloc_textures env dg run_as_job s0 s1 Ha I0)
    as (I1 & n1 & E1 & L1 & R1 & S1).
  destruct (EEVEE_lightbake_job_textures env s1 tt s' Hj I1)
    as (I2 & n2 & E2 & L2 & R2 & S2).
  destruct (EEVEE_lightbake_job_grid_prev env s1 s' Hj) as (P & c' & Hc').
  split; [exact P |].
  destruct (tex_run_same_ids n2 _ _ _ (fun i => symmetry (S1 i)) R2)
    as (L3 & R3 & S3).
  exists c', (n1 ++ n2), L3.
  split; [exact Hc' |].
  assert (O : owned_ids s' = [tex_id (lc_grid_tx c'); tex_id (lc_cube_tx c')]).
  { unfold owned_ids, cache_ids. rewrite P, Hc'. reflexivity. }
  rewrite O in I2, S2.
  split.
  { destruct I2 as (N & _). apply List.NoDup_cons_iff in N. cbn [In] in N.
    intros Heq. apply (proj1 N). left. symmetry. exact Heq. }
  split; [rewrite E2, E1, app_assoc; reflexivity |].
  split; [rewrite tex_run_app, R1; exact R3 |].
  intros i. rewrite <- (S3 i), (S2 i). cbn [In]. intuition.
Qed.

Lemma bake_run_textures_witness :
  exists s' c' live,
    bake_run (example_env never_stop) example_depsgraph false
             (bake_start example_scene) = (Ok tt, s') /\
    light_cache (scene s') = Some c' /\
    lb_grid_prev (lbake s') = None /\
    tex_run [] (events s') = Some live /\
    (forall i, In i live <->
               i = tex_id (lc_grid_tx c') \/ i = tex_id (lc_cube_tx c')).
Proof.
  assert (R : exists s',
    bake_run (example_env never_stop) example_depsgraph false
             (bake_start example_scene) = (Ok tt, s')).
  { eexists. vm_compute. reflexivity. }
  destruct R as (s' & R).
  assert (I0 : ids_created (cache_ids (scene (bake_start example_scene)))
                           (next_tex (bake_start example_scene))).
  { split; [apply List.NoDup_nil | apply List.Forall_nil]. }
  destruct (bake_run_textures _ _ _ _ _ I0 R)
    as (P & c' & new & live & Hc & _ & E & T & L).
  exists s', c', live. split; [exact R |]. split; [exact Hc |].
  split; [exact P |]. split; [| exact L].
  rewrite E. exact T.
Defined.

(** ** The probes the cache shows *)

(** X19: the reflection pass keeps the cube count of the cache in step
    with the cubes rendered: it starts from 1, the world, and when the pass
    completes, cancelled or not, [cube_count] is 1 plus the number of cube
    samples completed in the pass; the grid count is untouched. *)
Theorem lightbake_job_cubes_shown env s s' :
  lightbake_job_cubes env s = (Ok tt, s') ->
  exists c c',
    light_cache (scene s) = Some c /\
    light_cache (scene s') = Some c' /\
    lc_cube_count c' = 1 + (lb_done (lbake s') - lb_done (lbake s)) /\
    lc_grid_count c' = lc_grid_count c.
Proof. apply lightbake_job_cubes_in_step. Qed.

Lemma lightbake_job_cubes_shown_witness :
  exists s' c',
    lightbake_job_cubes (example_env never_stop) example_cube_sample_state =
      (Ok tt, s') /\
    light_cache (scene s') = Some c' /\
    lb_done (lbake s') = lb_done (lbake example_cube_sample_state) + 1 /\
    lc_cube_count c' = 2.
Proof.
  assert (R : exists s',
    lightbake_job_cubes (example_env never_stop) example_cube_sample_state =
      (Ok tt, s')).
  { eexists. vm_compute. reflexivity. }
  destruct R as (s' & R).
  destruct (lightbake_job_cubes_shown _ _ _ R) as (c & c' & _ & Hc' & Hn & _).
  exists s', c'. split; [exact R |]. split; [exact Hc' |].
  assert (D : lb_done (lbake s') = lb_done (lbake example_cube_sample_state) + 1).
  { revert R. vm_compute. intros R. injection R as <-. reflexivity. }
  split; [exact D |]. rewrite Hn, D. lia.
Defined.

#[export] Instance grids_shown_kept_preorder : PreOrder grids_shown_kept.
Proof.
  split.
  - intros s. reflexivity.
  - intros s1 s2 s3 H1 H2. unfold grids_shown_kept in *. congruence.
Qed.

Ltac grids_shown_leaf := solve [unfold grids_shown_kept; cbn; reflexivity].

Lemma modify_lcache_grids_shown f :
  (forall c, lc_grid_count (f c) = lc_grid_count c) ->
  respects grids_shown_kept (modify_lcache f).
Proof.
  intros Hf s. unfold modify_lcache, get_lcache, put_lcache, bind, gets,
    of_option, modify, ret, fatal.
  destruct (light_cache (scene s)) as [c |] eqn:E; cbn; [| reflexivity].
  unfold grids_shown_kept. cbn. rewrite E. cbn. rewrite Hf. reflexivity.
Qed.

Lemma render_grid_sample_grids_shown :
  when_complete grids_shown_kept eevee_lightbake_render_grid_sample.
Proof.
  intros s [] s' E. pose proof (render_grid_sample_run s) as R. rewrite E in R.
  destruct R as (c & c' & _ & _ & Hc & Hc' & _ & _ & _ & _ & _ & _ & G & _).
  unfold grids_shown_kept. rewrite Hc, Hc'. cbn. rewrite G. reflexivity.
Qed.

Ltac grids_shown_pass cb :=
  repeat first
    [ exact cb
    | match goal with
      | |- when_complete _ (bind _ _) =>
        apply when_complete_bind; [typeclasses eauto | | intros ?]
      | |- when_complete _ (for_range _ _ _) =>
        apply when_complete_for_range; [typeclasses eauto | intros ?]
      | |- when_complete _ (if ?b then _ else _) => destruct b
      end
    | progress unfold for_counter, bake_grid_probe
    | solve [ apply when_complete_respects;
              respects_with
                ltac:(idtac; apply modify_lcache_grids_shown; intros ?; reflexivity)
                grids_shown_leaf ] ].

Lemma lightbake_job_grids_grids_shown env :
  when_complete grids_shown_kept (lightbake_job_grids env).
Proof.
  unfold lightbake_job_grids.
  assert (Hs : when_complete grids_shown_kept
                 (lightbake_do_sample env eevee_lightbake_render_grid_sample)).
  { unfold lightbake_do_sample. grids_shown_pass render_grid_sample_grids_shown. }
  grids_shown_pass Hs.
Qed.

(** A world sample that is rendered shows all the grids and one cube. *)
Lemma lightbake_job_world_shown env s c s' :
  G_is_break env (polls s) = false ->
  light_cache (scene s) = Some c ->
  flag_test (lc_flag c) LIGHTCACHE_UPDATE_WORLD = true ->
  lightbake_job_world env s = (Ok tt, s') ->
  exists c',
    light_cache (scene s') = Some c' /\
    lc_grid_count c' = lb_grid_count (lbake s) /\
    lc_cube_count c' = 1.
Proof.
  intros Hb Hc Hf. unfold lightbake_job_world. rewrite bind_run.
  unfold get_lcache at 1. rewrite bind_run. cbn [gets]. rewrite Hc.
  cbn [of_option ret]. rewrite Hf.
  rewrite bind_run. cbn [modify_lbake modify]. rewrite bind_run.
  set (s0 := set_lbake (set_lb_probe PROBE_NULL (lbake s)) s).
  destruct (lightbake_do_sample_clear env eevee_lightbake_render_world_sample s0 Hb)
    as (s1 & pre & E1 & _ & _ & _ & H).
  cbn zeta in H.
  destruct (context_enable_context_frame (set_polls (S (polls s0)) s0))
    as (s1' & E1' & C1).
  rewrite E1 in E1'. injection E1' as <-.
  destruct C1 as (F1 & S1 & _). destruct F1 as (J1 & _).
  unfold job_counters in J1. cbn in J1, S1.
  assert (G1 : lb_grid_count (lbake s1) = lb_grid_count (lbake s)) by congruence.
  pose proof (render_world_sample_passes_run
                (set_events (events s1 ++ [DRW_custom_pipeline]) s1)) as Rn.
  destruct (eevee_lightbake_render_world_sample _) as [[[] |] s3].
  2:{ rewrite H. discriminate. }
  destruct Rn as (c2 & c3 & prev & vp & _ & Hc3 & _ & _ & _ & _ & Cc & Cg & _).
  cbn in Cg.
  destruct H as (s6 & E6 & _ & E'). rewrite E'. cbn [ret].
  intros E. injection E as <-.
  match type of E6 with
  | eevee_lightbake_context_disable ?x = _ =>
    destruct (context_disable_context_frame x) as (s6' & E6' & C6)
  end.
  rewrite E6 in E6'. injection E6' as <-.
  destruct C6 as (_ & S6 & _). cbn in S6.
  exists c3. rewrite S6. split; [exact Hc3 |]. split; [congruence | exact Cc].
Qed.

Lemma delete_resources_context_frame :
  respects context_frame eevee_lightbake_delete_resources.
Proof.
  respects_with fail ltac:(solve [split; [callback_leaf | repeat split]]).
Qed.

(** X21: a whole bake - allocation, then the job - that is never cancelled
    and runs to its end leaves a cache that shows every probe of the scene:
    [grid_count] is 1 plus the number of grid probes and [cube_count] is 1
    plus the number of cube probes, the 1 being the world. *)
Theorem bake_run_probes_shown env dg run_as_job s0 s' :
  (forall k, G_is_break env k = false) ->
  bake_run env dg run_as_job s0 = (Ok tt, s') ->
  exists c',
    light_cache (scene s') = Some c' /\
    lc_grid_count c' = 1 + Z.of_nat (length (grid_probes dg)) /\
    lc_cube_count c' = 1 + Z.of_nat (length (cube_probes dg)).
Proof.
  intros Hgo H. unfold bake_run in H.
  apply bind_ok_inv in H. destruct H as ([] & s1 & Ha & Hj).
  pose proof (EEVEE_lightbake_job_data_alloc_run env dg run_as_job s0) as A.
  rewrite Ha in A. destruct A as (_ & _ & _ & _ & A).
  destruct (A eq_refl) as (_ & Ag & Ac & _ & _).
  destruct (EEVEE_lightbake_job_data_alloc_flag env dg run_as_job s0 s1 Ha)
    as (_ & c1 & Hc1 & Hf1).
  destruct (EEVEE_lightbake_job_setup_frame env s1) as (s2 & F2 & Ejob).
  rewrite Ejob in Hj. clear Ejob.
  destruct F2 as (F2 & S2 & _). destruct F2 as (J2 & _). unfold job_counters in J2.
  apply bind_ok_inv in Hj. destruct Hj as ([] & s3 & Hg & Hs).
  pose proof (eevee_lightbake_gather_probes_run env s2) as G. rewrite Hg in G.
  destruct G as (_ & _ & L3 & _ & Gg & Gc & _).
  assert (Hc3 : exists c3, light_cache (scene s3) = Some c3 /\
                           lc_flag c3 = LIGHTCACHE_allocated_flag).
  { rewrite S2, Hc1 in L3. cbn in L3.
    destruct (light_cache (scene s3)) as [c3 |]; [| discriminate].
    exists c3. split; [reflexivity |]. cbn in L3. congruence. }
  destruct Hc3 as (c3 & Hc3 & Hf3).
  unfold lightbake_job_samples in Hs.
  apply bind_ok_inv in Hs. destruct Hs as ([] & s4 & Hw & Hs).
  apply bind_ok_inv in Hs. destruct Hs as ([] & s5 & Hgr & Hs).
  apply bind_ok_inv in Hs. destruct Hs as ([] & s6 & Hcu & Hs).
  apply bind_ok_inv in Hs. destruct Hs as ([] & s7 & Hb & Hd).
  destruct (lightbake_job_world_shown env s3 c3 s4 (Hgo _) Hc3
              ltac:(rewrite Hf3; reflexivity) Hw) as (c4 & Hc4 & G4 & _).
  pose proof (lightbake_job_world_completes env Hgo s3 c3 s4 Hc3 Hw)
    as (_ & _ & _ & _ & _ & C4).
  pose proof (lightbake_job_grids_grids_shown env s4 tt s5 Hgr) as G5.
  unfold grids_shown_kept in G5. rewrite Hc4 in G5. cbn in G5.
  pose proof (lightbake_job_grids_completes env Hgo s4 s5 Hgr)
    as (_ & _ & _ & _ & _ & C5).
  destruct (lightbake_job_cubes_in_step env s5 s6 Hcu)
    as (c5 & c6 & Hc5 & Hc6 & N6 & G6).
  pose proof (lightbake_job_cubes_completes env Hgo s5 s6 Hcu) as (_ & D6 & _).
  rewrite Hc5 in G5. cbn in G5. injection G5 as G5.
  apply modify_lcache_ok in Hb. destruct Hb as (c6' & Hc6' & ->).
  rewrite Hc6 in Hc6'. injection Hc6' as <-.
  pose proof (delete_resources_context_frame
                (set_scene
                   (set_light_cache
                      (Some (set_lc_flag (Z.lor (lc_flag c6) LIGHTCACHE_BAKED) c6))
                      (scene s6)) s6)) as Fd.
  rewrite Hd in Fd. destruct Fd as (_ & Sd & _). cbn in Sd.
  eexists. rewrite Sd. cbn. split; [reflexivity |]. cbn.
  assert (Hg3 : lb_grid_count (lbake s3) = 1 + Z.of_nat (length (grid_probes dg)))
    by congruence.
  assert (Hcc : lb_cube_count (lbake s5) = 1 + Z.of_nat (length (cube_probes dg)))
    by congruence.
  split; [congruence |]. rewrite N6, D6, Hcc. lia.
Qed.

Lemma bake_run_probes_shown_witness :
  exists s' c',
    bake_run (example_env never_stop) example_depsgraph false
             (bake_start example_scene) = (Ok tt, s') /\
    light_cache (scene s') = Some c' /\
    lc_grid_count c' = 1 + Z.of_nat (length (grid_probes example_depsgraph)) /\
    lc_cube_count c' = 1 + Z.of_nat (length (cube_probes example_depsgraph)).
Proof.
  assert (R : exists s',
    bake_run (example_env never_stop) example_depsgraph false
             (bake_start example_scene) = (Ok tt, s')).
  { eexists. vm_compute. reflexivity. }
  destruct R as (s' & R).
  destruct (bake_run_probes_shown (example_env never_stop) example_depsgraph false
              (bake_start example_scene) s' (fun k => eq_refl) R)
    as (c' & Hc & Hg & Hcu).
  exists s', c'. repeat split; assumption.
Defined.
